(** * anotaai-api: access counter and user store

    A shallow embedding of the service layer (AccessCounterService,
    UserService), the Mongoose models they call, the request
    validation middleware and the controllers, with the properties the
    specification states about them.

    The document database is the state: a collection is a list of
    documents in natural (insertion) order; every Mongoose call is one
    function from the collection to a result and the next collection.
    The process environment (clock, NODE_ENV, ObjectId generator,
    bcrypt) is an explicit record. *)

From Stdlib Require Import ZArith NArith List String Ascii Bool Lia.
From Stdlib Require Import Permutation Sorted.
Import ListNotations.
Open Scope Z_scope.

Set Warnings "-register-all".

(** ** JavaScript strings

    A JavaScript string is a sequence of UTF-16 code units. *)
Definition jsstring : Type := list N.

Module JS.

(** ASCII literal of the source as code units. *)
Fixpoint lit (s : string) : jsstring :=
  match s with
  | EmptyString => []
  | String a r => N_of_ascii a :: lit r
  end.

Definition eqb (a b : jsstring) : bool :=
  if list_eq_dec N.eq_dec a b then true else false.

(** WhiteSpace and LineTerminator of ECMAScript: the characters that
    [String.prototype.trim] strips, [parseInt] skips and the regular
    expression class [\s] matches. *)
Definition isWhiteSpace (c : N) : bool :=
  ((9 <=? c) && (c <=? 13) || (c =? 32) || (c =? 160) || (c =? 5760)
   || (8192 <=? c) && (c <=? 8202) || (c =? 8232) || (c =? 8233)
   || (c =? 8239) || (c =? 8287) || (c =? 12288) || (c =? 65279))%N.

Fixpoint trimStart (s : jsstring) : jsstring :=
  match s with
  | c :: r => if isWhiteSpace c then trimStart r else s
  | [] => []
  end.

Definition trimEnd (s : jsstring) : jsstring := rev (trimStart (rev s)).

Definition trim (s : jsstring) : jsstring := trimEnd (trimStart s).

(** *** Code points

    [String.prototype.toLowerCase] works on the code points of the
    string (StringToCodePoints): a lead surrogate followed by a trail
    surrogate is one code point, any other code unit is its own. *)
Definition leadSurrogate (c : N) : bool := ((0xD800 <=? c) && (c <=? 0xDBFF))%N.
Definition trailSurrogate (c : N) : bool := ((0xDC00 <=? c) && (c <=? 0xDFFF))%N.

Definition codePointOf (lead trail : N) : N :=
  (0x10000 + (lead - 0xD800) * 0x400 + (trail - 0xDC00))%N.

Fixpoint codePoints (s : jsstring) : list N :=
  match s with
  | [] => []
  | c :: r =>
      match r with
      | d :: r' =>
          if leadSurrogate c && trailSurrogate d
          then codePointOf c d :: codePoints r'
          else c :: codePoints r
      | [] => [c]
      end
  end.

(** UTF16EncodeCodePoint *)
Definition codeUnits (cp : N) : jsstring :=
  if ((0x10000 <=? cp) && (cp <=? 0x10FFFF))%N
  then [0xD800 + (cp - 0x10000) / 0x400; 0xDC00 + (cp - 0x10000) mod 0x400]%N
  else [cp].

(** *** Case mapping

    [toLowerCase] follows the Unicode Default Case Conversion with
    the mappings of the Unicode Character Database that depend on no
    language.  The tables are those of version 14.0, the one of the
    ICU in Node 18 (the runtime of the Dockerfile).

    The simple lower-case mappings of UnicodeData.txt: an entry
    [(first, last, step, target)] maps the code points [first],
    [first + step], ... up to [last] onto [target], [target + step],
    and so on. *)
Definition lowercaseTable : list (N * N * N * N) :=
  [(0x41, 0x5A, 1, 0x61); (0xC0, 0xD6, 1, 0xE0); (0xD8, 0xDE, 1, 0xF8);
   (0x100, 0x12E, 2, 0x101); (0x130, 0x130, 1, 0x69);
   (0x132, 0x136, 2, 0x133); (0x139, 0x147, 2, 0x13A);
   (0x14A, 0x176, 2, 0x14B); (0x178, 0x178, 1, 0xFF);
   (0x179, 0x17D, 2, 0x17A); (0x181, 0x181, 1, 0x253);
   (0x182, 0x184, 2, 0x183); (0x186, 0x186, 1, 0x254);
   (0x187, 0x187, 1, 0x188); (0x189, 0x18A, 1, 0x256);
   (0x18B, 0x18B, 1, 0x18C); (0x18E, 0x18E, 1, 0x1DD);
   (0x18F, 0x18F, 1, 0x259); (0x190, 0x190, 1, 0x25B);
   (0x191, 0x191, 1, 0x192); (0x193, 0x193, 1, 0x260);
   (0x194, 0x194, 1, 0x263); (0x196, 0x196, 1, 0x269);
   (0x197, 0x197, 1, 0x268); (0x198, 0x198, 1, 0x199);
   (0x19C, 0x19C, 1, 0x26F); (0x19D, 0x19D, 1, 0x272);
   (0x19F, 0x19F, 1, 0x275); (0x1A0, 0x1A4, 2, 0x1A1);
   (0x1A6, 0x1A6, 1, 0x280); (0x1A7, 0x1A7, 1, 0x1A8);
   (0x1A9, 0x1A9, 1, 0x283); (0x1AC, 0x1AC, 1, 0x1AD);
   (0x1AE, 0x1AE, 1, 0x288); (0x1AF, 0x1AF, 1, 0x1B0);
   (0x1B1, 0x1B2, 1, 0x28A); (0x1B3, 0x1B5, 2, 0x1B4);
   (0x1B7, 0x1B7, 1, 0x292); (0x1B8, 0x1B8, 1, 0x1B9);
   (0x1BC, 0x1BC, 1, 0x1BD); (0x1C4, 0x1C4, 1, 0x1C6);
   (0x1C5, 0x1C5, 1, 0x1C6); (0x1C7, 0x1C7, 1, 0x1C9);
   (0x1C8, 0x1C8, 1, 0x1C9); (0x1CA, 0x1CA, 1, 0x1CC);
   (0x1CB, 0x1DB, 2, 0x1CC); (0x1DE, 0x1EE, 2, 0x1DF);
   (0x1F1, 0x1F1, 1, 0x1F3); (0x1F2, 0x1F4, 2, 0x1F3);
   (0x1F6, 0x1F6, 1, 0x195); (0x1F7, 0x1F7, 1, 0x1BF);
   (0x1F8, 0x21E, 2, 0x1F9); (0x220, 0x220, 1, 0x19E);
   (0x222, 0x232, 2, 0x223); (0x23A, 0x23A, 1, 0x2C65);
   (0x23B, 0x23B, 1, 0x23C); (0x23D, 0x23D, 1, 0x19A);
   (0x23E, 0x23E, 1, 0x2C66); (0x241, 0x241, 1, 0x242);
   (0x243, 0x243, 1, 0x180); (0x244, 0x244, 1, 0x289);
   (0x245, 0x245, 1, 0x28C); (0x246, 0x24E, 2, 0x247);
   (0x370, 0x372, 2, 0x371); (0x376, 0x376, 1, 0x377);
   (0x37F, 0x37F, 1, 0x3F3); (0x386, 0x386, 1, 0x3AC);
   (0x388, 0x38A, 1, 0x3AD); (0x38C, 0x38C, 1, 0x3CC);
   (0x38E, 0x38F, 1, 0x3CD); (0x391, 0x3A1, 1, 0x3B1);
   (0x3A3, 0x3AB, 1, 0x3C3); (0x3CF, 0x3CF, 1, 0x3D7);
   (0x3D8, 0x3EE, 2, 0x3D9); (0x3F4, 0x3F4, 1, 0x3B8);
   (0x3F7, 0x3F7, 1, 0x3F8); (0x3F9, 0x3F9, 1, 0x3F2);
   (0x3FA, 0x3FA, 1, 0x3FB); (0x3FD, 0x3FF, 1, 0x37B);
   (0x400, 0x40F, 1, 0x450); (0x410, 0x42F, 1, 0x430);
   (0x460, 0x480, 2, 0x461); (0x48A, 0x4BE, 2, 0x48B);
   (0x4C0, 0x4C0, 1, 0x4CF); (0x4C1, 0x4CD, 2, 0x4C2);
   (0x4D0, 0x52E, 2, 0x4D1); (0x531, 0x556, 1, 0x561);
   (0x10A0, 0x10C5, 1, 0x2D00); (0x10C7, 0x10C7, 1, 0x2D27);
   (0x10CD, 0x10CD, 1, 0x2D2D); (0x13A0, 0x13EF, 1, 0xAB70);
   (0x13F0, 0x13F5, 1, 0x13F8); (0x1C90, 0x1CBA, 1, 0x10D0);
   (0x1CBD, 0x1CBF, 1, 0x10FD); (0x1E00, 0x1E94, 2, 0x1E01);
   (0x1E9E, 0x1E9E, 1, 0xDF); (0x1EA0, 0x1EFE, 2, 0x1EA1);
   (0x1F08, 0x1F0F, 1, 0x1F00); (0x1F18, 0x1F1D, 1, 0x1F10);
   (0x1F28, 0x1F2F, 1, 0x1F20); (0x1F38, 0x1F3F, 1, 0x1F30);
   (0x1F48, 0x1F4D, 1, 0x1F40); (0x1F59, 0x1F5F, 2, 0x1F51);
   (0x1F68, 0x1F6F, 1, 0x1F60); (0x1F88, 0x1F8F, 1, 0x1F80);
   (0x1F98, 0x1F9F, 1, 0x1F90); (0x1FA8, 0x1FAF, 1, 0x1FA0);
   (0x1FB8, 0x1FB9, 1, 0x1FB0); (0x1FBA, 0x1FBB, 1, 0x1F70);
   (0x1FBC, 0x1FBC, 1, 0x1FB3); (0x1FC8, 0x1FCB, 1, 0x1F72);
   (0x1FCC, 0x1FCC, 1, 0x1FC3); (0x1FD8, 0x1FD9, 1, 0x1FD0);
   (0x1FDA, 0x1FDB, 1, 0x1F76); (0x1FE8, 0x1FE9, 1, 0x1FE0);
   (0x1FEA, 0x1FEB, 1, 0x1F7A); (0x1FEC, 0x1FEC, 1, 0x1FE5);
   (0x1FF8, 0x1FF9, 1, 0x1F78); (0x1FFA, 0x1FFB, 1, 0x1F7C);
   (0x1FFC, 0x1FFC, 1, 0x1FF3); (0x2126, 0x2126, 1, 0x3C9);
   (0x212A, 0x212A, 1, 0x6B); (0x212B, 0x212B, 1, 0xE5);
   (0x2132, 0x2132, 1, 0x214E); (0x2160, 0x216F, 1, 0x2170);
   (0x2183, 0x2183, 1, 0x2184); (0x24B6, 0x24CF, 1, 0x24D0);
   (0x2C00, 0x2C2F, 1, 0x2C30); (0x2C60, 0x2C60, 1, 0x2C61);
   (0x2C62, 0x2C62, 1, 0x26B); (0x2C63, 0x2C63, 1, 0x1D7D);
   (0x2C64, 0x2C64, 1, 0x27D); (0x2C67, 0x2C6B, 2, 0x2C68);
   (0x2C6D, 0x2C6D, 1, 0x251); (0x2C6E, 0x2C6E, 1, 0x271);
   (0x2C6F, 0x2C6F, 1, 0x250); (0x2C70, 0x2C70, 1, 0x252);
   (0x2C72, 0x2C72, 1, 0x2C73); (0x2C75, 0x2C75, 1, 0x2C76);
   (0x2C7E, 0x2C7F, 1, 0x23F); (0x2C80, 0x2CE2, 2, 0x2C81);
   (0x2CEB, 0x2CED, 2, 0x2CEC); (0x2CF2, 0x2CF2, 1, 0x2CF3);
   (0xA640, 0xA66C, 2, 0xA641); (0xA680, 0xA69A, 2, 0xA681);
   (0xA722, 0xA72E, 2, 0xA723); (0xA732, 0xA76E, 2, 0xA733);
   (0xA779, 0xA77B, 2, 0xA77A); (0xA77D, 0xA77D, 1, 0x1D79);
   (0xA77E, 0xA786, 2, 0xA77F); (0xA78B, 0xA78B, 1, 0xA78C);
   (0xA78D, 0xA78D, 1, 0x265); (0xA790, 0xA792, 2, 0xA791);
   (0xA796, 0xA7A8, 2, 0xA797); (0xA7AA, 0xA7AA, 1, 0x266);
   (0xA7AB, 0xA7AB, 1, 0x25C); (0xA7AC, 0xA7AC, 1, 0x261);
   (0xA7AD, 0xA7AD, 1, 0x26C); (0xA7AE, 0xA7AE, 1, 0x26A);
   (0xA7B0, 0xA7B0, 1, 0x29E); (0xA7B1, 0xA7B1, 1, 0x287);
   (0xA7B2, 0xA7B2, 1, 0x29D); (0xA7B3, 0xA7B3, 1, 0xAB53);
   (0xA7B4, 0xA7C2, 2, 0xA7B5); (0xA7C4, 0xA7C4, 1, 0xA794);
   (0xA7C5, 0xA7C5, 1, 0x282); (0xA7C6, 0xA7C6, 1, 0x1D8E);
   (0xA7C7, 0xA7C9, 2, 0xA7C8); (0xA7D0, 0xA7D0, 1, 0xA7D1);
   (0xA7D6, 0xA7D8, 2, 0xA7D7); (0xA7F5, 0xA7F5, 1, 0xA7F6);
   (0xFF21, 0xFF3A, 1, 0xFF41); (0x10400, 0x10427, 1, 0x10428);
   (0x104B0, 0x104D3, 1, 0x104D8); (0x10570, 0x1057A, 1, 0x10597);
   (0x1057C, 0x1058A, 1, 0x105A3); (0x1058C, 0x10592, 1, 0x105B3);
   (0x10594, 0x10595, 1, 0x105BB); (0x10C80, 0x10CB2, 1, 0x10CC0);
   (0x118A0, 0x118BF, 1, 0x118C0); (0x16E40, 0x16E5F, 1, 0x16E60);
   (0x1E900, 0x1E921, 1, 0x1E922)]%N.

Definition casedTable : list (N * N) :=
  [(0x41, 0x5A); (0x61, 0x7A); (0xAA, 0xAA); (0xB5, 0xB5); (0xBA, 0xBA);
   (0xC0, 0xD6); (0xD8, 0xF6); (0xF8, 0x1BA); (0x1BC, 0x1BF);
   (0x1C4, 0x293); (0x295, 0x2B8); (0x2C0, 0x2C1); (0x2E0, 0x2E4);
   (0x345, 0x345); (0x370, 0x373); (0x376, 0x377); (0x37A, 0x37D);
   (0x37F, 0x37F); (0x386, 0x386); (0x388, 0x38A); (0x38C, 0x38C);
   (0x38E, 0x3A1); (0x3A3, 0x3F5); (0x3F7, 0x481); (0x48A, 0x52F);
   (0x531, 0x556); (0x560, 0x588); (0x10A0, 0x10C5); (0x10C7, 0x10C7);
   (0x10CD, 0x10CD); (0x10D0, 0x10FA); (0x10FD, 0x10FF); (0x13A0, 0x13F5);
   (0x13F8, 0x13FD); (0x1C80, 0x1C88); (0x1C90, 0x1CBA); (0x1CBD, 0x1CBF);
   (0x1D00, 0x1DBF); (0x1E00, 0x1F15); (0x1F18, 0x1F1D); (0x1F20, 0x1F45);
   (0x1F48, 0x1F4D); (0x1F50, 0x1F57); (0x1F59, 0x1F59); (0x1F5B, 0x1F5B);
   (0x1F5D, 0x1F5D); (0x1F5F, 0x1F7D); (0x1F80, 0x1FB4); (0x1FB6, 0x1FBC);
   (0x1FBE, 0x1FBE); (0x1FC2, 0x1FC4); (0x1FC6, 0x1FCC); (0x1FD0, 0x1FD3);
   (0x1FD6, 0x1FDB); (0x1FE0, 0x1FEC); (0x1FF2, 0x1FF4); (0x1FF6, 0x1FFC);
   (0x2071, 0x2071); (0x207F, 0x207F); (0x2090, 0x209C); (0x2102, 0x2102);
   (0x2107, 0x2107); (0x210A, 0x2113); (0x2115, 0x2115); (0x2119, 0x211D);
   (0x2124, 0x2124); (0x2126, 0x2126); (0x2128, 0x2128); (0x212A, 0x212D);
   (0x212F, 0x2134); (0x2139, 0x2139); (0x213C, 0x213F); (0x2145, 0x2149);
   (0x214E, 0x214E); (0x2160, 0x217F); (0x2183, 0x2184); (0x24B6, 0x24E9);
   (0x2C00, 0x2CE4); (0x2CEB, 0x2CEE); (0x2CF2, 0x2CF3); (0x2D00, 0x2D25);
   (0x2D27, 0x2D27); (0x2D2D, 0x2D2D); (0xA640, 0xA66D); (0xA680, 0xA69D);
   (0xA722, 0xA787); (0xA78B, 0xA78E); (0xA790, 0xA7CA); (0xA7D0, 0xA7D1);
   (0xA7D3, 0xA7D3); (0xA7D5, 0xA7D9); (0xA7F5, 0xA7F6); (0xA7F8, 0xA7FA);
   (0xAB30, 0xAB5A); (0xAB5C, 0xAB68); (0xAB70, 0xABBF); (0xFB00, 0xFB06);
   (0xFB13, 0xFB17); (0xFF21, 0xFF3A); (0xFF41, 0xFF5A);
   (0x10400, 0x1044F); (0x104B0, 0x104D3); (0x104D8, 0x104FB);
   (0x10570, 0x1057A); (0x1057C, 0x1058A); (0x1058C, 0x10592);
   (0x10594, 0x10595); (0x10597, 0x105A1); (0x105A3, 0x105B1);
   (0x105B3, 0x105B9); (0x105BB, 0x105BC); (0x10780, 0x10780);
   (0x10783, 0x10785); (0x10787, 0x107B0); (0x107B2, 0x107BA);
   (0x10C80, 0x10CB2); (0x10CC0, 0x10CF2); (0x118A0, 0x118DF);
   (0x16E40, 0x16E7F); (0x1D400, 0x1D454); (0x1D456, 0x1D49C);
   (0x1D49E, 0x1D49F); (0x1D4A2, 0x1D4A2); (0x1D4A5, 0x1D4A6);
   (0x1D4A9, 0x1D4AC); (0x1D4AE, 0x1D4B9); (0x1D4BB, 0x1D4BB);
   (0x1D4BD, 0x1D4C3); (0x1D4C5, 0x1D505); (0x1D507, 0x1D50A);
   (0x1D50D, 0x1D514); (0x1D516, 0x1D51C); (0x1D51E, 0x1D539);
   (0x1D53B, 0x1D53E); (0x1D540, 0x1D544); (0x1D546, 0x1D546);
   (0x1D54A, 0x1D550); (0x1D552, 0x1D6A5); (0x1D6A8, 0x1D6C0);
   (0x1D6C2, 0x1D6DA); (0x1D6DC, 0x1D6FA); (0x1D6FC, 0x1D714);
   (0x1D716, 0x1D734); (0x1D736, 0x1D74E); (0x1D750, 0x1D76E);
   (0x1D770, 0x1D788); (0x1D78A, 0x1D7A8); (0x1D7AA, 0x1D7C2);
   (0x1D7C4, 0x1D7CB); (0x1DF00, 0x1DF09); (0x1DF0B, 0x1DF1E);
   (0x1E900, 0x1E943); (0x1F130, 0x1F149); (0x1F150, 0x1F169);
   (0x1F170, 0x1F189)]%N.

Definition caseIgnorableTable : list (N * N) :=
  [(0x27, 0x27); (0x2E, 0x2E); (0x3A, 0x3A); (0x5E, 0x5E); (0x60, 0x60);
   (0xA8, 0xA8); (0xAD, 0xAD); (0xAF, 0xAF); (0xB4, 0xB4); (0xB7, 0xB8);
   (0x2B0, 0x36F); (0x374, 0x375); (0x37A, 0x37A); (0x384, 0x385);
   (0x387, 0x387); (0x483, 0x489); (0x559, 0x559); (0x55F, 0x55F);
   (0x591, 0x5BD); (0x5BF, 0x5BF); (0x5C1, 0x5C2); (0x5C4, 0x5C5);
   (0x5C7, 0x5C7); (0x5F4, 0x5F4); (0x600, 0x605); (0x610, 0x61A);
   (0x61C, 0x61C); (0x640, 0x640); (0x64B, 0x65F); (0x670, 0x670);
   (0x6D6, 0x6DD); (0x6DF, 0x6E8); (0x6EA, 0x6ED); (0x70F, 0x70F);
   (0x711, 0x711); (0x730, 0x74A); (0x7A6, 0x7B0); (0x7EB, 0x7F5);
   (0x7FA, 0x7FA); (0x7FD, 0x7FD); (0x816, 0x82D); (0x859, 0x85B);
   (0x888, 0x888); (0x890, 0x891); (0x898, 0x89F); (0x8C9, 0x902);
   (0x93A, 0x93A); (0x93C, 0x93C); (0x941, 0x948); (0x94D, 0x94D);
   (0x951, 0x957); (0x962, 0x963); (0x971, 0x971); (0x981, 0x981);
   (0x9BC, 0x9BC); (0x9C1, 0x9C4); (0x9CD, 0x9CD); (0x9E2, 0x9E3);
   (0x9FE, 0x9FE); (0xA01, 0xA02); (0xA3C, 0xA3C); (0xA41, 0xA42);
   (0xA47, 0xA48); (0xA4B, 0xA4D); (0xA51, 0xA51); (0xA70, 0xA71);
   (0xA75, 0xA75); (0xA81, 0xA82); (0xABC, 0xABC); (0xAC1, 0xAC5);
   (0xAC7, 0xAC8); (0xACD, 0xACD); (0xAE2, 0xAE3); (0xAFA, 0xAFF);
   (0xB01, 0xB01); (0xB3C, 0xB3C); (0xB3F, 0xB3F); (0xB41, 0xB44);
   (0xB4D, 0xB4D); (0xB55, 0xB56); (0xB62, 0xB63); (0xB82, 0xB82);
   (0xBC0, 0xBC0); (0xBCD, 0xBCD); (0xC00, 0xC00); (0xC04, 0xC04);
   (0xC3C, 0xC3C); (0xC3E, 0xC40); (0xC46, 0xC48); (0xC4A, 0xC4D);
   (0xC55, 0xC56); (0xC62, 0xC63); (0xC81, 0xC81); (0xCBC, 0xCBC);
   (0xCBF, 0xCBF); (0xCC6, 0xCC6); (0xCCC, 0xCCD); (0xCE2, 0xCE3);
   (0xD00, 0xD01); (0xD3B, 0xD3C); (0xD41, 0xD44); (0xD4D, 0xD4D);
   (0xD62, 0xD63); (0xD81, 0xD81); (0xDCA, 0xDCA); (0xDD2, 0xDD4);
   (0xDD6, 0xDD6); (0xE31, 0xE31); (0xE34, 0xE3A); (0xE46, 0xE4E);
   (0xEB1, 0xEB1); (0xEB4, 0xEBC); (0xEC6, 0xEC6); (0xEC8, 0xECD);
   (0xF18, 0xF19); (0xF35, 0xF35); (0xF37, 0xF37); (0xF39, 0xF39);
   (0xF71, 0xF7E); (0xF80, 0xF84); (0xF86, 0xF87); (0xF8D, 0xF97);
   (0xF99, 0xFBC); (0xFC6, 0xFC6); (0x102D, 0x1030); (0x1032, 0x1037);
   (0x1039, 0x103A); (0x103D, 0x103E); (0x1058, 0x1059); (0x105E, 0x1060);
   (0x1071, 0x1074); (0x1082, 0x1082); (0x1085, 0x1086); (0x108D, 0x108D);
   (0x109D, 0x109D); (0x10FC, 0x10FC); (0x135D, 0x135F); (0x1712, 0x1714);
   (0x1732, 0x1733); (0x1752, 0x1753); (0x1772, 0x1773); (0x17B4, 0x17B5);
   (0x17B7, 0x17BD); (0x17C6, 0x17C6); (0x17C9, 0x17D3); (0x17D7, 0x17D7);
   (0x17DD, 0x17DD); (0x180B, 0x180F); (0x1843, 0x1843); (0x1885, 0x1886);
   (0x18A9, 0x18A9); (0x1920, 0x1922); (0x1927, 0x1928); (0x1932, 0x1932);
   (0x1939, 0x193B); (0x1A17, 0x1A18); (0x1A1B, 0x1A1B); (0x1A56, 0x1A56);
   (0x1A58, 0x1A5E); (0x1A60, 0x1A60); (0x1A62, 0x1A62); (0x1A65, 0x1A6C);
   (0x1A73, 0x1A7C); (0x1A7F, 0x1A7F); (0x1AA7, 0x1AA7); (0x1AB0, 0x1ACE);
   (0x1B00, 0x1B03); (0x1B34, 0x1B34); (0x1B36, 0x1B3A); (0x1B3C, 0x1B3C);
   (0x1B42, 0x1B42); (0x1B6B, 0x1B73); (0x1B80, 0x1B81); (0x1BA2, 0x1BA5);
   (0x1BA8, 0x1BA9); (0x1BAB, 0x1BAD); (0x1BE6, 0x1BE6); (0x1BE8, 0x1BE9);
   (0x1BED, 0x1BED); (0x1BEF, 0x1BF1); (0x1C2C, 0x1C33); (0x1C36, 0x1C37);
   (0x1C78, 0x1C7D); (0x1CD0, 0x1CD2); (0x1CD4, 0x1CE0); (0x1CE2, 0x1CE8);
   (0x1CED, 0x1CED); (0x1CF4, 0x1CF4); (0x1CF8, 0x1CF9); (0x1D2C, 0x1D6A);
   (0x1D78, 0x1D78); (0x1D9B, 0x1DFF); (0x1FBD, 0x1FBD); (0x1FBF, 0x1FC1);
   (0x1FCD, 0x1FCF); (0x1FDD, 0x1FDF); (0x1FED, 0x1FEF); (0x1FFD, 0x1FFE);
   (0x200B, 0x200F); (0x2018, 0x2019); (0x2024, 0x2024); (0x2027, 0x2027);
   (0x202A, 0x202E); (0x2060, 0x2064); (0x2066, 0x206F); (0x2071, 0x2071);
   (0x207F, 0x207F); (0x2090, 0x209C); (0x20D0, 0x20F0); (0x2C7C, 0x2C7D);
   (0x2CEF, 0x2CF1); (0x2D6F, 0x2D6F); (0x2D7F, 0x2D7F); (0x2DE0, 0x2DFF);
   (0x2E2F, 0x2E2F); (0x3005, 0x3005); (0x302A, 0x302D); (0x3031, 0x3035);
   (0x303B, 0x303B); (0x3099, 0x309E); (0x30FC, 0x30FE); (0xA015, 0xA015);
   (0xA4F8, 0xA4FD); (0xA60C, 0xA60C); (0xA66F, 0xA672); (0xA674, 0xA67D);
   (0xA67F, 0xA67F); (0xA69C, 0xA69F); (0xA6F0, 0xA6F1); (0xA700, 0xA721);
   (0xA770, 0xA770); (0xA788, 0xA78A); (0xA7F2, 0xA7F4); (0xA7F8, 0xA7F9);
   (0xA802, 0xA802); (0xA806, 0xA806); (0xA80B, 0xA80B); (0xA825, 0xA826);
   (0xA82C, 0xA82C); (0xA8C4, 0xA8C5); (0xA8E0, 0xA8F1); (0xA8FF, 0xA8FF);
   (0xA926, 0xA92D); (0xA947, 0xA951); (0xA980, 0xA982); (0xA9B3, 0xA9B3);
   (0xA9B6, 0xA9B9); (0xA9BC, 0xA9BD); (0xA9CF, 0xA9CF); (0xA9E5, 0xA9E6);
   (0xAA29, 0xAA2E); (0xAA31, 0xAA32); (0xAA35, 0xAA36); (0xAA43, 0xAA43);
   (0xAA4C, 0xAA4C); (0xAA70, 0xAA70); (0xAA7C, 0xAA7C); (0xAAB0, 0xAAB0);
   (0xAAB2, 0xAAB4); (0xAAB7, 0xAAB8); (0xAABE, 0xAABF); (0xAAC1, 0xAAC1);
   (0xAADD, 0xAADD); (0xAAEC, 0xAAED); (0xAAF3, 0xAAF4); (0xAAF6, 0xAAF6);
   (0xAB5B, 0xAB5F); (0xAB69, 0xAB6B); (0xABE5, 0xABE5); (0xABE8, 0xABE8);
   (0xABED, 0xABED); (0xFB1E, 0xFB1E); (0xFBB2, 0xFBC2); (0xFE00, 0xFE0F);
   (0xFE13, 0xFE13); (0xFE20, 0xFE2F); (0xFE52, 0xFE52); (0xFE55, 0xFE55);
   (0xFEFF, 0xFEFF); (0xFF07, 0xFF07); (0xFF0E, 0xFF0E); (0xFF1A, 0xFF1A);
   (0xFF3E, 0xFF3E); (0xFF40, 0xFF40); (0xFF70, 0xFF70); (0xFF9E, 0xFF9F);
   (0xFFE3, 0xFFE3); (0xFFF9, 0xFFFB); (0x101FD, 0x101FD);
   (0x102E0, 0x102E0); (0x10376, 0x1037A); (0x10780, 0x10785);
   (0x10787, 0x107B0); (0x107B2, 0x107BA); (0x10A01, 0x10A03);
   (0x10A05, 0x10A06); (0x10A0C, 0x10A0F); (0x10A38, 0x10A3A);
   (0x10A3F, 0x10A3F); (0x10AE5, 0x10AE6); (0x10D24, 0x10D27);
   (0x10EAB, 0x10EAC); (0x10F46, 0x10F50); (0x10F82, 0x10F85);
   (0x11001, 0x11001); (0x11038, 0x11046); (0x11070, 0x11070);
   (0x11073, 0x11074); (0x1107F, 0x11081); (0x110B3, 0x110B6);
   (0x110B9, 0x110BA); (0x110BD, 0x110BD); (0x110C2, 0x110C2);
   (0x110CD, 0x110CD); (0x11100, 0x11102); (0x11127, 0x1112B);
   (0x1112D, 0x11134); (0x11173, 0x11173); (0x11180, 0x11181);
   (0x111B6, 0x111BE); (0x111C9, 0x111CC); (0x111CF, 0x111CF);
   (0x1122F, 0x11231); (0x11234, 0x11234); (0x11236, 0x11237);
   (0x1123E, 0x1123E); (0x112DF, 0x112DF); (0x112E3, 0x112EA);
   (0x11300, 0x11301); (0x1133B, 0x1133C); (0x11340, 0x11340);
   (0x11366, 0x1136C); (0x11370, 0x11374); (0x11438, 0x1143F);
   (0x11442, 0x11444); (0x11446, 0x11446); (0x1145E, 0x1145E);
   (0x114B3, 0x114B8); (0x114BA, 0x114BA); (0x114BF, 0x114C0);
   (0x114C2, 0x114C3); (0x115B2, 0x115B5); (0x115BC, 0x115BD);
   (0x115BF, 0x115C0); (0x115DC, 0x115DD); (0x11633, 0x1163A);
   (0x1163D, 0x1163D); (0x1163F, 0x11640); (0x116AB, 0x116AB);
   (0x116AD, 0x116AD); (0x116B0, 0x116B5); (0x116B7, 0x116B7);
   (0x1171D, 0x1171F); (0x11722, 0x11725); (0x11727, 0x1172B);
   (0x1182F, 0x11837); (0x11839, 0x1183A); (0x1193B, 0x1193C);
   (0x1193E, 0x1193E); (0x11943, 0x11943); (0x119D4, 0x119D7);
   (0x119DA, 0x119DB); (0x119E0, 0x119E0); (0x11A01, 0x11A0A);
   (0x11A33, 0x11A38); (0x11A3B, 0x11A3E); (0x11A47, 0x11A47);
   (0x11A51, 0x11A56); (0x11A59, 0x11A5B); (0x11A8A, 0x11A96);
   (0x11A98, 0x11A99); (0x11C30, 0x11C36); (0x11C38, 0x11C3D);
   (0x11C3F, 0x11C3F); (0x11C92, 0x11CA7); (0x11CAA, 0x11CB0);
   (0x11CB2, 0x11CB3); (0x11CB5, 0x11CB6); (0x11D31, 0x11D36);
   (0x11D3A, 0x11D3A); (0x11D3C, 0x11D3D); (0x11D3F, 0x11D45);
   (0x11D47, 0x11D47); (0x11D90, 0x11D91); (0x11D95, 0x11D95);
   (0x11D97, 0x11D97); (0x11EF3, 0x11EF4); (0x13430, 0x13438);
   (0x16AF0, 0x16AF4); (0x16B30, 0x16B36); (0x16B40, 0x16B43);
   (0x16F4F, 0x16F4F); (0x16F8F, 0x16F9F); (0x16FE0, 0x16FE1);
   (0x16FE3, 0x16FE4); (0x1AFF0, 0x1AFF3); (0x1AFF5, 0x1AFFB);
   (0x1AFFD, 0x1AFFE); (0x1BC9D, 0x1BC9E); (0x1BCA0, 0x1BCA3);
   (0x1CF00, 0x1CF2D); (0x1CF30, 0x1CF46); (0x1D167, 0x1D169);
   (0x1D173, 0x1D182); (0x1D185, 0x1D18B); (0x1D1AA, 0x1D1AD);
   (0x1D242, 0x1D244); (0x1DA00, 0x1DA36); (0x1DA3B, 0x1DA6C);
   (0x1DA75, 0x1DA75); (0x1DA84, 0x1DA84); (0x1DA9B, 0x1DA9F);
   (0x1DAA1, 0x1DAAF); (0x1E000, 0x1E006); (0x1E008, 0x1E018);
   (0x1E01B, 0x1E021); (0x1E023, 0x1E024); (0x1E026, 0x1E02A);
   (0x1E130, 0x1E13D); (0x1E2AE, 0x1E2AE); (0x1E2EC, 0x1E2EF);
   (0x1E8D0, 0x1E8D6); (0x1E944, 0x1E94B); (0x1F3FB, 0x1F3FF);
   (0xE0001, 0xE0001); (0xE0020, 0xE007F); (0xE0100, 0xE01EF)]%N.

Definition inRanges (table : list (N * N)) (cp : N) : bool :=
  existsb (fun r => (fst r <=? cp) && (cp <=? snd r))%N table.

(** The properties Cased and Case_Ignorable of
    DerivedCoreProperties.txt. *)
Definition cased (cp : N) : bool := inRanges casedTable cp.
Definition caseIgnorable (cp : N) : bool := inRanges caseIgnorableTable cp.

Definition simpleLowercase (cp : N) : N :=
  match find (fun e : N * N * N * N =>
                let '(first, last, step, _) := e in
                (first <=? cp) && (cp <=? last)
                && ((cp - first) mod step =? 0))%N lowercaseTable with
  | Some (first, _, _, target) => (target + (cp - first))%N
  | None => cp
  end.

(** The condition Final_Sigma of SpecialCasing.txt: the sigma comes
    after a cased letter and before none, case-ignorable code points
    in between not counted.  [before] is the text before the sigma,
    nearest code point first. *)
Fixpoint casedLetterNext (l : list N) : bool :=
  match l with
  | [] => false
  | cp :: r => if caseIgnorable cp then casedLetterNext r else cased cp
  end.

Definition finalSigma (before after : list N) : bool :=
  casedLetterNext before && negb (casedLetterNext after).

(** The lower case of one code point where it stands: the two
    mappings of SpecialCasing.txt that depend on no language, capital
    sigma and capital I with dot above, and the simple mapping for
    the rest. *)
Definition lowerAt (before : list N) (cp : N) (after : list N) : list N :=
  if (cp =? 0x3A3)%N
  then (if finalSigma before after then [0x3C2] else [0x3C3])%N
  else if (cp =? 0x130)%N then [0x69; 0x307]%N
  else [simpleLowercase cp].

Fixpoint lowerIn (before l after : list N) : list N :=
  match l with
  | [] => []
  | cp :: r => lowerAt before cp (r ++ after) ++ lowerIn (cp :: before) r after
  end.

(** [String.prototype.toLowerCase] *)
Definition toLowerCase (s : jsstring) : jsstring :=
  flat_map codeUnits (lowerIn [] (codePoints s) []).

(** Truthiness of a string: non-empty. *)
Definition truthy (s : jsstring) : bool :=
  match s with [] => false | _ => true end.

End JS.

(** The code points the table maps, each with its image. *)
Definition lowercasePairs : list (N * N) :=
  flat_map (fun e : N * N * N * N =>
              let '(first, last, step, target) := e in
              map (fun k => (first + step * N.of_nat k,
                             target + step * N.of_nat k)%N)
                  (seq 0 (S (N.to_nat ((last - first) / step)))))
           JS.lowercaseTable.

(** The white space of [JS.isWhiteSpace], listed. *)
Definition whiteSpaces : list N :=
  [9; 10; 11; 12; 13; 32; 160; 5760; 8192; 8193; 8194; 8195; 8196; 8197;
   8198; 8199; 8200; 8201; 8202; 8232; 8233; 8239; 8287; 12288; 65279]%N.

(** ** Errors and results *)

(** [AppError] of middleware/errorHandler.ts: a message and the HTTP
    status the global handler answers with. *)
Record AppError := mkAppError { message : string; statusCode : Z }.

(** Outcome of an [async] service method: the resolved value or the
    [AppError] it throws. *)
Inductive result (A : Type) : Type :=
| Ok (a : A)
| Throw (e : AppError).
Arguments Ok {A} a.
Arguments Throw {A} e.

(** The ambient process state the code reads. *)
Record Env := mkEnv {
  now : Z;                           (* Date.now(), new Date() *)
  NODE_ENV : option jsstring;        (* process.env.NODE_ENV *)
  newObjectId : jsstring;            (* _id given to a new document *)
  bcryptHash : jsstring -> jsstring  (* what bcrypt.hash(pw, salt) returns *)
}.

(** ** JSON payloads *)
Inductive json : Type :=
| JNull
| JBool (b : bool)
| JNum (z : Z)
| JStr (s : jsstring)
| JDate (t : Z)
| JArr (l : list json)
| JObj (fields : list (string * json)).

(** [hasKey k j]: some object inside [j], at any depth, has a field
    named [k]. *)
Fixpoint hasKey (k : string) (j : json) : bool :=
  match j with
  | JArr l => existsb (hasKey k) l
  | JObj fs =>
      existsb (fun kv => String.eqb k (fst kv) || hasKey k (snd kv)) fs
  | _ => false
  end.

(** [ApiResponse] of types/index.ts with the status it is sent with. *)
Record HttpResponse := mkResponse {
  status : Z;
  success : bool;
  resMessage : string;
  data : option json;
  error : option string;
  timestamp : Z
}.

(** utils: ApiResponseUtil *)
Module ApiResponseUtil.

Definition success (env : Env) (d : option json) (msg : string) (code : Z)
  : HttpResponse :=
  mkResponse code true msg d None (now env).

Definition error (env : Env) (msg : string) (code : Z) (e : option string)
  : HttpResponse :=
  mkResponse code false msg None e (now env).

Definition created env d msg := success env d msg 201.
Definition notFound env msg := error env msg 404 None.
Definition badRequest env msg e := error env msg 400 e.
Definition forbidden env msg := error env msg 403 None.

End ApiResponseUtil.

(** ** Access counter *)

(** A document of the [access_counter] collection
    (models/AccessCounter.ts, [timestamps: true]). *)
Module IAccessCounter.
Record t := mk {
  count : Z;
  lastUpdated : Z;
  createdAt : option Z;
  updatedAt : option Z
}.
End IAccessCounter.

Module IAccessCounterResponse.
Record t := mk { count : Z; lastUpdated : Z }.
End IAccessCounterResponse.

Definition CounterStore := list IAccessCounter.t.

(** Static methods of the AccessCounter model. *)
Module AccessCounter.
Import IAccessCounter.

(** [findOneAndUpdate({}, {$inc: {count: 1}, $set: {lastUpdated: new
    Date()}}, {new: true, upsert: true})]: the first document is
    updated in place; an empty collection gets a new document, where
    [$inc] on the absent field leaves 1. *)
Definition incrementCounter (env : Env) (s : CounterStore)
  : option t * CounterStore :=
  match s with
  | d :: rest =>
      let d' := mk (count d + 1) (now env) (createdAt d) (Some (now env)) in
      (Some d', d' :: rest)
  | [] =>
      let d' := mk 1 (now env) (Some (now env)) (Some (now env)) in
      (Some d', [d'])
  end.

(** [findOne({}).lean()] *)
Definition getCurrentCount (s : CounterStore) : option t * CounterStore :=
  (hd_error s, s).

(** [findOneAndUpdate({}, {count: 0, lastUpdated: new Date()}, {new:
    true, upsert: true})] *)
Definition resetCounter (env : Env) (s : CounterStore)
  : option t * CounterStore :=
  match s with
  | d :: rest =>
      let d' := mk 0 (now env) (createdAt d) (Some (now env)) in
      (Some d', d' :: rest)
  | [] =>
      let d' := mk 0 (now env) (Some (now env)) (Some (now env)) in
      (Some d', [d'])
  end.

(** [find({})] *)
Definition find (s : CounterStore) : list t * CounterStore := (s, s).

End AccessCounter.

(** services/AccessCounterService.ts *)
Module AccessCounterService.

Definition respond (c : IAccessCounter.t) : IAccessCounterResponse.t :=
  IAccessCounterResponse.mk (IAccessCounter.count c)
                            (IAccessCounter.lastUpdated c).

Definition incrementAccess (env : Env) (s : CounterStore)
  : result IAccessCounterResponse.t * CounterStore :=
  let (counter, s') := AccessCounter.incrementCounter env s in
  match counter with
  | None =>
      (Throw (mkAppError "Erro ao incrementar contador de acessos" 500), s')
  | Some c => (Ok (respond c), s')
  end.

Definition getCurrentCount (env : Env) (s : CounterStore)
  : result IAccessCounterResponse.t * CounterStore :=
  let (counter, s') := AccessCounter.getCurrentCount s in
  match counter with
  | None => (Ok (IAccessCounterResponse.mk 0 (now env)), s')
  | Some c => (Ok (respond c), s')
  end.

Definition resetCounter (env : Env) (s : CounterStore)
  : result IAccessCounterResponse.t * CounterStore :=
  let (counter, s') := AccessCounter.resetCounter env s in
  match counter with
  | None => (Throw (mkAppError "Erro ao resetar contador de acessos" 500), s')
  | Some c => (Ok (respond c), s')
  end.

Definition validateIntegrity (s : CounterStore) : bool * CounterStore :=
  let (counters, s') := AccessCounter.find s in
  if (1 <? Z.of_nat (List.length counters)) then (false, s')
  else
    match counters with
    | [counter] =>
        if IAccessCounter.count counter <? 0 then (false, s') else (true, s')
    | _ => (true, s')
    end.

End AccessCounterService.

(** controllers: AccessCounterController *)
Module AccessCounterController.

Definition counterJson (r : IAccessCounterResponse.t) : json :=
  JObj [("count"%string, JNum (IAccessCounterResponse.count r));
        ("lastUpdated"%string, JDate (IAccessCounterResponse.lastUpdated r))].

(** POST /api/access/reset.  [Throw] is the error [asyncHandler]
    hands to the global error handler. *)
Definition resetCounter (env : Env) (s : CounterStore)
  : result HttpResponse * CounterStore :=
  if match NODE_ENV env with
     | Some m => JS.eqb m (JS.lit "production")
     | None => false
     end
  then
    (Ok (ApiResponseUtil.forbidden env "Operação não permitida em produção"), s)
  else
    let (r, s') := AccessCounterService.resetCounter env s in
    match r with
    | Ok v =>
        (Ok (ApiResponseUtil.success env (Some (counterJson v))
               "Contador resetado com sucesso" 200), s')
    | Throw e => (Throw e, s')
    end.

End AccessCounterController.

(** ** Concurrent callers of [incrementAccess]

    Each inbound request runs [AccessCounterService.incrementAccess]
    as its own task.  A task touches the store once, when the database
    executes its [findOneAndUpdate]; single-document updates are
    atomic there, so that is one step.  Tasks are interleaved step by
    step by a schedule. *)
Module Concurrent.

(** A call in flight: the update not yet executed by the store, the
    update executed and its promise resolved with the document, or
    the call settled. *)
Inductive call : Type :=
| Issued
| Resolved (counter : option IAccessCounter.t)
| Settled (r : result IAccessCounterResponse.t).

Definition stepCall (env : Env) (s : CounterStore) (c : call)
  : call * CounterStore :=
  match c with
  | Issued =>
      let (counter, s') := AccessCounter.incrementCounter env s in
      (Resolved counter, s')
  | Resolved None =>
      (Settled
         (Throw (mkAppError "Erro ao incrementar contador de acessos" 500)),
       s)
  | Resolved (Some c) => (Settled (Ok (AccessCounterService.respond c)), s)
  | Settled r => (Settled r, s)
  end.

(** Task [i] takes its next step; a task that does not exist or has
    settled leaves everything as it is. *)
Fixpoint stepAt (env : Env) (i : nat) (s : CounterStore) (cs : list call)
  : list call * CounterStore :=
  match cs, i with
  | [], _ => ([], s)
  | c :: r, O => let (c', s') := stepCall env s c in (c' :: r, s')
  | c :: r, S j => let (r', s') := stepAt env j s r in (c :: r', s')
  end.

(** A schedule names, step by step, the task that runs and the
    environment (clock) it runs in. *)
Fixpoint run (sched : list (nat * Env)) (s : CounterStore) (cs : list call)
  : list call * CounterStore :=
  match sched with
  | [] => (cs, s)
  | (i, env) :: rest =>
      let (cs', s') := stepAt env i s cs in run rest s' cs'
  end.

Definition settled (c : call) : bool :=
  match c with Settled _ => true | _ => false end.

Definition issued (c : call) : bool :=
  match c with Issued => true | _ => false end.

(** Calls whose update the store has still to execute. *)
Definition pending (cs : list call) : Z :=
  Z.of_nat (List.length (filter issued cs)).

(** The schedule that runs tasks [first], ..., [first + n - 1] one
    after the other, each to its end. *)
Definition sequential (env : Env) (first n : nat) : list (nat * Env) :=
  flat_map (fun i => [(i, env); (i, env)]) (seq first n).

(** 1 for a call whose update is still to come. *)
Definition weight (c : call) : Z := if issued c then 1 else 0.

End Concurrent.

(** The count [GET /api/access/count] reports for a store. *)
Definition storedCount (s : CounterStore) : Z :=
  match s with
  | d :: _ => IAccessCounter.count d
  | [] => 0
  end.

(** ** Users *)

(** A document of the [users] collection (models/User.ts).  [_id] is
    the 24-digit lower-case hexadecimal text of the ObjectId. *)
Module IUser.
Record t := mk {
  _id : jsstring;
  name : jsstring;
  email : jsstring;
  password : jsstring;
  createdAt : Z;
  updatedAt : Z
}.
End IUser.

Module IUserCreateRequest.
Record t := mk { name : jsstring; email : jsstring; password : jsstring }.
End IUserCreateRequest.

Module IUserResponse.
Record t := mk {
  _id : jsstring;
  name : jsstring;
  email : jsstring;
  createdAt : Z;
  updatedAt : Z
}.
End IUserResponse.

Definition UserStore := list IUser.t.

(** What a Mongoose call rejects with. *)
Inductive StoreError : Type :=
| ValidationError (errors : list string)
| CastError
| MongoServerError (code : Z) (keyPattern : string)
| PlainError (msg : string).

Definition inRange (lo hi c : N) : bool := ((lo <=? c) && (c <=? hi))%N.

Definition len {A : Type} (v : list A) : Z := Z.of_nat (List.length v).

(** The paths of UserSchema: setters and validators. *)
Module UserSchema.

(** [/^[a-zA-ZÀ-ÿ\s]+$/]: the class is a-z, A-Z, the code units
    U+00C0 to U+00FF and [\s]. *)
Definition nameChar (c : N) : bool :=
  inRange 97 122 c || inRange 65 90 c || inRange 192 255 c
  || JS.isWhiteSpace c.

Definition nameRegex (v : jsstring) : bool :=
  JS.truthy v && forallb nameChar v.

(** [/^[^\s@]+@[^\s@]+\.[^\s@]+$/] *)
Definition plainChar (c : N) : bool :=
  negb (JS.isWhiteSpace c) && negb (c =? 64)%N.

Fixpoint splitAtSign (v : jsstring) : option (jsstring * jsstring) :=
  match v with
  | [] => None
  | c :: r =>
      if (c =? 64)%N then Some ([], r)
      else match splitAtSign r with
           | Some (a, b) => Some (c :: a, b)
           | None => None
           end
  end.

(** A dot with at least one character after it. *)
Fixpoint dotBeforeEnd (v : jsstring) : bool :=
  match v with
  | [] => false
  | c :: r => (c =? 46)%N && JS.truthy r || dotBeforeEnd r
  end.

Definition emailRegex (v : jsstring) : bool :=
  match splitAtSign v with
  | Some (a, d) =>
      JS.truthy a && forallb plainChar a && forallb plainChar d
      && match d with [] => false | _ :: r => dotBeforeEnd r end
  | None => false
  end.

(** [/^(?=.*[a-z])(?=.*[A-Z])(?=.*\d).+$/]: [.] stops at a line
    terminator. *)
Definition lineTerminator (c : N) : bool :=
  ((c =? 10) || (c =? 13) || (c =? 8232) || (c =? 8233))%N.

Definition passwordRegex (v : jsstring) : bool :=
  JS.truthy v && forallb (fun c => negb (lineTerminator c)) v
  && existsb (inRange 97 122) v && existsb (inRange 65 90) v
  && existsb (inRange 48 57) v.

(** [trim: true] on name; [trim: true, lowercase: true] on email.
    Mongoose runs the setters of a path on a value assigned to a
    document, on an update of the path and on a filter on the
    path. *)
Definition nameSetters (v : jsstring) : jsstring := JS.trim v.
Definition emailSetters (v : jsstring) : jsstring :=
  JS.trim (JS.toLowerCase v).

(** Validators of a path, in order; a path reports its first
    failure. *)
Definition validateName (v : jsstring) : option string :=
  if negb (JS.truthy v) then Some "Nome é obrigatório"%string
  else if len v <? 2
  then Some "Nome deve ter pelo menos 2 caracteres"%string
  else if 100 <? len v
  then Some "Nome não pode exceder 100 caracteres"%string
  else if negb (nameRegex v)
  then Some "Nome deve conter apenas letras e espaços"%string
  else None.

Definition validateEmail (v : jsstring) : option string :=
  if negb (JS.truthy v) then Some "Email é obrigatório"%string
  else if negb (emailRegex v)
  then Some "Email deve ter um formato válido"%string
  else if 255 <? len v
  then Some "Email não pode exceder 255 caracteres"%string
  else None.

Definition validatePassword (v : jsstring) : option string :=
  if negb (JS.truthy v) then Some "Senha é obrigatória"%string
  else if len v <? 8
  then Some "Senha deve ter pelo menos 8 caracteres"%string
  else if 128 <? len v
  then Some "Senha não pode exceder 128 caracteres"%string
  else if negb (passwordRegex v)
  then Some "Senha deve conter pelo menos uma letra maiúscula, uma minúscula e um número"%string
  else None.

Definition errorsOf (checks : list (option string)) : list string :=
  flat_map (fun c => match c with Some m => [m] | None => [] end) checks.

End UserSchema.

(** A JavaScript number that is an integer, NaN or an infinity: the
    numbers [parseInt] reads and the service computes with.  The
    integer of [Num] stands for itself wherever an integer is
    expected. *)
Inductive jsnumber : Type :=
| Num (z : Z)
| NaN
| Infinity
| NegInfinity.

Coercion Num : Z >-> jsnumber.

Module Number.

(** The Number value of a mathematical integer: the integer itself
    below 2^53, else the nearest double, a tie going to the even
    significand, and an infinity from 2^1024 - 2^970 on. *)
Definition ofInteger (z : Z) : jsnumber :=
  let a := Z.abs z in
  if a <? 2 ^ 53 then Num z
  else
    let e := Z.log2 a - 52 in
    let q := a / 2 ^ e in
    let r := a mod 2 ^ e in
    let q' := if (2 ^ (e - 1) <? r) || ((r =? 2 ^ (e - 1)) && Z.odd q)
              then q + 1 else q in
    if 2 ^ 1024 <=? q' * 2 ^ e
    then (if z <? 0 then NegInfinity else Infinity)
    else Num (Z.sgn z * (q' * 2 ^ e)).

Definition isNaN (n : jsnumber) : bool :=
  match n with NaN => true | _ => false end.

(** [a - b], [a * b] and [a < b].  On integers they are exact: they
    are the operations of doubles as long as the result stays below
    2^53, and a product beyond it is a skip past any collection. *)
Definition sub (a : jsnumber) (b : Z) : jsnumber :=
  match a with
  | Num x => Num (x - b)
  | other => other
  end.

Definition opposite (n : jsnumber) : jsnumber :=
  match n with
  | Num x => Num (- x)
  | NaN => NaN
  | Infinity => NegInfinity
  | NegInfinity => Infinity
  end.

Definition mul (a b : jsnumber) : jsnumber :=
  match a, b with
  | NaN, _ | _, NaN => NaN
  | Num x, Num y => Num (x * y)
  | Num x, inf | inf, Num x =>
      if x =? 0 then NaN else if 0 <? x then inf else opposite inf
  | Infinity, inf => inf
  | NegInfinity, inf => opposite inf
  end.

Definition ltb (a b : jsnumber) : bool :=
  match a, b with
  | NaN, _ | _, NaN => false
  | Num x, Num y => x <? y
  | _, NegInfinity | Infinity, _ => false
  | NegInfinity, _ | _, Infinity => true
  end.

End Number.

(** [find().select('-password').lean()]: a plain object of the
    document's fields, the password projected away. *)
Module LeanUser.
Record t := mk {
  _id : jsstring;
  name : jsstring;
  email : jsstring;
  password : option jsstring;
  createdAt : Z;
  updatedAt : Z
}.
End LeanUser.

(** The User model. *)
Module User.
Import IUser.

(** [new User({name, email, password})], not yet saved. *)
Record Draft := mkDraft {
  d_id : jsstring;
  d_name : jsstring;
  d_email : jsstring;
  d_password : jsstring
}.

Definition new (env : Env) (n e p : jsstring) : Draft :=
  mkDraft (newObjectId env) (UserSchema.nameSetters n)
          (UserSchema.emailSetters e) p.

(** [findOne({email: q})] *)
Definition findOneByEmail (q : jsstring) (s : UserStore) : option t :=
  List.find (fun u => JS.eqb (email u) (UserSchema.emailSetters q)) s.

(** statics.findByEmail *)
Definition findByEmail (e : jsstring) (s : UserStore)
  : option t * UserStore :=
  (findOneByEmail (JS.toLowerCase e) s, s).

(** The collection's insert under its unique indexes on [_id] and
    [email]. *)
Definition insertOne (doc : t) (s : UserStore)
  : option StoreError * UserStore :=
  if existsb (fun u => JS.eqb (_id u) (_id doc)) s
  then (Some (MongoServerError 11000 "_id"), s)
  else if existsb (fun u => JS.eqb (email u) (email doc)) s
  then (Some (MongoServerError 11000 "email"), s)
  else (None, s ++ [doc]).

(** [post('save')] error middleware. *)
Definition postSaveError (e : StoreError) : StoreError :=
  match e with
  | MongoServerError 11000 kp =>
      if String.eqb kp "email" then PlainError "Email já está em uso"
      else PlainError "Dados duplicados"
  | _ => e
  end.

(** [user.save()]: validation, the [pre('save')] hash of the
    password, the insert with its timestamps. *)
Definition save (env : Env) (d : Draft) (s : UserStore)
  : (StoreError + t) * UserStore :=
  match UserSchema.errorsOf
          [UserSchema.validateName (d_name d);
           UserSchema.validateEmail (d_email d);
           UserSchema.validatePassword (d_password d)] with
  | (_ :: _) as errs => (inl (ValidationError errs), s)
  | [] =>
      let doc := mk (d_id d) (d_name d) (d_email d)
                    (bcryptHash env (d_password d)) (now env) (now env) in
      match insertOne doc s with
      | (Some e, s') => (inl (postSaveError e), s')
      | (None, s') => (inr doc, s')
      end
  end.

(** methods.toResponseObject *)
Definition toResponseObject (u : t) : IUserResponse.t :=
  IUserResponse.mk (_id u) (name u) (email u) (createdAt u) (updatedAt u).

(** A string is cast to an ObjectId when it is 24 hexadecimal
    digits. *)
Definition hexDigit (c : N) : bool :=
  inRange 48 57 c || inRange 97 102 c || inRange 65 70 c.

Definition castObjectId (v : jsstring) : option jsstring :=
  if (len v =? 24) && forallb hexDigit v then Some (JS.toLowerCase v)
  else None.

(** [findById(id).lean()] *)
Definition findById (id : jsstring) (s : UserStore)
  : (StoreError + option t) * UserStore :=
  match castObjectId id with
  | None => (inl CastError, s)
  | Some oid => (inr (List.find (fun u => JS.eqb (_id u) oid) s), s)
  end.

Definition lean (u : t) : LeanUser.t :=
  LeanUser.mk (_id u) (name u) (email u) (Some (password u))
              (createdAt u) (updatedAt u).

(** [.select('-password')] *)
Definition selectMinusPassword (u : LeanUser.t) : LeanUser.t :=
  LeanUser.mk (LeanUser._id u) (LeanUser.name u) (LeanUser.email u) None
              (LeanUser.createdAt u) (LeanUser.updatedAt u).

(** [.sort({createdAt: -1})]: newest first, documents of one instant
    in natural order. *)
Fixpoint insertNewest (u : t) (l : list t) : list t :=
  match l with
  | [] => [u]
  | v :: r =>
      if createdAt v <=? createdAt u then u :: l
      else v :: insertNewest u r
  end.

Definition sortNewest (s : list t) : list t :=
  fold_right insertNewest [] s.

(** [.skip(n)]: the server refuses a negative [n].  A number that is
    no integer reaches the server as a double, which it reads as a
    64-bit integer (MongoDB 5.0): NaN as 0, an infinity as the
    largest or the least one, so that an unbounded skip leaves
    nothing of a collection. *)
Definition skip (n : jsnumber) (l : list t) : option (list t) :=
  match n with
  | Num n => if n <? 0 then None else Some (skipn (Z.to_nat n) l)
  | NaN => Some l
  | Infinity => Some []
  | NegInfinity => None
  end.

(** [.limit(n)]: 0 is no limit, a negative [n] is [-n] in one
    batch; an unbounded limit limits nothing. *)
Definition limit (n : jsnumber) (l : list t) : list t :=
  match n with
  | Num n => if n =? 0 then l else firstn (Z.to_nat (Z.abs n)) l
  | _ => l
  end.

(** [find({}).select('-password').sort({createdAt:
    -1}).skip(skip).limit(limit).lean()] *)
Definition findPage (sk lim : jsnumber) (s : UserStore)
  : (StoreError + list LeanUser.t) * UserStore :=
  match skip sk (sortNewest s) with
  | None => (inl (MongoServerError 2 ""), s)
  | Some l =>
      (inr (map (fun u => selectMinusPassword (lean u)) (limit lim l)), s)
  end.

(** [countDocuments({})] *)
Definition countDocuments (s : UserStore) : Z * UserStore := (len s, s).

(** An update [{name?, email?}] after casting. *)
Definition applyUpdate (env : Env) (n e : option jsstring) (u : t) : t :=
  mk (_id u)
     (match n with Some v => v | None => name u end)
     (match e with Some v => v | None => email u end)
     (password u) (createdAt u) (now env).

Fixpoint replaceById (oid : jsstring) (u' : t) (s : UserStore) : UserStore :=
  match s with
  | [] => []
  | u :: r => if JS.eqb (_id u) oid then u' :: r
              else u :: replaceById oid u' r
  end.

(** [findByIdAndUpdate(id, {name?, email?}, {new: true,
    runValidators: true})] *)
Definition findByIdAndUpdate (env : Env) (id : jsstring)
           (n e : option jsstring) (s : UserStore)
  : (StoreError + option t) * UserStore :=
  match castObjectId id with
  | None => (inl CastError, s)
  | Some oid =>
      let n' := option_map UserSchema.nameSetters n in
      let e' := option_map UserSchema.emailSetters e in
      match UserSchema.errorsOf
              [match n' with Some v => UserSchema.validateName v
                        | None => None end;
               match e' with Some v => UserSchema.validateEmail v
                        | None => None end] with
      | (_ :: _) as errs => (inl (ValidationError errs), s)
      | [] =>
          match List.find (fun u => JS.eqb (_id u) oid) s with
          | None => (inr None, s)
          | Some u =>
              let u' := applyUpdate env n' e' u in
              if existsb (fun v => negb (JS.eqb (_id v) oid)
                                   && JS.eqb (email v) (email u')) s
              then (inl (MongoServerError 11000 "email"), s)
              else (inr (Some u'), replaceById oid u' s)
          end
      end
  end.

End User.

Module Pagination.
Record t := mk {
  page : jsnumber;
  limit : jsnumber;
  total : Z;
  pages : jsnumber;
  hasNext : bool;
  hasPrev : bool
}.
End Pagination.

Module UserList.
Record t := mk { users : list IUserResponse.t; pagination : Pagination.t }.
End UserList.

(** [Math.ceil(total / limit)] on integers. *)
Definition ceilDiv (total limit : Z) : jsnumber :=
  if limit =? 0 then (if total =? 0 then NaN else Infinity)
  else Num (- ((- total) / limit)).

(** [Math.ceil(total / limit)] for any limit: a count divided by an
    infinity is zero. *)
Definition ceilQuotient (total : Z) (limit : jsnumber) : jsnumber :=
  match limit with
  | Num l => ceilDiv total l
  | NaN => NaN
  | Infinity | NegInfinity => Num 0
  end.

Fixpoint joinMessages (l : list string) : string :=
  match l with
  | [] => ""
  | [m] => m
  | m :: r => m ++ ", " ++ joinMessages r
  end.

(** services/UserService.ts *)
Module UserService.

(** The [catch] of createUser and updateUser. *)
Definition writeError (fallback : string) (e : StoreError) : AppError :=
  match e with
  | MongoServerError 11000 _ => mkAppError "Email já está em uso" 409
  | ValidationError errs =>
      mkAppError ("Dados inválidos: " ++ joinMessages errs) 400
  | _ => mkAppError fallback 500
  end.

Definition createUser (env : Env) (userData : IUserCreateRequest.t)
           (s : UserStore) : result IUserResponse.t * UserStore :=
  let (existingUser, s1) :=
    User.findByEmail (IUserCreateRequest.email userData) s in
  match existingUser with
  | Some _ => (Throw (mkAppError "Email já está em uso" 409), s1)
  | None =>
      let user :=
        User.new env
          (JS.trim (IUserCreateRequest.name userData))
          (JS.trim (JS.toLowerCase (IUserCreateRequest.email userData)))
          (IUserCreateRequest.password userData) in
      match User.save env user s1 with
      | (inr savedUser, s2) => (Ok (User.toResponseObject savedUser), s2)
      | (inl e, s2) =>
          (Throw (writeError "Erro interno ao criar usuário" e), s2)
      end
  end.

Definition getUserById (userId : jsstring) (s : UserStore)
  : result IUserResponse.t * UserStore :=
  match User.findById userId s with
  | (inr None, s1) => (Throw (mkAppError "Usuário não encontrado" 404), s1)
  | (inr (Some u), s1) =>
      let user := User.lean u in
      (Ok (IUserResponse.mk (LeanUser._id user) (LeanUser.name user)
                            (LeanUser.email user) (LeanUser.createdAt user)
                            (LeanUser.updatedAt user)), s1)
  | (inl CastError, s1) =>
      (Throw (mkAppError "ID de usuário inválido" 400), s1)
  | (inl _, s1) =>
      (Throw (mkAppError "Erro interno ao buscar usuário" 500), s1)
  end.

Definition getUserByEmail (e : jsstring) (s : UserStore)
  : result (option IUser.t) * UserStore :=
  let (user, s1) := User.findByEmail e s in (Ok user, s1).

Definition listUsers (page limit : jsnumber) (s : UserStore)
  : result UserList.t * UserStore :=
  let skip := Number.mul (Number.sub page 1) limit in
  match User.findPage skip limit s with
  | (inl _, s1) =>
      (Throw (mkAppError "Erro interno ao listar usuários" 500), s1)
  | (inr users, s1) =>
      let (total, s2) := User.countDocuments s1 in
      let pages := ceilQuotient total limit in
      let userResponses :=
        map (fun user =>
               IUserResponse.mk (LeanUser._id user) (LeanUser.name user)
                 (LeanUser.email user) (LeanUser.createdAt user)
                 (LeanUser.updatedAt user)) users in
      (Ok (UserList.mk userResponses
             (Pagination.mk page limit total pages
                (Number.ltb page pages) (Number.ltb 1 page))), s2)
  end.

(** A field of the update that is present and truthy. *)
Definition given (v : option jsstring) : option jsstring :=
  match v with
  | Some x => if JS.truthy x then Some x else None
  | None => None
  end.

Definition updateUser (env : Env) (userId : jsstring)
           (name email : option jsstring) (s : UserStore)
  : result IUserResponse.t * UserStore :=
  let conflict :=
    match given email with
    | Some e =>
        match fst (User.findByEmail e s) with
        | Some existingUser => negb (JS.eqb (IUser._id existingUser) userId)
        | None => false
        end
    | None => false
    end in
  if conflict
  then (Throw (mkAppError "Email já está em uso por outro usuário" 409), s)
  else
    match User.findByIdAndUpdate env userId
            (option_map JS.trim (given name))
            (option_map (fun e => JS.trim (JS.toLowerCase e)) (given email))
            s with
    | (inr None, s1) => (Throw (mkAppError "Usuário não encontrado" 404), s1)
    | (inr (Some updatedUser), s1) =>
        (Ok (User.toResponseObject updatedUser), s1)
    | (inl e, s1) =>
        (Throw (writeError "Erro interno ao atualizar usuário" e), s1)
    end.

End UserService.

(** ** Query strings

    A value of [req.query]: text, a list ([?page=1&page=2]) or an
    object ([?page[a]=1]). *)
Inductive qvalue : Type :=
| QStr (s : jsstring)
| QArr (items : list qvalue)
| QObj (fields : list (jsstring * qvalue)).

Module Query.
Record t := mk {
  page : option qvalue;
  limit : option qvalue;
  email : option qvalue
}.
End Query.

Module Coerce.

(** ToString: an array joins its elements with a comma. *)
Fixpoint toString (v : qvalue) : jsstring :=
  match v with
  | QStr s => s
  | QArr l =>
      (fix join (l : list qvalue) : jsstring :=
         match l with
         | [] => []
         | [x] => toString x
         | x :: r => toString x ++ 44%N :: join r
         end) l
  | QObj _ => JS.lit "[object Object]"
  end.

(** ToBoolean: of the values of a query only the empty text is
    falsy. *)
Definition truthy (v : option qvalue) : bool :=
  match v with
  | None => false
  | Some (QStr s) => JS.truthy s
  | Some _ => true
  end.

Definition digitValue (radix : Z) (c : N) : option Z :=
  let v := if inRange 48 57 c then Some (Z.of_N c - 48)
           else if inRange 97 122 c then Some (Z.of_N c - 87)
           else if inRange 65 90 c then Some (Z.of_N c - 55)
           else None in
  match v with
  | Some d => if d <? radix then Some d else None
  | None => None
  end.

(** The longest prefix of digits, as the integer they spell; [None]
    when there is no digit. *)
Fixpoint digits (radix : Z) (acc : option Z) (s : jsstring) : option Z :=
  match s with
  | c :: r =>
      match digitValue radix c with
      | Some d =>
          digits radix
            (Some (radix * match acc with Some a => a | None => 0 end + d)) r
      | None => acc
      end
  | [] => acc
  end.

(** [parseInt(text)] with no radix: the Number value of the integer
    the digits spell. *)
Definition parseIntText (input : jsstring) : jsnumber :=
  let s0 := JS.trimStart input in
  let '(sign, s1) :=
    match s0 with
    | 45%N :: r => (-1, r)
    | 43%N :: r => (1, r)
    | _ => (1, s0)
    end in
  let '(radix, s2) :=
    match s1 with
    | 48%N :: 120%N :: r => (16, r)
    | 48%N :: 88%N :: r => (16, r)
    | _ => (10, s1)
    end in
  match digits radix None s2 with
  | Some m => Number.ofInteger (sign * m)
  | None => NaN
  end.

(** [parseInt(req.query.x as string)]; an absent parameter is
    [undefined], whose text has no digit. *)
Definition parseInt (v : option qvalue) : jsnumber :=
  match v with
  | Some x => parseIntText (toString x)
  | None => NaN
  end.

(** [n || d] on a number: NaN and 0 give [d]. *)
Definition orDefault (n : jsnumber) (d : Z) : jsnumber :=
  match n with
  | Num z => if z =? 0 then Num d else n
  | NaN => Num d
  | _ => n
  end.

End Coerce.

(** middleware/validation.ts *)
Module Validation.

(** validator.js [isLength]: code units, a surrogate pair and a
    variation selector U+FE0E/U+FE0F not counted twice. *)
Definition highSurrogate (c : N) : bool := inRange 55296 56319 c.
Definition lowSurrogate (c : N) : bool := inRange 56320 57343 c.

Fixpoint surrogatePairs (v : jsstring) : Z :=
  match v with
  | a :: ((b :: r) as t) =>
      if highSurrogate a && lowSurrogate b then 1 + surrogatePairs r
      else surrogatePairs t
  | _ => 0
  end.

Definition presentationSequences (v : jsstring) : Z :=
  len (filter (fun c => (c =? 65039) || (c =? 65038))%N v).

Definition isLength (min max : Z) (v : jsstring) : bool :=
  let n := len v - presentationSequences v - surrogatePairs v in
  (min <=? n) && (n <=? max).

(** The chain on [body('name')] of validateUserCreation: every
    validator runs and adds its message on failure. *)
Definition nameChain (name : jsstring) : list string :=
  let v := JS.trim name in
  (if JS.truthy v then [] else ["Nome é obrigatório"%string])
  ++ (if isLength 2 100 v then []
      else ["Nome deve ter entre 2 e 100 caracteres"%string])
  ++ (if UserSchema.nameRegex v then []
      else ["Nome deve conter apenas letras e espaços"%string]).

(** The chain on [body('password')]. *)
Definition passwordChain (password : jsstring) : list string :=
  (if isLength 8 128 password then []
   else ["Senha deve ter entre 8 e 128 caracteres"%string])
  ++ (if UserSchema.passwordRegex password then []
      else ["Senha deve conter pelo menos uma letra maiúscula, uma minúscula e um número"%string]).

(** [sanitizeInput] on a text field of the body. *)
Definition sanitizeInput (v : jsstring) : jsstring := JS.trim v.

(** The name of a creation request passes [sanitizeInput],
    [validateUserCreation] and [handleValidationErrors]. *)
Definition nameAccepted (name : jsstring) : bool :=
  match nameChain (sanitizeInput name) with
  | [] => true
  | _ => false
  end.

(** [validateQueryParams]: [Some] is the answer sent, [None] is
    [next()]. *)
Definition validateQueryParams (env : Env) (q : Query.t)
  : option HttpResponse :=
  let pageNum := Coerce.parseInt (Query.page q) in
  let pageBad :=
    Coerce.truthy (Query.page q)
    && (Number.isNaN pageNum || Number.ltb pageNum 1) in
  if pageBad
  then Some (ApiResponseUtil.badRequest env
               "Parâmetro page deve ser um número positivo" None)
  else
    let limitNum := Coerce.parseInt (Query.limit q) in
    let limitBad :=
      Coerce.truthy (Query.limit q)
      && (Number.isNaN limitNum || Number.ltb limitNum 1
          || Number.ltb 100 limitNum) in
    if limitBad
    then Some (ApiResponseUtil.badRequest env
                 "Parâmetro limit deve ser um número entre 1 e 100" None)
    else None.

End Validation.

(** controllers: UserController *)
Module UserController.

Definition userJson (r : IUserResponse.t) : json :=
  JObj [("_id"%string, JStr (IUserResponse._id r));
        ("name"%string, JStr (IUserResponse.name r));
        ("email"%string, JStr (IUserResponse.email r));
        ("createdAt"%string, JDate (IUserResponse.createdAt r));
        ("updatedAt"%string, JDate (IUserResponse.updatedAt r))].

Definition numberJson (n : jsnumber) : json :=
  match n with Num z => JNum z | _ => JNull end.

Definition listJson (l : UserList.t) : json :=
  let p := UserList.pagination l in
  JObj [("users"%string, JArr (map userJson (UserList.users l)));
        ("pagination"%string,
         JObj [("page"%string, numberJson (Pagination.page p));
               ("limit"%string, numberJson (Pagination.limit p));
               ("total"%string, JNum (Pagination.total p));
               ("pages"%string, numberJson (Pagination.pages p));
               ("hasNext"%string, JBool (Pagination.hasNext p));
               ("hasPrev"%string, JBool (Pagination.hasPrev p))])].

(** An answer built from a service outcome; [Throw] goes to the
    global error handler through [asyncHandler]. *)
Definition answer {A S : Type} (r : result A * S)
           (ok : A -> HttpResponse) : result HttpResponse * S :=
  match r with
  | (Ok v, s) => (Ok (ok v), s)
  | (Throw e, s) => (Throw e, s)
  end.

Definition createUser (env : Env) (body : IUserCreateRequest.t)
           (s : UserStore) : result HttpResponse * UserStore :=
  answer (UserService.createUser env body s)
    (fun r => ApiResponseUtil.created env (Some (userJson r))
                "Usuário criado com sucesso").

Definition getUserById (env : Env) (id : jsstring) (s : UserStore)
  : result HttpResponse * UserStore :=
  answer (UserService.getUserById id s)
    (fun r => ApiResponseUtil.success env (Some (userJson r))
                "Usuário obtido com sucesso" 200).

Definition listUsers (env : Env) (q : Query.t) (s : UserStore)
  : result HttpResponse * UserStore :=
  let page := Coerce.orDefault (Coerce.parseInt (Query.page q)) 1 in
  let limit := Coerce.orDefault (Coerce.parseInt (Query.limit q)) 10 in
  answer (UserService.listUsers page limit s)
    (fun r => ApiResponseUtil.success env (Some (listJson r))
                "Usuários listados com sucesso" 200).

Definition updateUser (env : Env) (id : jsstring)
           (name email : option jsstring) (s : UserStore)
  : result HttpResponse * UserStore :=
  answer (UserService.updateUser env id name email s)
    (fun r => ApiResponseUtil.success env (Some (userJson r))
                "Usuário atualizado com sucesso" 200).

Definition getUserByEmail (env : Env) (q : Query.t) (s : UserStore)
  : result HttpResponse * UserStore :=
  match Query.email q with
  | Some (QStr email) =>
      if JS.truthy email then
        match UserService.getUserByEmail email s with
        | (Ok (Some user), s1) =>
            (Ok (ApiResponseUtil.success env
                   (Some (userJson (User.toResponseObject user)))
                   "Usuário encontrado" 200), s1)
        | (Ok None, s1) =>
            (Ok (ApiResponseUtil.notFound env "Usuário não encontrado"), s1)
        | (Throw e, s1) => (Throw e, s1)
        end
      else (Ok (ApiResponseUtil.badRequest env "Email é obrigatório" None), s)
  | _ => (Ok (ApiResponseUtil.badRequest env "Email é obrigatório" None), s)
  end.

End UserController.

(** routes/userRoutes.ts *)
Module UserRoutes.

(** [router.get('/', validateQueryParams, UserController.listUsers)] *)
Definition getUsers (env : Env) (q : Query.t) (s : UserStore)
  : result HttpResponse * UserStore :=
  match Validation.validateQueryParams env q with
  | Some rejected => (Ok rejected, s)
  | None => UserController.listUsers env q s
  end.

End UserRoutes.

(** ** The rest of the counter service and its controller *)

Module AccessCounterStatistics.
Record t := mk {
  count : Z;
  lastUpdated : Z;
  averageAccessesPerDay : option (Z * Z);
  createdAt : option Z
}.
End AccessCounterStatistics.

(** AccessCounterService.getStatistics.  The average is kept as the
    two operands of its division, [count / daysSinceCreation]; the
    whole days are [Math.floor] of a quotient of integers. *)
Module AccessCounterStats.

Definition dayMs : Z := 1000 * 60 * 60 * 24.

Definition daysSinceCreation (env : Env) (created : Z) : Z :=
  Z.max 1 ((now env - created) / dayMs).

Definition getStatistics (env : Env) (s : CounterStore)
  : result AccessCounterStatistics.t * CounterStore :=
  match hd_error s with
  | None => (Ok (AccessCounterStatistics.mk 0 (now env) None None), s)
  | Some counter =>
      let averageAccessesPerDay :=
        match IAccessCounter.createdAt counter with
        | Some created =>
            Some (IAccessCounter.count counter, daysSinceCreation env created)
        | None => None
        end in
      (Ok (AccessCounterStatistics.mk
             (IAccessCounter.count counter)
             (IAccessCounter.lastUpdated counter)
             averageAccessesPerDay
             (IAccessCounter.createdAt counter)), s)
  end.

End AccessCounterStats.

(** The other handlers of AccessCounterController. *)
Module AccessCounterHandlers.

Definition incrementAccess (env : Env) (s : CounterStore)
  : result HttpResponse * CounterStore :=
  let (r, s') := AccessCounterService.incrementAccess env s in
  match r with
  | Ok v =>
      (Ok (ApiResponseUtil.success env
             (Some (AccessCounterController.counterJson v))
             "Acesso incrementado com sucesso" 200), s')
  | Throw e => (Throw e, s')
  end.

Definition getCurrentCount (env : Env) (s : CounterStore)
  : result HttpResponse * CounterStore :=
  let (r, s') := AccessCounterService.getCurrentCount env s in
  match r with
  | Ok v =>
      (Ok (ApiResponseUtil.success env
             (Some (AccessCounterController.counterJson v))
             "Contador obtido com sucesso" 200), s')
  | Throw e => (Throw e, s')
  end.

Definition checkIntegrity (env : Env) (s : CounterStore)
  : result HttpResponse * CounterStore :=
  let (isValid, s') := AccessCounterService.validateIntegrity s in
  if isValid
  then (Ok (ApiResponseUtil.success env
              (Some (JObj [("status"%string, JStr (JS.lit "healthy"));
                           ("valid"%string, JBool true)]))
              "Contador está íntegro" 200), s')
  else (Ok (ApiResponseUtil.error env "Contador em estado inconsistente"
              500 None), s').

(** [router.post('/increment', rateLimitConfig,
    AccessCounterController.incrementAccess)]: the limiter of
    express-rate-limit stands before the controller.  [limited] is
    its verdict on the request, true when the client has used up the
    requests of its window; its handler then answers 429 and the
    controller is not called. *)
Definition postIncrement (env : Env) (limited : bool) (s : CounterStore)
  : result HttpResponse * CounterStore :=
  if limited
  then (Ok (ApiResponseUtil.error env
              "Muitas tentativas, tente novamente em alguns minutos" 429 None),
        s)
  else incrementAccess env s.

(** A request to one of the routes of routes/accessRoutes.ts, the
    increment with the verdict of the limiter on it. *)
Inductive request : Type :=
| PostIncrement (limited : bool)
| GetCount
| GetStatistics
| GetHealth
| PostReset.

(** The store after a request has been served. *)
Definition serve (env : Env) (r : request) (s : CounterStore) : CounterStore :=
  match r with
  | PostIncrement limited => snd (postIncrement env limited s)
  | GetCount => snd (getCurrentCount env s)
  | GetStatistics => snd (AccessCounterStats.getStatistics env s)
  | GetHealth => snd (checkIntegrity env s)
  | PostReset => snd (AccessCounterController.resetCounter env s)
  end.

(** Requests served one after the other, each in its environment. *)
Fixpoint serveAll (rs : list (Env * request)) (s : CounterStore)
  : CounterStore :=
  match rs with
  | [] => s
  | (env, r) :: rest => serveAll rest (serve env r s)
  end.

End AccessCounterHandlers.

(** The counts handed to the callers of a concurrent run. *)
Module Handed.

Definition ofCall (c : Concurrent.call) : list Z :=
  match c with
  | Concurrent.Resolved (Some d) => [IAccessCounter.count d]
  | Concurrent.Settled (Ok r) => [IAccessCounterResponse.count r]
  | _ => []
  end.

Definition counts (cs : list Concurrent.call) : list Z := flat_map ofCall cs.

(** The counts C + 1, ..., C + k. *)
Definition upTo (c : Z) (k : nat) : list Z :=
  map (fun i => c + Z.of_nat i) (seq 1 k).

End Handed.

(** ** The rest of the user service *)

Module UserRemoval.

Fixpoint removeById (oid : jsstring) (s : UserStore) : UserStore :=
  match s with
  | [] => []
  | u :: r => if JS.eqb (IUser._id u) oid then r
              else u :: removeById oid r
  end.

(** [User.findByIdAndDelete(id)] *)
Definition findByIdAndDelete (id : jsstring) (s : UserStore)
  : (StoreError + option IUser.t) * UserStore :=
  match User.castObjectId id with
  | None => (inl CastError, s)
  | Some oid =>
      match List.find (fun u => JS.eqb (IUser._id u) oid) s with
      | None => (inr None, s)
      | Some u => (inr (Some u), removeById oid s)
      end
  end.

(** UserService.deleteUser *)
Definition deleteUser (userId : jsstring) (s : UserStore)
  : result unit * UserStore :=
  match findByIdAndDelete userId s with
  | (inr None, s1) => (Throw (mkAppError "Usuário não encontrado" 404), s1)
  | (inr (Some _), s1) => (Ok tt, s1)
  | (inl _, s1) => (Throw (mkAppError "Erro interno ao remover usuário" 500), s1)
  end.

(** UserService.userExists *)
Definition userExists (userId : jsstring) (s : UserStore)
  : bool * UserStore :=
  match User.findById userId s with
  | (inr (Some _), s1) => (true, s1)
  | (inr None, s1) => (false, s1)
  | (inl _, s1) => (false, s1)
  end.

End UserRemoval.

(** middleware/errorHandler.ts *)
Module ErrorHandler.

(** What the handler reads of the error it is given. *)
Record JsError := mkJsError {
  e_name : string;
  e_message : string;
  e_statusCode : option Z;
  e_isOperational : bool;
  e_stack : option string;
  e_errors : option (list string);      (* messages of [error.errors] *)
  e_code : option Z;
  e_keyPattern : option (list string);  (* keys of [error.keyPattern] *)
  e_hasBody : bool                      (* ['body' in error] *)
}.

(** An [AppError] as thrown by the services: [Error] by name,
    operational, with the stack captured where it was made. *)
Definition ofAppError (stack : option string) (e : AppError) : JsError :=
  mkJsError "Error" (message e) (Some (statusCode e)) true stack
            None None None false.

Definition isDevelopment (env : Env) : bool :=
  match NODE_ENV env with
  | Some m => JS.eqb m (JS.lit "development")
  | None => false
  end.

Definition nonEmpty (s : string) : bool :=
  match s with EmptyString => false | _ => true end.

(** [globalErrorHandler] on a response not yet sent; [None] when the
    handler itself throws. *)
Definition globalErrorHandler (env : Env) (error : JsError)
  : option HttpResponse :=
  let statusCode :=
    match e_statusCode error with
    | Some c => if c =? 0 then 500 else c
    | None => 500
    end in
  let default := "Erro interno do servidor"%string in
  let '(message, errorDetail) :=
    if e_isOperational error || (statusCode <? 500)
    then ((if nonEmpty (e_message error) then e_message error else default),
          (if isDevelopment env then e_stack error else None))
    else if isDevelopment env then (e_message error, e_stack error)
         else (default, None) in
  if String.eqb (e_name error) "ValidationError" then
    match e_errors error with
    | Some errs =>
        Some (ApiResponseUtil.badRequest env "Dados inválidos"
                (Some (joinMessages errs)))
    | None => None
    end
  else if String.eqb (e_name error) "CastError" then
    Some (ApiResponseUtil.badRequest env "ID inválido fornecido" None)
  else if String.eqb (e_name error) "MongoServerError"
          && match e_code error with Some c => c =? 11000 | None => false end
  then
    match e_keyPattern error with
    | Some keys =>
        let field := match keys with k :: _ => k | [] => "undefined"%string end in
        Some (ApiResponseUtil.error env (field ++ " já está em uso") 409 None)
    | None => None
    end
  else if String.eqb (e_name error) "SyntaxError" && e_hasBody error then
    Some (ApiResponseUtil.badRequest env
            "JSON inválido no corpo da requisição" None)
  else Some (ApiResponseUtil.error env message statusCode errorDetail).

(** [asyncHandler]: the answer of the handler, or the answer of the
    global error handler to what it throws. *)
Definition settle (env : Env) (stack : option string)
           (r : result HttpResponse) : option HttpResponse :=
  match r with
  | Ok res => Some res
  | Throw e => globalErrorHandler env (ofAppError stack e)
  end.

End ErrorHandler.

(** The rest of middleware/validation.ts and the routes on [/:id]. *)
Module RouteParams.

Definition endsWithId (paramName : string) : bool :=
  let n := String.length paramName in
  (2 <=? n)%nat && String.eqb (String.substring (n - 2) 2 paramName) "Id".

(** [/^[0-9a-fA-F]{24}$/] *)
Definition objectIdPattern (param : jsstring) : bool :=
  (len param =? 24) && forallb User.hexDigit param.

(** [validateRouteParams(paramName)]: [Some] is the answer sent,
    [None] is [next()]. *)
Definition validateRouteParams (paramName : string) (env : Env)
           (param : option jsstring) : option HttpResponse :=
  match param with
  | None | Some [] =>
      Some (ApiResponseUtil.badRequest env
              ("Parâmetro " ++ paramName ++ " é obrigatório") None)
  | Some p =>
      if (String.eqb paramName "id" || endsWithId paramName)
         && negb (objectIdPattern p)
      then Some (ApiResponseUtil.badRequest env
                   (paramName ++ " deve ser um ObjectId válido do MongoDB")
                   None)
      else None
  end.

(** [sanitizeInput] on an object body, as its list of fields: a null
    field is deleted, a text field trimmed. *)
Definition sanitizeField (kv : string * json) : list (string * json) :=
  match snd kv with
  | JNull => []
  | JStr v => [(fst kv, JStr (JS.trim v))]
  | _ => [kv]
  end.

Definition sanitizeBody (body : list (string * json)) : list (string * json) :=
  flat_map sanitizeField body.

(** UserController.deleteUser *)
Definition deleteUser (env : Env) (id : jsstring) (s : UserStore)
  : result HttpResponse * UserStore :=
  UserController.answer (UserRemoval.deleteUser id s)
    (fun _ => ApiResponseUtil.success env None
                "Usuário removido com sucesso" 200).

(** UserController.checkUserExists *)
Definition checkUserExists (env : Env) (id : jsstring) (s : UserStore)
  : result HttpResponse * UserStore :=
  let (exists_, s1) := UserRemoval.userExists id s in
  (Ok (ApiResponseUtil.success env
         (Some (JObj [("exists"%string, JBool exists_);
                      ("userId"%string, JStr id)]))
         (if exists_ then "Usuário existe" else "Usuário não encontrado")
         200), s1).

(** A route [validateRouteParams('id'), handler] under [asyncHandler]
    and the global error handler. *)
Definition onId (env : Env) (stack : option string) (param : option jsstring)
           (handler : jsstring -> UserStore -> result HttpResponse * UserStore)
           (s : UserStore) : option HttpResponse * UserStore :=
  match validateRouteParams "id" env param with
  | Some rejected => (Some rejected, s)
  | None =>
      let (r, s1) := handler (match param with Some p => p | None => [] end) s in
      (ErrorHandler.settle env stack r, s1)
  end.

(** [router.get('/:id', ...)], [router.delete('/:id', ...)],
    [router.get('/:id/exists', ...)] *)
Definition getUser env stack param s :=
  onId env stack param (UserController.getUserById env) s.
Definition deleteUserRoute env stack param s :=
  onId env stack param (deleteUser env) s.
Definition userExistsRoute env stack param s :=
  onId env stack param (checkUserExists env) s.

End RouteParams.

(** config/database.ts: DatabaseConnection.connect with its retries.
    [outcome k] tells whether the [k]th call of [mongoose.connect]
    of the process succeeds. *)
Module Database.

Definition maxRetries : Z := 5.

Inductive outcome : Type :=
| Connected (connectionRetries : Z) (attempts : nat)
| Exited (attempts : nat).

(** [connect] and [handleConnectionError], calling each other: [fuel]
    bounds the calls of [connect]. *)
Fixpoint connect (fuel : nat) (succeeds : nat -> bool) (attempt : nat)
         (connectionRetries : Z) : option outcome :=
  match fuel with
  | O => None
  | S fuel' =>
      if succeeds attempt then Some (Connected 0 (S attempt))
      else if connectionRetries <? maxRetries
      then connect fuel' succeeds (S attempt) (connectionRetries + 1)
      else Some (Exited (S attempt))
  end.

End Database.

(** ** Sample data and the wording of the specification *)

Definition devEnv : Env :=
  mkEnv 1700000000000 (Some (JS.lit "development")) (JS.lit "")
        (fun p => JS.lit "$2a$12$" ++ p).

Definition prodEnv : Env :=
  mkEnv 1700000000000 (Some (JS.lit "production")) (JS.lit "")
        (fun p => JS.lit "$2a$12$" ++ p).

Definition counterAt (c : Z) : IAccessCounter.t :=
  IAccessCounter.mk c 1600000000000 (Some 1500000000000) (Some 1600000000000).

(** A counter that has just been reset. *)
Definition freshlyReset : CounterStore :=
  snd (AccessCounterService.resetCounter devEnv [counterAt 7]).

Definition interleaved3 : list (nat * Env) :=
  [(2%nat, devEnv); (0%nat, prodEnv); (2%nat, devEnv);
   (1%nat, devEnv); (0%nat, devEnv); (1%nat, prodEnv)].

Definition requestAB : IUserCreateRequest.t :=
  IUserCreateRequest.mk (JS.lit "Ana Braga") (JS.lit "a@b.com")
                        (JS.lit "Abcdefg1").

Definition requestABUpper : IUserCreateRequest.t :=
  IUserCreateRequest.mk (JS.lit "Outro Nome") (JS.lit "A@B.COM")
                        (JS.lit "Abcdefg1").

Definition idEnv (t : Z) (id : string) : Env :=
  mkEnv t (Some (JS.lit "test")) (JS.lit id)
        (fun p => JS.lit "$2a$12$" ++ p).

(** No object of the body sent has a [password] field. *)
Definition noPassword (r : result HttpResponse) : Prop :=
  match r with
  | Ok res =>
      match data res with
      | Some j => hasKey "password" j = false
      | None => True
      end
  | Throw _ => True
  end.

Definition newerOrEqual (a b : IUser.t) : Prop :=
  IUser.createdAt b <= IUser.createdAt a.

(** The page the service hands out, as the specification words it:
    newest first, [(page - 1) * limit] skipped, at most [limit]
    taken. *)
Definition pageOf (page limit : Z) (s : UserStore) : list IUser.t :=
  firstn (Z.to_nat limit)
         (skipn (Z.to_nat ((page - 1) * limit)) (User.sortNewest s)).

Definition usersOf (n : nat) : UserStore :=
  map (fun i => IUser.mk (JS.lit "65a0000000000000000000" ++ [N.of_nat (48 + i / 10); N.of_nat (48 + i mod 10)])
                  (JS.lit "Ana") (JS.lit "u" ++ [N.of_nat (97 + i)] ++ JS.lit "@b.com")
                  (JS.lit "$2a$12$x") (Z.of_nat i) (Z.of_nat i))
      (seq 0 n).

Definition nameJohn123 : jsstring := JS.lit "John123".

(** "José Álvares" *)
Definition nameJoseAlvares : jsstring :=
  [74; 111; 115; 233; 32; 193; 108; 118; 97; 114; 101; 115]%N.

(** "a×b": U+00D7 is the multiplication sign. *)
Definition nameTimes : jsstring := [97; 215; 98]%N.

(** The rule as the specification words it: after trimming, 2 to 100
    characters, each a letter (an accented letter of Latin-1 too) or
    white space. *)
Definition specLetter (c : N) : bool :=
  inRange 97 122 c || inRange 65 90 c
  || inRange 192 214 c || inRange 216 246 c || inRange 248 255 c.

Definition specNameRule (name : jsstring) : bool :=
  let t := JS.trim name in
  (2 <=? len t) && (len t <=? 100)
  && forallb (fun c => specLetter c || JS.isWhiteSpace c) t.

(** U+00D7 and U+00F7, the two signs among the letters of U+00C0 to
    U+00FF. *)
Definition arithmeticSign (c : N) : bool := ((c =? 215) || (c =? 247))%N.




(** The number handed on for a parameter: the one [parseInt] reads
    when the parameter is given, the default otherwise. *)
Definition argument (v : option qvalue) (default : Z) : jsnumber :=
  if Coerce.truthy v then
    match Coerce.parseInt v with
    | NaN => default
    | n => n
    end
  else default.



(** A page of 400 digits, and the first integer that is no double. *)
Definition page400 : jsstring := repeat 57%N 400.
Definition page2p53 : jsstring := JS.lit "9007199254740993".


(** The user of the integration tests: "João Silva",
    joao.silva@test.com, "MinhaSenh@123". *)
Definition validUser : IUserCreateRequest.t :=
  IUserCreateRequest.mk
    [74; 111; 227; 111; 32; 83; 105; 108; 118; 97]%N
    (JS.lit "joao.silva@test.com") (JS.lit "MinhaSenh@123").

(** Sequential calls of [incrementAccess], the store threaded
    through. *)
Fixpoint incrementTimes (env : Env) (n : nat) (s : CounterStore)
  : CounterStore :=
  match n with
  | O => s
  | S k => incrementTimes env k (snd (AccessCounterService.incrementAccess env s))
  end.

(** ** Further sample data *)

(** The status of the error a call throws. *)
Definition thrownStatus {A : Type} (r : result A) : option Z :=
  match r with
  | Throw e => Some (statusCode e)
  | Ok _ => None
  end.

(** A creation request for an address; the collection after the
    first user has been created under an address. *)
Definition requestFor (email : jsstring) : IUserCreateRequest.t :=
  IUserCreateRequest.mk (JS.lit "Ana Braga") email (JS.lit "Abcdefg1").

Definition storeWith (email : jsstring) : UserStore :=
  snd (UserService.createUser (idEnv 1000 "65a000000000000000000001")
         (requestFor email) []).

(** Addresses outside Latin-1: the Kelvin sign for k, capital and
    small omega, capital I with dot above, and a capital sigma at the
    end of a word. *)
Definition kelvinAtB : jsstring := 0x212A%N :: JS.lit "@B.COM".
Definition omegaAtB : jsstring := 0x3A9%N :: JS.lit "@B.COM".
Definition smallOmegaAtB : jsstring := 0x3C9%N :: JS.lit "@b.com".
Definition dottedAtB : jsstring := 0x130%N :: JS.lit "@B.COM".
Definition sigmaAtB : jsstring := [0x391; 0x3A3]%N ++ JS.lit "@B.COM".

(** Requests that are not resets. *)
Definition isReset (r : AccessCounterHandlers.request) : bool :=
  match r with AccessCounterHandlers.PostReset => true | _ => false end.

(** An increment that the limiter lets through. *)
Definition isIncrement (r : AccessCounterHandlers.request) : bool :=
  match r with
  | AccessCounterHandlers.PostIncrement limited => negb limited
  | _ => false
  end.

(** The increments among the requests that reach the controller. *)
Definition increments (rs : list (Env * AccessCounterHandlers.request)) : Z :=
  len (filter (fun er => isIncrement (snd er)) rs).

Definition sampleRequests : list (Env * AccessCounterHandlers.request) :=
  [(devEnv, AccessCounterHandlers.PostIncrement false);
   (devEnv, AccessCounterHandlers.GetCount);
   (prodEnv, AccessCounterHandlers.PostReset);
   (devEnv, AccessCounterHandlers.PostIncrement false);
   (devEnv, AccessCounterHandlers.GetStatistics);
   (devEnv, AccessCounterHandlers.PostReset);
   (devEnv, AccessCounterHandlers.PostIncrement true);
   (devEnv, AccessCounterHandlers.PostIncrement false);
   (devEnv, AccessCounterHandlers.GetHealth)].

Definition readsAndIncrements : list (Env * AccessCounterHandlers.request) :=
  [(devEnv, AccessCounterHandlers.PostIncrement false);
   (devEnv, AccessCounterHandlers.GetCount);
   (prodEnv, AccessCounterHandlers.PostIncrement false);
   (devEnv, AccessCounterHandlers.PostIncrement true);
   (devEnv, AccessCounterHandlers.GetStatistics);
   (devEnv, AccessCounterHandlers.GetHealth);
   (devEnv, AccessCounterHandlers.PostIncrement true);
   (devEnv, AccessCounterHandlers.PostIncrement false)].

(** The state the users collection is kept in: identifiers and
    addresses are unique, and every address is stored lower-cased
    and trimmed. *)
Definition wellFormed (s : UserStore) : Prop :=
  NoDup (map IUser._id s)
  /\ NoDup (map IUser.email s)
  /\ Forall (fun u => UserSchema.emailSetters (IUser.email u) = IUser.email u)
            s.

(** A call of one of the methods of UserService. *)
Inductive userCall : Type :=
| CreateUser (body : IUserCreateRequest.t)
| UpdateUser (id : jsstring) (name email : option jsstring)
| DeleteUser (id : jsstring)
| GetUser (id : jsstring)
| GetByEmail (email : jsstring)
| ListUsers (page limit : Z)
| UserExists (id : jsstring).

(** The store after the call. *)
Definition afterCall (env : Env) (c : userCall) (s : UserStore) : UserStore :=
  match c with
  | CreateUser body => snd (UserService.createUser env body s)
  | UpdateUser id name email => snd (UserService.updateUser env id name email s)
  | DeleteUser id => snd (UserRemoval.deleteUser id s)
  | GetUser id => snd (UserService.getUserById id s)
  | GetByEmail email => snd (UserService.getUserByEmail email s)
  | ListUsers page limit => snd (UserService.listUsers page limit s)
  | UserExists id => snd (UserRemoval.userExists id s)
  end.

Fixpoint afterCalls (cs : list (Env * userCall)) (s : UserStore) : UserStore :=
  match cs with
  | [] => s
  | (env, c) :: rest => afterCalls rest (afterCall env c s)
  end.

(** The users on a page of [listUsers]. *)
Definition usersOn (page limit : Z) (s : UserStore) : list IUserResponse.t :=
  match fst (UserService.listUsers page limit s) with
  | Ok l => UserList.users l
  | Throw _ => []
  end.

(** [hasNext] of a page of [listUsers]. *)
Definition hasNextOn (page limit : Z) (s : UserStore) : bool :=
  match fst (UserService.listUsers page limit s) with
  | Ok l => Pagination.hasNext (UserList.pagination l)
  | Throw _ => false
  end.

Definition sampleCalls : list (Env * userCall) :=
  [(idEnv 1000 "65a000000000000000000001", CreateUser requestAB);
   (idEnv 2000 "65a000000000000000000002", CreateUser requestABUpper);
   (idEnv 3000 "65a000000000000000000003", CreateUser validUser);
   (idEnv 4000 "", UpdateUser (JS.lit "65a000000000000000000003") None
                              (Some (JS.lit " A@B.com ")));
   (idEnv 5000 "", UpdateUser (JS.lit "65a000000000000000000003")
                              (Some (JS.lit "Joao")) (Some (JS.lit "J@S.com")));
   (idEnv 6000 "", DeleteUser (JS.lit "65a000000000000000000001"));
   (idEnv 7000 "", ListUsers 1 10)].

(** The document [validUser] is stored as. *)
Definition envJoao : Env := idEnv 1000 "65a0000000000000000000a1".

Definition docJoao : IUser.t :=
  IUser.mk (JS.lit "65a0000000000000000000a1")
           (IUserCreateRequest.name validUser)
           (JS.lit "joao.silva@test.com")
           (JS.lit "$2a$12$MinhaSenh@123") 1000 1000.

(** The number of pages [listUsers] reports for a page size. *)
Definition pagesOn (limit : Z) (s : UserStore) : Z :=
  match ceilDiv (len s) limit with
  | Num p => p
  | _ => 0
  end.

(** An error with its stack taken away, and with its message too. *)
Definition withoutStack (e : ErrorHandler.JsError) : ErrorHandler.JsError :=
  ErrorHandler.mkJsError
    (ErrorHandler.e_name e) (ErrorHandler.e_message e)
    (ErrorHandler.e_statusCode e) (ErrorHandler.e_isOperational e) None
    (ErrorHandler.e_errors e) (ErrorHandler.e_code e)
    (ErrorHandler.e_keyPattern e) (ErrorHandler.e_hasBody e).

Definition redacted (e : ErrorHandler.JsError) : ErrorHandler.JsError :=
  ErrorHandler.mkJsError
    (ErrorHandler.e_name e) ""
    (ErrorHandler.e_statusCode e) (ErrorHandler.e_isOperational e) None
    (ErrorHandler.e_errors e) (ErrorHandler.e_code e)
    (ErrorHandler.e_keyPattern e) (ErrorHandler.e_hasBody e).

(** The status the handler settles on is a server error. *)
Definition serverError (e : ErrorHandler.JsError) : Prop :=
  match ErrorHandler.e_statusCode e with
  | Some c => c = 0 \/ 500 <= c
  | None => True
  end.

(** A programming error as the handler may meet one. *)
Definition typeError : ErrorHandler.JsError :=
  ErrorHandler.mkJsError "TypeError" "Cannot read properties of undefined"
    None false (Some "TypeError: at UserService.createUser"%string)
    None None None false.

Definition isNull (j : json) : bool :=
  match j with JNull => true | _ => false end.

Definition sampleBody : list (string * json) :=
  [("name"%string, JStr (JS.lit "  Ana Braga "));
   ("nickname"%string, JNull);
   ("email"%string, JStr (JS.lit "a@b.com "));
   ("age"%string, JNum 30);
   ("tags"%string, JArr [JStr (JS.lit " x "); JNull])].

(** [mongoose.connect] fails twice, then succeeds. *)
Definition thirdTime (k : nat) : bool := (2 <=? k)%nat.

(** * Properties *)

(** ** Access counter *)

Lemma JS_eqb_eq (a b : jsstring) : JS.eqb a b = true <-> a = b.
Proof.
  unfold JS.eqb. destruct (list_eq_dec N.eq_dec a b); split; congruence.
Qed.

Lemma JS_eqb_refl (a : jsstring) : JS.eqb a a = true.
Proof. now apply JS_eqb_eq. Qed.

(** C1. [increment()] adds 1 to the count of the counter record and
    stamps it with the current time; on a store with no record it
    creates one with count 1.  The other documents are untouched and
    the caller gets the count and lastUpdated of the record as it is
    after the update. *)
Theorem incrementAccess_post (env : Env) (s : CounterStore) :
  exists d' : IAccessCounter.t,
    AccessCounterService.incrementAccess env s
      = (Ok (IAccessCounterResponse.mk (IAccessCounter.count d')
                                       (IAccessCounter.lastUpdated d')),
         d' :: tl s)
    /\ IAccessCounter.count d' = storedCount s + 1
    /\ IAccessCounter.lastUpdated d' = now env
    /\ (s = [] -> IAccessCounter.count d' = 1
                  /\ IAccessCounter.createdAt d' = Some (now env))
    /\ (forall d rest, s = d :: rest ->
           IAccessCounter.createdAt d' = IAccessCounter.createdAt d).
Proof.
  destruct s as [|d rest]; cbn.
  - eexists; split; [reflexivity|]; cbn.
    repeat split; try reflexivity; intros; discriminate.
  - eexists; split; [reflexivity|]; cbn.
    repeat split; try reflexivity; try discriminate.
    intros d0 rest0 E. now inversion E.
Qed.

(** C5. [currentCount()] never writes: the store is returned as it
    was.  With no record it answers count 0 and the current time, else
    the stored count and lastUpdated. *)
Theorem getCurrentCount_frame (env : Env) (s : CounterStore) :
  snd (AccessCounterService.getCurrentCount env s) = s
  /\ fst (AccessCounterService.getCurrentCount env s)
     = match s with
       | [] => Ok (IAccessCounterResponse.mk 0 (now env))
       | d :: _ =>
           Ok (IAccessCounterResponse.mk (IAccessCounter.count d)
                                         (IAccessCounter.lastUpdated d))
       end.
Proof. destruct s; split; reflexivity. Qed.

(** C6. In production mode [POST /api/access/reset] answers 403 and
    the store is as before.  In any other mode the counter record has
    count 0 and lastUpdated now afterwards (created if there was none),
    the other documents are untouched, and the answer is 200 with that
    count and time. *)
Theorem resetCounter_gate (env : Env) (s : CounterStore) :
  (NODE_ENV env = Some (JS.lit "production") ->
   exists r, AccessCounterController.resetCounter env s = (Ok r, s)
             /\ status r = 403 /\ success r = false /\ data r = None)
  /\ (NODE_ENV env <> Some (JS.lit "production") ->
      exists r d',
        AccessCounterController.resetCounter env s = (Ok r, d' :: tl s)
        /\ IAccessCounter.count d' = 0
        /\ IAccessCounter.lastUpdated d' = now env
        /\ status r = 200 /\ success r = true
        /\ data r = Some (JObj [("count"%string, JNum 0);
                                ("lastUpdated"%string, JDate (now env))])).
Proof.
  unfold AccessCounterController.resetCounter. split.
  - intros ->. rewrite JS_eqb_refl. eexists. split; [reflexivity|]. now cbn.
  - intros Hmode.
    assert (Hgate : match NODE_ENV env with
                    | Some m => JS.eqb m (JS.lit "production")
                    | None => false
                    end = false).
    { destruct (NODE_ENV env) as [m|]; [|reflexivity].
      destruct (JS.eqb m (JS.lit "production")) eqn:E; [|reflexivity].
      apply JS_eqb_eq in E. congruence. }
    rewrite Hgate. destruct s as [|d rest]; cbn;
      do 2 eexists; (split; [reflexivity|]); now cbn.
Qed.

Lemma resetCounter_gate_witness :
  (exists r, AccessCounterController.resetCounter prodEnv [counterAt 7]
             = (Ok r, [counterAt 7])
             /\ status r = 403 /\ success r = false /\ data r = None)
  /\ (exists r d',
        AccessCounterController.resetCounter devEnv [counterAt 7]
        = (Ok r, d' :: tl [counterAt 7])
        /\ IAccessCounter.count d' = 0
        /\ IAccessCounter.lastUpdated d' = now devEnv
        /\ status r = 200 /\ success r = true
        /\ data r = Some (JObj [("count"%string, JNum 0);
                                ("lastUpdated"%string, JDate (now devEnv))])).
Proof.
  split.
  - apply (proj1 (resetCounter_gate prodEnv [counterAt 7])). reflexivity.
  - apply (proj2 (resetCounter_gate devEnv [counterAt 7])). discriminate.
Defined.

(** C8. [validateIntegrity()] reads only, and answers false exactly
    when the collection holds more than one counter record or a record
    with a negative count; with no record it answers true. *)
Theorem validateIntegrity_spec (s : CounterStore) :
  snd (AccessCounterService.validateIntegrity s) = s
  /\ (fst (AccessCounterService.validateIntegrity s) = false
      <-> (1 < List.length s)%nat
          \/ exists d, In d s /\ IAccessCounter.count d < 0)
  /\ (s = [] -> fst (AccessCounterService.validateIntegrity s) = true).
Proof.
  unfold AccessCounterService.validateIntegrity, AccessCounter.find.
  destruct s as [|d [|d2 rest]]; cbn [List.length].
  - cbn. repeat split; try discriminate.
    intros [H|[d [[] _]]]. inversion H.
  - cbn [Z.of_nat Pos.of_succ_nat Z.ltb Z.compare Pos.compare Pos.compare_cont].
    destruct (IAccessCounter.count d <? 0) eqn:E; cbn.
    + apply Z.ltb_lt in E. repeat split; try discriminate.
      intros _. right. exists d. split; [now left|assumption].
    + apply Z.ltb_ge in E. repeat split; try discriminate.
      intros [H|[d0 [[<-|[]] Hneg]]]; [inversion H; lia | lia].
  - assert (H : (1 <? Z.of_nat (S (S (List.length rest)))) = true)
      by (apply Z.ltb_lt; lia).
    rewrite H. cbn. repeat split; try discriminate.
    intros _. left. lia.
Qed.

(** ** Concurrent increments *)

Import Concurrent.

(** The two steps of one task, run back to back, are the service
    method. *)
Lemma stepCall_twice (env : Env) (s : CounterStore) :
  let (c1, s1) := stepCall env s Issued in
  stepCall env s1 c1
  = (Settled (fst (AccessCounterService.incrementAccess env s)),
     snd (AccessCounterService.incrementAccess env s)).
Proof. destruct s; reflexivity. Qed.

Lemma pending_cons (c : call) (cs : list call) :
  pending (c :: cs) = weight c + pending cs.
Proof.
  unfold pending, weight. cbn [filter].
  destruct (issued c); cbn [List.length]; lia.
Qed.

Lemma stepCall_balance (env : Env) (s : CounterStore) (c : call) :
  storedCount (snd (stepCall env s c)) + weight (fst (stepCall env s c))
  = storedCount s + weight c.
Proof.
  destruct c as [|[d|]|r]; try reflexivity.
  destruct s; cbn; lia.
Qed.

Lemma stepAt_balance (env : Env) (i : nat) (s : CounterStore) (cs : list call) :
  storedCount (snd (stepAt env i s cs)) + pending (fst (stepAt env i s cs))
  = storedCount s + pending cs.
Proof.
  revert i; induction cs as [|c r IH]; intros i; [now destruct i|].
  destruct i as [|j]; cbn [stepAt].
  - pose proof (stepCall_balance env s c) as B.
    destruct (stepCall env s c) as [c' s']; cbn [fst snd] in *.
    rewrite !pending_cons. lia.
  - specialize (IH j).
    destruct (stepAt env j s r) as [r' s']; cbn [fst snd] in *.
    rewrite !pending_cons. lia.
Qed.

Lemma run_balance (sched : list (nat * Env)) (s : CounterStore) (cs : list call) :
  storedCount (snd (run sched s cs)) + pending (fst (run sched s cs))
  = storedCount s + pending cs.
Proof.
  revert s cs; induction sched as [|[i env] rest IH]; intros s cs;
    [reflexivity|].
  cbn [run]. pose proof (stepAt_balance env i s cs) as B.
  destruct (stepAt env i s cs) as [cs' s']; cbn [fst snd] in B.
  rewrite IH. exact B.
Qed.

Lemma pending_issued (n : nat) : pending (repeat Issued n) = Z.of_nat n.
Proof.
  induction n as [|n IH]; [reflexivity|].
  cbn [repeat]. rewrite pending_cons, IH. cbn [weight issued]. lia.
Qed.

Lemma pending_settled (cs : list call) :
  forallb settled cs = true -> pending cs = 0.
Proof.
  induction cs as [|c r IH]; [reflexivity|].
  cbn [forallb]. intros H. apply andb_prop in H as [Hc Hr].
  rewrite pending_cons, (IH Hr). now destruct c.
Qed.

Lemma stepAt_middle (env : Env) (s : CounterStore) (done : list call)
      (c : call) (r : list call) :
  stepAt env (List.length done) s (done ++ c :: r)
  = (done ++ fst (stepCall env s c) :: r, snd (stepCall env s c)).
Proof.
  induction done as [|d done IH]; cbn [List.length app stepAt].
  - now destruct (stepCall env s c).
  - now rewrite IH.
Qed.

(** Every number of calls can run to the end: the hypothesis of the
    theorem below is met by the sequential schedule, from any store. *)
Lemma sequential_settles (env : Env) (n : nat) :
  forall (done : list call) (s : CounterStore),
    forallb settled done = true ->
    forallb settled
      (fst (run (sequential env (List.length done) n) s
              (done ++ repeat Issued n))) = true.
Proof.
  induction n as [|n IH]; intros done s Hd.
  - cbn. now rewrite app_nil_r.
  - unfold sequential. cbn [seq flat_map app repeat run].
    rewrite stepAt_middle.
    assert (E : exists d s', stepCall env s Issued = (Resolved (Some d), s')).
    { destruct s; cbn; eauto. }
    destruct E as (d & s' & ->). cbn [fst snd].
    rewrite stepAt_middle. cbn [stepCall fst snd].
    replace (done ++ Settled (Ok (AccessCounterService.respond d))
                  :: repeat Issued n)
      with ((done ++ [Settled (Ok (AccessCounterService.respond d))])
              ++ repeat Issued n)
      by (now rewrite <- app_assoc).
    replace (S (List.length done))
      with (List.length
              (done ++ [Settled (Ok (AccessCounterService.respond d))]))
      by (rewrite length_app; cbn; lia).
    apply IH. rewrite forallb_app, Hd. reflexivity.
Qed.

Lemma stepCall_record (env : Env) (d : IAccessCounter.t) (rest : CounterStore)
      (c : call) :
  exists d', snd (stepCall env (d :: rest) c) = d' :: rest.
Proof. destruct c as [|[x|]|r]; cbn; eauto. Qed.

Lemma stepAt_record (env : Env) (i : nat) (d : IAccessCounter.t)
      (rest : CounterStore) (cs : list call) :
  exists d', snd (stepAt env i (d :: rest) cs) = d' :: rest.
Proof.
  revert i; induction cs as [|c r IH]; intros i.
  - destruct i; cbn; eauto.
  - destruct i as [|j]; cbn [stepAt].
    + destruct (stepCall_record env d rest c) as [d' E].
      destruct (stepCall env (d :: rest) c) as [c' s']; cbn in *; eauto.
    + destruct (IH j) as [d' E].
      destruct (stepAt env j (d :: rest) r) as [r' s']; cbn in *; eauto.
Qed.

Lemma run_record (sched : list (nat * Env)) (rest : CounterStore) :
  forall (d : IAccessCounter.t) (cs : list call),
  exists d', snd (run sched (d :: rest) cs) = d' :: rest.
Proof.
  induction sched as [|[i env] sched IH]; intros d cs; cbn [run].
  - cbn; eauto.
  - destruct (stepAt_record env i d rest cs) as [d1 E].
    destruct (stepAt env i (d :: rest) cs) as [cs' s']; cbn in E; subst s'.
    apply IH.
Qed.

(** C2. N calls of [increment()] run concurrently against a counter
    record that holds C: whatever the interleaving of their steps,
    once all N have settled the record holds C + N and no other
    document has changed. *)
Theorem concurrent_increments_exact
  (n : nat) (sched : list (nat * Env)) (d : IAccessCounter.t)
  (rest : CounterStore) :
  forallb settled (fst (run sched (d :: rest) (repeat Issued n))) = true ->
  exists d',
    snd (run sched (d :: rest) (repeat Issued n)) = d' :: rest
    /\ IAccessCounter.count d' = IAccessCounter.count d + Z.of_nat n.
Proof.
  intros Hdone.
  destruct (run_record sched rest d (repeat Issued n)) as [d' E].
  exists d'. split; [exact E|].
  pose proof (run_balance sched (d :: rest) (repeat Issued n)) as B.
  rewrite (pending_settled _ Hdone), pending_issued, E in B. cbn in B. lia.
Qed.

Lemma concurrent_increments_exact_witness :
  exists d',
    snd (run interleaved3 freshlyReset (repeat Issued 3)) = [d']
    /\ IAccessCounter.count d' = 0 + Z.of_nat 3.
Proof.
  apply (concurrent_increments_exact 3 interleaved3
           (IAccessCounter.mk 0 (now devEnv) (Some 1500000000000)
                              (Some (now devEnv))) []).
  reflexivity.
Defined.

(** The same from a store with no record, the upsert taken as one
    step of the store like the update. *)
Lemma concurrent_increments_from_empty (n : nat) (sched : list (nat * Env)) :
  forallb settled (fst (run sched [] (repeat Issued n))) = true ->
  storedCount (snd (run sched [] (repeat Issued n))) = Z.of_nat n.
Proof.
  intros Hdone.
  pose proof (run_balance sched [] (repeat Issued n)) as B.
  rewrite (pending_settled _ Hdone), pending_issued in B. cbn in B. lia.
Qed.

(** ** Strings *)

Lemma isWhiteSpace_whiteSpaces (c : N) :
  JS.isWhiteSpace c = true -> In c whiteSpaces.
Proof.
  unfold JS.isWhiteSpace, whiteSpaces.
  rewrite !orb_true_iff, !andb_true_iff, !N.leb_le, !N.eqb_eq.
  cbn [In]. lia.
Qed.

(** White space has no case: it is no surrogate, it is mapped by
    nothing and it is no cased letter. *)
Lemma whiteSpace_caseless (w : N) :
  JS.isWhiteSpace w = true ->
  JS.leadSurrogate w = false /\ JS.trailSurrogate w = false
  /\ JS.codeUnits w = [w]
  /\ (forall b a, JS.lowerAt b w a = [w])
  /\ (JS.caseIgnorable w = false -> JS.cased w = false).
Proof.
  intros H. apply isWhiteSpace_whiteSpaces in H.
  assert (C : forallb (fun w => negb (JS.leadSurrogate w)
                                && negb (JS.trailSurrogate w)
                                && JS.eqb (JS.codeUnits w) [w]
                                && JS.eqb (JS.lowerAt [] w []) [w]
                                && negb (w =? 0x3A3)%N
                                && (JS.caseIgnorable w || negb (JS.cased w)))
                      whiteSpaces = true) by (vm_compute; reflexivity).
  rewrite forallb_forall in C. specialize (C w H).
  rewrite !andb_true_iff, !negb_true_iff, orb_true_iff, negb_true_iff in C.
  destruct C as [[[[[C1 C2] C3] C4] C5] C6].
  unfold JS.eqb in C3, C4.
  destruct (list_eq_dec N.eq_dec (JS.codeUnits w) [w]) as [E3|]; [|discriminate].
  destruct (list_eq_dec N.eq_dec (JS.lowerAt [] w []) [w]) as [E4|];
    [|discriminate].
  repeat split; try assumption.
  - intros b a. unfold JS.lowerAt in *. rewrite C5 in *. exact E4.
  - intros Hi. destruct C6 as [C6|C6]; [congruence|exact C6].
Qed.

Lemma codePoints_pair (c d : N) (r : jsstring) :
  JS.leadSurrogate c && JS.trailSurrogate d = true ->
  JS.codePoints (c :: d :: r) = JS.codePointOf c d :: JS.codePoints r.
Proof.
  intros E.
  change (JS.codePoints (c :: d :: r))
    with (if JS.leadSurrogate c && JS.trailSurrogate d
          then JS.codePointOf c d :: JS.codePoints r
          else c :: JS.codePoints (d :: r)).
  now rewrite E.
Qed.

Lemma codePoints_single (c d : N) (r : jsstring) :
  JS.leadSurrogate c && JS.trailSurrogate d = false ->
  JS.codePoints (c :: d :: r) = c :: JS.codePoints (d :: r).
Proof.
  intros E.
  change (JS.codePoints (c :: d :: r))
    with (if JS.leadSurrogate c && JS.trailSurrogate d
          then JS.codePointOf c d :: JS.codePoints r
          else c :: JS.codePoints (d :: r)).
  now rewrite E.
Qed.

(** Induction along the pairing of surrogates. *)
Lemma codePoints_ind (P : jsstring -> Prop) :
  P [] -> (forall c, P [c]) ->
  (forall c d r, JS.leadSurrogate c && JS.trailSurrogate d = true ->
                 P r -> P (c :: d :: r)) ->
  (forall c d r, JS.leadSurrogate c && JS.trailSurrogate d = false ->
                 P (d :: r) -> P (c :: d :: r)) ->
  forall s, P s.
Proof.
  intros H0 H1 H2 H3 s.
  assert (H : P s /\ forall c, P (c :: s)); [|apply H].
  induction s as [|d r [IH1 IH2]].
  - split; [exact H0 | exact H1].
  - split; [apply IH2|]. intros c.
    destruct (JS.leadSurrogate c && JS.trailSurrogate d) eqn:E.
    + now apply H2.
    + apply H3; [exact E | apply IH2].
Qed.

Lemma codePointOf_astral (c d : N) : (0x10000 <= JS.codePointOf c d)%N.
Proof. unfold JS.codePointOf. lia. Qed.

Lemma astral_plain (cp : N) :
  (0x10000 <= cp)%N ->
  JS.leadSurrogate cp = false /\ JS.trailSurrogate cp = false
  /\ JS.isWhiteSpace cp = false.
Proof.
  intros H. unfold JS.leadSurrogate, JS.trailSurrogate, JS.isWhiteSpace.
  rewrite !orb_false_iff, !andb_false_iff, !N.leb_gt, !N.eqb_neq. lia.
Qed.

(** The first code point of a text is its first unit or a code point
    beyond the Basic Multilingual Plane. *)
Lemma codePoints_head (c : N) (r : jsstring) :
  exists h t, JS.codePoints (c :: r) = h :: t /\ (h = c \/ (0x10000 <= h)%N).
Proof.
  destruct r as [|d r]; [now exists c, []; split; [|left]|].
  destruct (JS.leadSurrogate c && JS.trailSurrogate d) eqn:E.
  - rewrite (codePoints_pair _ _ _ E). eexists _, _. split; [reflexivity|].
    right. apply codePointOf_astral.
  - rewrite (codePoints_single _ _ _ E). eexists _, _. split; [reflexivity|].
    now left.
Qed.

Lemma codePoints_cons (c : N) (s : jsstring) :
  JS.leadSurrogate c = false -> JS.codePoints (c :: s) = c :: JS.codePoints s.
Proof.
  intros H. destruct s as [|d r]; [reflexivity|].
  apply codePoints_single. now rewrite H.
Qed.

Lemma codePoints_cons_head (c h : N) (t : jsstring) :
  JS.leadSurrogate c && JS.trailSurrogate h = false ->
  JS.codePoints (c :: h :: t) = c :: JS.codePoints (h :: t).
Proof. apply codePoints_single. Qed.

Lemma codePoints_snoc (s : jsstring) (w : N) :
  JS.trailSurrogate w = false ->
  JS.codePoints (s ++ [w]) = JS.codePoints s ++ [w].
Proof.
  intros H. induction s as [|c|c d r E IH|c d r E IH] using codePoints_ind.
  - reflexivity.
  - cbn [app]. rewrite codePoints_single by (now rewrite H, andb_false_r).
    reflexivity.
  - cbn [app]. rewrite !(codePoints_pair _ _ _ E), IH. reflexivity.
  - change ((c :: d :: r) ++ [w]) with (c :: d :: (r ++ [w])).
    rewrite !(codePoints_single _ _ _ E).
    change (d :: r ++ [w]) with ((d :: r) ++ [w]). now rewrite IH.
Qed.

(** The last code point of a text that ends in no white space is no
    white space. *)
Lemma codePoints_last (s : jsstring) (c : N) :
  JS.isWhiteSpace c = false ->
  exists l h, JS.codePoints (s ++ [c]) = l ++ [h] /\ JS.isWhiteSpace h = false.
Proof.
  intros H. induction s as [|a|a d r E IH|a d r E IH] using codePoints_ind.
  - now exists [], c.
  - cbn [app]. destruct (JS.leadSurrogate a && JS.trailSurrogate c) eqn:E.
    + rewrite (codePoints_pair _ _ _ E). exists [], (JS.codePointOf a c).
      split; [reflexivity|]. apply astral_plain, codePointOf_astral.
    + rewrite (codePoints_single _ _ _ E). now exists [a], c.
  - cbn [app]. rewrite (codePoints_pair _ _ _ E).
    destruct IH as (l & h & -> & Hh). now exists (JS.codePointOf a d :: l), h.
  - change ((a :: d :: r) ++ [c]) with (a :: d :: (r ++ [c])).
    rewrite (codePoints_single _ _ _ E).
    change (d :: r ++ [c]) with ((d :: r) ++ [c]).
    destruct IH as (l & h & -> & Hh). now exists (a :: l), h.
Qed.

(** Decoding what has been decoded pairs nothing more. *)
Lemma codePoints_codePoints (s : jsstring) :
  JS.codePoints (JS.codePoints s) = JS.codePoints s.
Proof.
  induction s as [|c|c d r E IH|c d r E IH] using codePoints_ind.
  - reflexivity.
  - reflexivity.
  - rewrite (codePoints_pair _ _ _ E).
    rewrite codePoints_cons by apply astral_plain, codePointOf_astral.
    now rewrite IH.
  - rewrite (codePoints_single _ _ _ E).
    destruct (codePoints_head d r) as (h & t & Eh & Hh).
    rewrite Eh in *. rewrite codePoints_single, IH; [reflexivity|].
    destruct Hh as [->|Hh]; [exact E|].
    rewrite (proj1 (proj2 (astral_plain _ Hh))). apply andb_false_r.
Qed.

(** A text in which no lead surrogate stands before a trail
    surrogate: decoding leaves it as it is. *)
Lemma unpaired_tail (c : N) (r : list N) :
  JS.codePoints (c :: r) = c :: r ->
  JS.codePoints r = r
  /\ match r with
     | d :: _ => JS.leadSurrogate c && JS.trailSurrogate d = false
     | [] => True
     end.
Proof.
  destruct r as [|d r]; [now split|].
  destruct (JS.leadSurrogate c && JS.trailSurrogate d) eqn:E.
  - rewrite (codePoints_pair _ _ _ E). intros H. exfalso.
    injection H as H _. pose proof (codePointOf_astral c d) as A.
    apply andb_prop in E as [E _]. unfold JS.leadSurrogate in E.
    apply andb_prop in E as [_ E]. apply N.leb_le in E. lia.
  - rewrite (codePoints_single _ _ _ E). intros H. injection H as H.
    now split.
Qed.

(** A code point that the table maps is listed with its image. *)
Lemma simpleLowercase_table (cp : N) :
  JS.simpleLowercase cp = cp \/ In (cp, JS.simpleLowercase cp) lowercasePairs.
Proof.
  unfold JS.simpleLowercase.
  destruct (find _ JS.lowercaseTable) as [[[[first last] step] target]|] eqn:E;
    [right|now left].
  apply find_some in E as [Hin Hc].
  rewrite !andb_true_iff, !N.leb_le, N.eqb_eq in Hc.
  destruct Hc as [[H1 H2] H3].
  pose proof (N.Div0.div_mod (cp - first) step) as D. rewrite H3 in D.
  unfold lowercasePairs. apply in_flat_map.
  exists (first, last, step, target). split; [exact Hin|].
  apply in_map_iff. exists (N.to_nat ((cp - first) / step)). split.
  - rewrite N2Nat.id. f_equal; lia.
  - apply in_seq.
    assert (L : ((cp - first) / step <= (last - first) / step)%N)
      by (apply N.Div0.div_le_mono; lia).
    revert L. generalize ((cp - first) / step)%N, ((last - first) / step)%N.
    lia.
Qed.

Lemma lowercasePairs_images :
  forallb (fun p : N * N =>
             let d := snd p in
             JS.eqb (JS.lowerAt [] d []) [d]
             && negb (d =? 0x3A3)%N
             && negb (JS.isWhiteSpace d)
             && negb (JS.leadSurrogate d) && negb (JS.trailSurrogate d))
          lowercasePairs = true.
Proof. vm_compute. reflexivity. Qed.

(** What a code point maps to is mapped no further, is no white
    space and is no surrogate. *)
Lemma image_facts (c : N) :
  JS.simpleLowercase c <> c ->
  (forall b a, JS.lowerAt b (JS.simpleLowercase c) a = [JS.simpleLowercase c])
  /\ JS.isWhiteSpace (JS.simpleLowercase c) = false
  /\ JS.leadSurrogate (JS.simpleLowercase c) = false
  /\ JS.trailSurrogate (JS.simpleLowercase c) = false.
Proof.
  intros Hne. destruct (simpleLowercase_table c) as [E|Hin]; [contradiction|].
  pose proof lowercasePairs_images as C. rewrite forallb_forall in C.
  specialize (C _ Hin). cbn [snd] in C.
  rewrite !andb_true_iff, !negb_true_iff in C.
  destruct C as [[[[C1 C2] C3] C4] C5].
  unfold JS.eqb in C1.
  destruct (list_eq_dec N.eq_dec _ _) as [E1|]; [|discriminate].
  repeat split; try assumption.
  intros b a. unfold JS.lowerAt in *. rewrite C2 in *. exact E1.
Qed.

Lemma lowerAt_cases (b : list N) (c : N) (a : list N) :
  JS.lowerAt b c a = [c]
  \/ forall d, In d (JS.lowerAt b c a) ->
       (forall b' a', JS.lowerAt b' d a' = [d])
       /\ JS.isWhiteSpace d = false
       /\ JS.leadSurrogate d = false /\ JS.trailSurrogate d = false.
Proof.
  unfold JS.lowerAt at 1 2.
  destruct (c =? 0x3A3)%N eqn:E1.
  { right. intros d Hd.
    assert (Hd' : d = 0x3C2%N \/ d = 0x3C3%N)
      by (destruct (JS.finalSigma b a); destruct Hd as [<-|[]]; auto).
    destruct Hd' as [->| ->]; repeat split. }
  destruct (c =? 0x130)%N eqn:E2.
  { right. intros d [<-|[<-|[]]]; repeat split. }
  destruct (N.eq_dec (JS.simpleLowercase c) c) as [E|Hne].
  - left. now rewrite E.
  - right. intros d [<-|[]]. now apply image_facts.
Qed.

Lemma lowerAt_nonempty (b : list N) (c : N) (a : list N) :
  JS.lowerAt b c a <> [].
Proof.
  unfold JS.lowerAt.
  destruct (c =? 0x3A3)%N; [destruct (JS.finalSigma b a); discriminate|].
  destruct (c =? 0x130)%N; discriminate.
Qed.

(** What [toLowerCase] puts out is mapped no further. *)
Lemma lowerAt_fixed (b : list N) (c : N) (a : list N) (d : N) :
  In d (JS.lowerAt b c a) -> forall b' a', JS.lowerAt b' d a' = [d].
Proof.
  intros Hd. destruct (lowerAt_cases b c a) as [E|H]; [|now apply H].
  rewrite E in Hd. destruct Hd as [<-|[]].
  intros b' a'. revert E. unfold JS.lowerAt.
  destruct (c =? 0x3A3)%N eqn:E1.
  { apply N.eqb_eq in E1. subst.
    destruct (JS.finalSigma b a); discriminate. }
  destruct (c =? 0x130)%N; [discriminate|]. trivial.
Qed.

Lemma lowerAt_solid (b : list N) (c : N) (a : list N) (d : N) :
  JS.isWhiteSpace c = false -> In d (JS.lowerAt b c a) ->
  JS.isWhiteSpace d = false.
Proof.
  intros Hc Hd. destruct (lowerAt_cases b c a) as [E|H]; [|now apply H].
  rewrite E in Hd. now destruct Hd as [<-|[]].
Qed.

(** A surrogate in the output is a surrogate of the input, left as
    it is. *)
Lemma lowerAt_surrogate (b : list N) (c : N) (a : list N) (d : N) :
  In d (JS.lowerAt b c a) ->
  JS.leadSurrogate d = true \/ JS.trailSurrogate d = true ->
  JS.lowerAt b c a = [c].
Proof.
  intros Hd Hs. destruct (lowerAt_cases b c a) as [E|H]; [exact E|].
  destruct (H d Hd) as (_ & _ & H1 & H2).
  destruct Hs; congruence.
Qed.

Lemma lowerIn_app (b l1 l2 a : list N) :
  JS.lowerIn b (l1 ++ l2) a
  = JS.lowerIn b l1 (l2 ++ a) ++ JS.lowerIn (rev l1 ++ b) l2 a.
Proof.
  revert b. induction l1 as [|c r IH]; intros b; [reflexivity|].
  cbn [app JS.lowerIn rev]. rewrite IH, <- !app_assoc. reflexivity.
Qed.

Lemma lowerIn_fixed (b l a : list N) :
  (forall d, In d l -> forall b' a', JS.lowerAt b' d a' = [d]) ->
  JS.lowerIn b l a = l.
Proof.
  revert b. induction l as [|c r IH]; intros b H; [reflexivity|].
  cbn [JS.lowerIn]. rewrite (H c (or_introl eq_refl)), IH; [reflexivity|].
  intros d Hd. apply H. now right.
Qed.

Lemma lowerIn_out_fixed (b l a : list N) (d : N) :
  In d (JS.lowerIn b l a) -> forall b' a', JS.lowerAt b' d a' = [d].
Proof.
  revert b. induction l as [|c r IH]; intros b; [intros []|].
  cbn [JS.lowerIn]. intros H. apply in_app_or in H as [H|H].
  - exact (lowerAt_fixed _ _ _ _ H).
  - exact (IH _ H).
Qed.

Lemma codePoints_app_plain (x y : list N) :
  (forall d, In d x -> JS.leadSurrogate d = false) ->
  JS.codePoints (x ++ y) = x ++ JS.codePoints y.
Proof.
  induction x as [|c r IH]; intros H; [reflexivity|].
  cbn [app]. rewrite codePoints_cons by (apply H; now left).
  rewrite IH; [reflexivity|]. intros d Hd. apply H. now right.
Qed.

(** Lowering pairs no surrogates that were not paired. *)
Lemma lowerIn_unpaired (b l a : list N) :
  JS.codePoints l = l -> JS.codePoints (JS.lowerIn b l a) = JS.lowerIn b l a.
Proof.
  revert b. induction l as [|c r IH]; intros b U; [reflexivity|].
  apply unpaired_tail in U as [Ur Uc]. cbn [JS.lowerIn].
  specialize (IH (c :: b) Ur).
  destruct (lowerAt_cases b c (r ++ a)) as [E|H].
  - rewrite E. cbn [app].
    destruct r as [|d r']; [reflexivity|].
    cbn [JS.lowerIn] in *.
    destruct (JS.lowerAt (c :: b) d (r' ++ a)) as [|h t] eqn:Eh;
      [now apply lowerAt_nonempty in Eh|].
    cbn [app] in *. rewrite codePoints_single, IH; [reflexivity|].
    destruct (JS.trailSurrogate h) eqn:Th; [|apply andb_false_r].
    assert (E' : JS.lowerAt (c :: b) d (r' ++ a) = [d]).
    { apply (lowerAt_surrogate _ _ _ h); [rewrite Eh; now left|now right]. }
    rewrite E' in Eh. injection Eh as <- _. now rewrite Th in *.
  - rewrite codePoints_app_plain, IH; [reflexivity|].
    intros d Hd. apply (H d Hd).
Qed.

Lemma codeUnits_head (d : N) :
  exists u t, JS.codeUnits d = u :: t
              /\ (JS.trailSurrogate u = true -> u = d /\ t = []).
Proof.
  unfold JS.codeUnits.
  destruct ((0x10000 <=? d) && (d <=? 0x10FFFF))%N eqn:E.
  - eexists _, _. split; [reflexivity|]. intros H. exfalso.
    apply andb_prop in E as [E1 E2]. apply N.leb_le in E1, E2.
    unfold JS.trailSurrogate in H. apply andb_prop in H as [H _].
    apply N.leb_le in H.
    assert ((d - 0x10000) / 0x400 < 0x400)%N
      by (apply N.Div0.div_lt_upper_bound; lia).
    lia.
  - now exists d, [].
Qed.

(** Encoding and decoding again gives the code points back. *)
Lemma codePoints_codeUnits (l : list N) :
  JS.codePoints l = l -> JS.codePoints (flat_map JS.codeUnits l) = l.
Proof.
  induction l as [|c r IH]; intros U; [reflexivity|].
  apply unpaired_tail in U as [Ur Uc]. specialize (IH Ur).
  cbn [flat_map]. unfold JS.codeUnits at 1.
  destruct ((0x10000 <=? c) && (c <=? 0x10FFFF))%N eqn:E.
  - apply andb_prop in E as [E1 E2]. apply N.leb_le in E1, E2.
    assert (Q : ((c - 0x10000) / 0x400 < 0x400)%N)
      by (apply N.Div0.div_lt_upper_bound; lia).
    pose proof (N.mod_lt (c - 0x10000) 0x400 ltac:(lia)) as M.
    pose proof (N.Div0.div_mod (c - 0x10000) 0x400) as D.
    cbn [app]. revert Q M D.
    generalize ((c - 0x10000) / 0x400)%N, ((c - 0x10000) mod 0x400)%N.
    intros q m Q M D. rewrite codePoints_pair, IH.
    + f_equal. unfold JS.codePointOf. lia.
    + unfold JS.leadSurrogate, JS.trailSurrogate.
      rewrite !andb_true_iff, !N.leb_le. lia.
  - cbn [app]. destruct r as [|d r']; [reflexivity|].
    cbn [flat_map] in *.
    destruct (codeUnits_head d) as (u & t & Eu & Hu). rewrite Eu in *.
    cbn [app] in *. rewrite codePoints_single, IH; [reflexivity|].
    destruct (JS.trailSurrogate u) eqn:Tu; [|apply andb_false_r].
    destruct (Hu eq_refl) as [-> _]. now rewrite Tu in Uc.
Qed.

Lemma toLowerCase_idem (v : jsstring) :
  JS.toLowerCase (JS.toLowerCase v) = JS.toLowerCase v.
Proof.
  unfold JS.toLowerCase.
  rewrite codePoints_codeUnits
    by apply lowerIn_unpaired, codePoints_codePoints.
  rewrite lowerIn_fixed; [reflexivity|].
  intros d Hd. exact (lowerIn_out_fixed _ _ _ _ Hd).
Qed.

(** White space around a text is no context for a sigma. *)
Lemma casedLetterNext_ws (x ws : list N) :
  (forall w, In w ws -> JS.isWhiteSpace w = true) ->
  JS.casedLetterNext (x ++ ws) = JS.casedLetterNext x.
Proof.
  intros H. induction x as [|c r IH]; cbn [app JS.casedLetterNext].
  - induction ws as [|w r IH]; [reflexivity|]. cbn [JS.casedLetterNext].
    destruct (JS.caseIgnorable w) eqn:E.
    + apply IH. intros v Hv. apply H. now right.
    + now apply (whiteSpace_caseless w (H w (or_introl eq_refl))).
  - now rewrite IH.
Qed.

Lemma lowerAt_ws (b b' : list N) (c : N) (a a' : list N) :
  (forall w, In w b' -> JS.isWhiteSpace w = true) ->
  (forall w, In w a' -> JS.isWhiteSpace w = true) ->
  JS.lowerAt (b ++ b') c (a ++ a') = JS.lowerAt b c a.
Proof.
  intros Hb Ha. unfold JS.lowerAt, JS.finalSigma.
  now rewrite !casedLetterNext_ws.
Qed.

Lemma lowerIn_ws (b b' l a a' : list N) :
  (forall w, In w b' -> JS.isWhiteSpace w = true) ->
  (forall w, In w a' -> JS.isWhiteSpace w = true) ->
  JS.lowerIn (b ++ b') l (a ++ a') = JS.lowerIn b l a.
Proof.
  intros Hb Ha. revert b. induction l as [|c r IH]; intros b; [reflexivity|].
  cbn [JS.lowerIn]. rewrite app_assoc, lowerAt_ws by assumption.
  f_equal. apply (IH (c :: b)).
Qed.

Lemma codeUnits_solid (d u : N) :
  JS.isWhiteSpace d = false -> In u (JS.codeUnits d) ->
  JS.isWhiteSpace u = false.
Proof.
  unfold JS.codeUnits.
  destruct ((0x10000 <=? d) && (d <=? 0x10FFFF))%N eqn:E.
  - intros _ Hu. apply andb_prop in E as [E1 E2]. apply N.leb_le in E1, E2.
    assert (Q : ((d - 0x10000) / 0x400 < 0x400)%N)
      by (apply N.Div0.div_lt_upper_bound; lia).
    pose proof (N.mod_lt (d - 0x10000) 0x400 ltac:(lia)) as M.
    revert Q M Hu.
    generalize ((d - 0x10000) / 0x400)%N, ((d - 0x10000) mod 0x400)%N.
    intros q m Q M Hu. unfold JS.isWhiteSpace.
    rewrite !orb_false_iff, !andb_false_iff, !N.leb_gt, !N.eqb_neq.
    destruct Hu as [<-|[<-|[]]]; lia.
  - now intros H [<-|[]].
Qed.

(** The units a code point that is no white space is lowered to: at
    least one, none of them white space. *)
Lemma lowered_solid (b : list N) (c : N) (a : list N) :
  JS.isWhiteSpace c = false ->
  flat_map JS.codeUnits (JS.lowerAt b c a) <> []
  /\ forall u, In u (flat_map JS.codeUnits (JS.lowerAt b c a)) ->
               JS.isWhiteSpace u = false.
Proof.
  intros Hc. split.
  - destruct (JS.lowerAt b c a) as [|d t] eqn:E;
      [now apply lowerAt_nonempty in E|].
    cbn [flat_map]. destruct (codeUnits_head d) as (u & t' & -> & _).
    discriminate.
  - intros u Hu. apply in_flat_map in Hu as (d & Hd & Hu).
    apply (codeUnits_solid d); [|exact Hu].
    now apply (lowerAt_solid b c a).
Qed.

Lemma toLowerCase_cons_ws (w : N) (s : jsstring) :
  JS.isWhiteSpace w = true ->
  JS.toLowerCase (w :: s) = w :: JS.toLowerCase s.
Proof.
  intros H. destruct (whiteSpace_caseless w H) as (L & _ & U & F & _).
  unfold JS.toLowerCase. rewrite (codePoints_cons _ _ L).
  cbn [JS.lowerIn flat_map]. rewrite F. cbn [flat_map app]. rewrite U.
  cbn [app]. f_equal. f_equal.
  apply (lowerIn_ws [] [w] (JS.codePoints s) [] []).
  - now intros v [<-|[]].
  - intros v [].
Qed.

Lemma toLowerCase_cons_solid (c : N) (s : jsstring) :
  JS.isWhiteSpace c = false ->
  exists u t, JS.toLowerCase (c :: s) = u :: t /\ JS.isWhiteSpace u = false.
Proof.
  intros H. unfold JS.toLowerCase.
  destruct (codePoints_head c s) as (h & t & -> & Hh).
  assert (Hw : JS.isWhiteSpace h = false)
    by (destruct Hh as [->|Hh]; [exact H|now apply astral_plain]).
  cbn [JS.lowerIn]. rewrite flat_map_app.
  destruct (lowered_solid [] h (t ++ []) Hw) as [Hn Hs].
  destruct (flat_map JS.codeUnits (JS.lowerAt [] h (t ++ []))) as [|u r];
    [contradiction|].
  exists u, (r ++ flat_map JS.codeUnits (JS.lowerIn [h] t [])).
  split; [reflexivity|]. apply Hs. now left.
Qed.

Lemma toLowerCase_snoc_ws (s : jsstring) (w : N) :
  JS.isWhiteSpace w = true ->
  JS.toLowerCase (s ++ [w]) = JS.toLowerCase s ++ [w].
Proof.
  intros H. destruct (whiteSpace_caseless w H) as (_ & T & U & F & _).
  unfold JS.toLowerCase. rewrite (codePoints_snoc _ _ T), lowerIn_app.
  rewrite flat_map_app. cbn [JS.lowerIn flat_map]. rewrite F.
  cbn [flat_map app]. rewrite U, !app_nil_r. f_equal. f_equal.
  apply (lowerIn_ws [] [] (JS.codePoints s) [] [w]).
  - intros v [].
  - now intros v [<-|[]].
Qed.

Lemma toLowerCase_snoc_solid (s : jsstring) (c : N) :
  JS.isWhiteSpace c = false ->
  exists t u, JS.toLowerCase (s ++ [c]) = t ++ [u]
              /\ JS.isWhiteSpace u = false.
Proof.
  intros H. unfold JS.toLowerCase.
  destruct (codePoints_last s c H) as (l & h & -> & Hh).
  rewrite lowerIn_app, flat_map_app. cbn [JS.lowerIn].
  rewrite (app_nil_r (JS.lowerAt _ _ _)).
  match goal with
  | |- context [JS.lowerAt ?b h ?a] =>
      destruct (lowered_solid b h a Hh) as [Hn Hs]
  end.
  destruct (exists_last Hn) as (t & u & E). rewrite E in *.
  eexists _, u. split; [apply app_assoc|].
  apply Hs, in_or_app. right. now left.
Qed.

Lemma trimStart_lower (v : jsstring) :
  JS.trimStart (JS.toLowerCase v) = JS.toLowerCase (JS.trimStart v).
Proof.
  induction v as [|c r IH]; [reflexivity|].
  cbn [JS.trimStart]. destruct (JS.isWhiteSpace c) eqn:E.
  - rewrite (toLowerCase_cons_ws _ _ E). cbn [JS.trimStart]. now rewrite E.
  - destruct (toLowerCase_cons_solid c r E) as (u & t & -> & Hu).
    cbn [JS.trimStart]. now rewrite Hu.
Qed.

Lemma trimEnd_snoc_ws (x : jsstring) (w : N) :
  JS.isWhiteSpace w = true -> JS.trimEnd (x ++ [w]) = JS.trimEnd x.
Proof.
  intros H. unfold JS.trimEnd. rewrite rev_app_distr. cbn [rev app JS.trimStart].
  now rewrite H.
Qed.

Lemma trimEnd_snoc_solid (x : jsstring) (u : N) :
  JS.isWhiteSpace u = false -> JS.trimEnd (x ++ [u]) = x ++ [u].
Proof.
  intros H. unfold JS.trimEnd. rewrite rev_app_distr. cbn [rev app JS.trimStart].
  rewrite H. cbn [rev]. now rewrite rev_involutive.
Qed.

Lemma trimEnd_lower (v : jsstring) :
  JS.trimEnd (JS.toLowerCase v) = JS.toLowerCase (JS.trimEnd v).
Proof.
  induction v as [|c r IH] using rev_ind; [reflexivity|].
  destruct (JS.isWhiteSpace c) eqn:E.
  - now rewrite (toLowerCase_snoc_ws _ _ E), !(trimEnd_snoc_ws _ _ E).
  - rewrite (trimEnd_snoc_solid _ _ E).
    destruct (toLowerCase_snoc_solid r c E) as (t & u & -> & Hu).
    apply (trimEnd_snoc_solid _ _ Hu).
Qed.

(** Trimming and lower-casing commute. *)
Lemma trim_lower (v : jsstring) :
  JS.trim (JS.toLowerCase v) = JS.toLowerCase (JS.trim v).
Proof.
  unfold JS.trim. now rewrite trimStart_lower, trimEnd_lower.
Qed.

Lemma trimStart_idem (v : jsstring) :
  JS.trimStart (JS.trimStart v) = JS.trimStart v.
Proof.
  induction v as [|c r IH]; [reflexivity|].
  cbn. destruct (JS.isWhiteSpace c) eqn:E; [exact IH|].
  cbn. now rewrite E.
Qed.

Lemma trimStart_app_solid (l : jsstring) (c : N) :
  JS.isWhiteSpace c = false ->
  JS.trimStart (l ++ [c]) = JS.trimStart l ++ [c].
Proof.
  intros Hc. induction l as [|a r IH]; cbn.
  - now rewrite Hc.
  - destruct (JS.isWhiteSpace a); [exact IH|reflexivity].
Qed.

Lemma trimEnd_cons_solid (c : N) (r : jsstring) :
  JS.isWhiteSpace c = false -> JS.trimEnd (c :: r) = c :: JS.trimEnd r.
Proof.
  intros Hc. unfold JS.trimEnd. cbn [rev].
  rewrite (trimStart_app_solid _ _ Hc), rev_app_distr. reflexivity.
Qed.

Lemma trimEnd_idem (v : jsstring) : JS.trimEnd (JS.trimEnd v) = JS.trimEnd v.
Proof.
  unfold JS.trimEnd. now rewrite rev_involutive, trimStart_idem.
Qed.

Lemma trimStart_head (v : jsstring) :
  JS.trimStart v = []
  \/ exists c r, JS.trimStart v = c :: r /\ JS.isWhiteSpace c = false.
Proof.
  induction v as [|c r IH]; [now left|].
  cbn. destruct (JS.isWhiteSpace c) eqn:E; [exact IH|].
  right. now exists c, r.
Qed.

Lemma trim_idem (v : jsstring) : JS.trim (JS.trim v) = JS.trim v.
Proof.
  unfold JS.trim.
  destruct (trimStart_head v) as [E|(c & r & E & Hc)]; rewrite E.
  - reflexivity.
  - rewrite (trimEnd_cons_solid _ _ Hc). cbn [JS.trimStart]. rewrite Hc.
    rewrite <- (trimEnd_cons_solid _ _ Hc). apply trimEnd_idem.
Qed.

(** ** User store *)

Lemma find_hit {A : Type} (p : A -> bool) (l : list A) (x : A) :
  In x l -> p x = true -> exists y, find p l = Some y.
Proof.
  intros Hin Hp. destruct (find p l) as [y|] eqn:E; [now exists y|].
  now rewrite (find_none p l E x Hin) in Hp.
Qed.

(** The lookup of createUser finds a user stored under the normal form
    of the requested address. *)
Lemma findByEmail_hit (e : jsstring) (s : UserStore) (u : IUser.t) :
  In u s -> IUser.email u = JS.trim (JS.toLowerCase e) ->
  exists y, User.findByEmail e s = (Some y, s).
Proof.
  intros Hin Hu. unfold User.findByEmail, User.findOneByEmail.
  destruct (find_hit
              (fun u => JS.eqb (IUser.email u)
                          (UserSchema.emailSetters (JS.toLowerCase e)))
              s u Hin) as [y Hy].
  - unfold UserSchema.emailSetters. rewrite toLowerCase_idem, Hu.
    apply JS_eqb_refl.
  - exists y. now rewrite Hy.
Qed.

Lemma createUser_conflict_general
  (env : Env) (userData : IUserCreateRequest.t) (s : UserStore) :
  (exists u, In u s
             /\ IUser.email u
                = JS.trim (JS.toLowerCase (IUserCreateRequest.email userData))) ->
  exists e, UserService.createUser env userData s = (Throw e, s)
            /\ statusCode e = 409.
Proof.
  intros (u & Hin & Hu). unfold UserService.createUser.
  destruct (findByEmail_hit _ s u Hin Hu) as [y ->].
  eexists; split; reflexivity.
Qed.

(** A creation that succeeds appends one document, stored under the
    address the schema setters leave. *)
Lemma createUser_ok_appends
  (env : Env) (userData : IUserCreateRequest.t) (s s1 : UserStore)
  (r : IUserResponse.t) :
  UserService.createUser env userData s = (Ok r, s1) ->
  exists doc,
    s1 = s ++ [doc]
    /\ IUser.email doc
       = UserSchema.emailSetters
           (JS.trim (JS.toLowerCase (IUserCreateRequest.email userData)))
    /\ r = User.toResponseObject doc.
Proof.
  unfold UserService.createUser, User.findByEmail.
  destruct (User.findOneByEmail _ s); [discriminate|].
  unfold User.save.
  destruct (UserSchema.errorsOf _); [|discriminate].
  unfold User.insertOne.
  destruct (existsb _ s); [discriminate|]. cbn [IUser.email].
  destruct (existsb _ s); [discriminate|].
  intros E. inversion E; subst. eexists. repeat split.
Qed.

(** C4. When the store holds a user under the lower-cased, trimmed
    form of the requested address, [create] throws a 409 error and the
    store is as before.  In particular, once a creation with a@b.com
    has succeeded, a creation with A@B.COM throws 409. *)
Theorem createUser_conflict :
  (forall (env : Env) (userData : IUserCreateRequest.t) (s : UserStore),
      (exists u, In u s
                 /\ IUser.email u
                    = JS.trim (JS.toLowerCase
                                 (IUserCreateRequest.email userData))) ->
      exists e, UserService.createUser env userData s = (Throw e, s)
                /\ statusCode e = 409)
  /\ (forall (env1 env2 : Env) (first second : IUserCreateRequest.t)
             (s s1 : UserStore) (r1 : IUserResponse.t),
         IUserCreateRequest.email first = JS.lit "a@b.com" ->
         IUserCreateRequest.email second = JS.lit "A@B.COM" ->
         UserService.createUser env1 first s = (Ok r1, s1) ->
         exists e, UserService.createUser env2 second s1 = (Throw e, s1)
                   /\ statusCode e = 409).
Proof.
  split; [exact createUser_conflict_general|].
  intros env1 env2 first second s s1 r1 Hfirst Hsecond Hok.
  apply createUser_ok_appends in Hok as (doc & -> & Hdoc & _).
  apply createUser_conflict_general. exists doc. split.
  - apply in_or_app. right. now left.
  - rewrite Hdoc, Hfirst, Hsecond. reflexivity.
Qed.

Lemma createUser_conflict_witness :
  exists e,
    UserService.createUser (idEnv 2000 "65a000000000000000000002")
      requestABUpper
      (snd (UserService.createUser (idEnv 1000 "65a000000000000000000001")
              requestAB []))
    = (Throw e,
       snd (UserService.createUser (idEnv 1000 "65a000000000000000000001")
              requestAB []))
    /\ statusCode e = 409.
Proof.
  apply (proj2 createUser_conflict
           (idEnv 1000 "65a000000000000000000001")
           (idEnv 2000 "65a000000000000000000002")
           requestAB requestABUpper []
           (snd (UserService.createUser
                   (idEnv 1000 "65a000000000000000000001") requestAB []))
           (User.toResponseObject
              (IUser.mk (JS.lit "65a000000000000000000001")
                 (JS.lit "Ana Braga") (JS.lit "a@b.com")
                 (JS.lit "$2a$12$Abcdefg1") 1000 1000)));
    reflexivity.
Defined.

(** ** What leaves the service *)

Lemma userJson_noPassword (r : IUserResponse.t) :
  hasKey "password" (UserController.userJson r) = false.
Proof. reflexivity. Qed.

Lemma usersJson_noPassword (l : list IUserResponse.t) :
  existsb (hasKey "password") (map UserController.userJson l) = false.
Proof.
  induction l as [|r l IH]; [reflexivity|].
  cbn [map existsb]. now rewrite userJson_noPassword, IH.
Qed.

Lemma listJson_noPassword (l : UserList.t) :
  hasKey "password" (UserController.listJson l) = false.
Proof.
  unfold UserController.listJson. cbn.
  rewrite usersJson_noPassword.
  now destruct (Pagination.page (UserList.pagination l)),
    (Pagination.limit (UserList.pagination l)),
    (Pagination.pages (UserList.pagination l)).
Qed.

Lemma answer_noPassword {A S : Type} (r : result A * S)
      (ok : A -> HttpResponse) :
  (forall v, noPassword (Ok (ok v))) ->
  noPassword (fst (UserController.answer r ok)).
Proof.
  intros H. destruct r as [[v|e] s]; cbn; [apply H | exact I].
Qed.

(** C3. Whatever the store holds and whatever is asked, the body sent
    by create, get by id, the paginated list, update and the search by
    e-mail has no [password] field. *)
Theorem responses_have_no_password
  (env : Env) (s : UserStore) (body : IUserCreateRequest.t) (id : jsstring)
  (q : Query.t) (name email : option jsstring) :
  noPassword (fst (UserController.createUser env body s))
  /\ noPassword (fst (UserController.getUserById env id s))
  /\ noPassword (fst (UserController.listUsers env q s))
  /\ noPassword (fst (UserRoutes.getUsers env q s))
  /\ noPassword (fst (UserController.updateUser env id name email s))
  /\ noPassword (fst (UserController.getUserByEmail env q s)).
Proof.
  assert (Hlist : noPassword (fst (UserController.listUsers env q s))).
  { apply answer_noPassword. intros v. cbn. apply listJson_noPassword. }
  repeat split.
  - apply answer_noPassword. intros v. apply userJson_noPassword.
  - apply answer_noPassword. intros v. apply userJson_noPassword.
  - exact Hlist.
  - unfold UserRoutes.getUsers.
    destruct (Validation.validateQueryParams env q) as [r|] eqn:E;
      [|exact Hlist].
    unfold Validation.validateQueryParams in E.
    repeat match type of E with
           | (if ?c then _ else _) = _ => destruct c
           end; inversion E; exact I.
  - apply answer_noPassword. intros v. apply userJson_noPassword.
  - unfold UserController.getUserByEmail.
    destruct (Query.email q) as [[e| |]|]; try exact I.
    destruct (JS.truthy e); [|exact I].
    unfold UserService.getUserByEmail, User.findByEmail.
    destruct (User.findOneByEmail _ s); cbn; [reflexivity | exact I].
Qed.

(** ** Pagination *)

Lemma insertNewest_perm (u : IUser.t) (l : list IUser.t) :
  Permutation (u :: l) (User.insertNewest u l).
Proof.
  induction l as [|v r IH]; cbn; [apply Permutation_refl|].
  destruct (IUser.createdAt v <=? IUser.createdAt u);
    [apply Permutation_refl|].
  eapply perm_trans; [apply perm_swap|]. now apply perm_skip.
Qed.

Lemma sortNewest_perm (s : list IUser.t) : Permutation s (User.sortNewest s).
Proof.
  induction s as [|u r IH]; cbn; [constructor|].
  eapply perm_trans; [|apply insertNewest_perm]. now apply perm_skip.
Qed.

Lemma insertNewest_in (u x : IUser.t) (l : list IUser.t) :
  In x (User.insertNewest u l) -> x = u \/ In x l.
Proof.
  intros H.
  apply (Permutation_in x (Permutation_sym (insertNewest_perm u l))) in H.
  destruct H as [->|H]; [now left | now right].
Qed.

Lemma insertNewest_sorted (u : IUser.t) (l : list IUser.t) :
  StronglySorted newerOrEqual l ->
  StronglySorted newerOrEqual (User.insertNewest u l).
Proof.
  induction 1 as [|v r Hr IH Hv]; cbn.
  - constructor; constructor.
  - destruct (IUser.createdAt v <=? IUser.createdAt u) eqn:E.
    + apply Z.leb_le in E. constructor; [now constructor|].
      constructor; [exact E|].
      rewrite Forall_forall in *. intros x Hx.
      specialize (Hv x Hx). unfold newerOrEqual in *. lia.
    + apply Z.leb_gt in E. constructor; [exact IH|].
      rewrite Forall_forall in *. intros x Hx.
      apply insertNewest_in in Hx as [->|Hx];
        [unfold newerOrEqual; lia | now apply Hv].
Qed.

Lemma sortNewest_sorted (s : list IUser.t) :
  StronglySorted newerOrEqual (User.sortNewest s).
Proof.
  induction s as [|u r IH]; cbn; [constructor|].
  now apply insertNewest_sorted.
Qed.

Lemma sortNewest_length (s : list IUser.t) :
  List.length (User.sortNewest s) = List.length s.
Proof. symmetry. apply Permutation_length, sortNewest_perm. Qed.

(** [Math.ceil(total / limit)] is the least number of pages of [limit]
    that hold [total]. *)
Lemma ceilDiv_bounds (total limit : Z) :
  0 < limit ->
  exists pages, ceilDiv total limit = Num pages
                /\ limit * (pages - 1) < total <= limit * pages.
Proof.
  intros Hl. unfold ceilDiv.
  destruct (limit =? 0) eqn:E; [apply Z.eqb_eq in E; lia|].
  eexists; split; [reflexivity|].
  pose proof (Z.mul_div_le (- total) limit Hl).
  pose proof (Z.mul_succ_div_gt (- total) limit Hl).
  nia.
Qed.

(** C7. For page >= 1 and limit in 1..100, [list] answers the users
    newest first, the first [(page - 1) * limit] skipped and at most
    [limit] taken, with total, pages = ceil(total / limit), hasNext =
    page < pages and hasPrev = page > 1, and leaves the store as it
    was.  With 25 users, page 3 of 10 has 5 users, 3 pages, no next
    and a previous page. *)
Theorem listUsers_page (page limit : Z) (s : UserStore) :
  1 <= page -> 1 <= limit <= 100 ->
  exists pages : Z,
    UserService.listUsers page limit s
    = (Ok (UserList.mk
             (map User.toResponseObject (pageOf page limit s))
             (Pagination.mk page limit (len s) (Num pages)
                            (page <? pages) (1 <? page))), s)
    /\ limit * (pages - 1) < len s <= limit * pages
    /\ StronglySorted newerOrEqual (User.sortNewest s)
    /\ Permutation s (User.sortNewest s)
    /\ len (pageOf page limit s)
       = Z.min limit (Z.max 0 (len s - (page - 1) * limit))
    /\ (len s = 25 -> page = 3 -> limit = 10 ->
        len (pageOf page limit s) = 5 /\ pages = 3
        /\ (page <? pages) = false /\ (1 <? page) = true).
Proof.
  intros Hp Hl.
  destruct (ceilDiv_bounds (len s) limit) as (pages & Hc & Hb); [lia|].
  assert (Hlen : len (pageOf page limit s)
                 = Z.min limit (Z.max 0 (len s - (page - 1) * limit))).
  { unfold pageOf, len.
    rewrite length_firstn, length_skipn, sortNewest_length. nia. }
  exists pages. repeat split; try apply Hb.
  - unfold UserService.listUsers, User.findPage, User.skip, User.limit,
      User.countDocuments.
    cbn [Number.mul Number.sub ceilQuotient].
    assert (Hs : ((page - 1) * limit <? 0) = false) by (apply Z.ltb_ge; nia).
    assert (Hz : (limit =? 0) = false) by (apply Z.eqb_neq; lia).
    rewrite Hs, Hz, Hc, Z.abs_eq by lia. cbn [Number.ltb].
    rewrite map_map. reflexivity.
  - apply sortNewest_sorted.
  - apply sortNewest_perm.
  - exact Hlen.
  - rewrite Hlen. lia.
  - nia.
  - apply Z.ltb_ge. nia.
  - apply Z.ltb_lt. lia.
Qed.

Lemma listUsers_page_witness :
  exists pages : Z,
    UserService.listUsers 3 10 (usersOf 25)
    = (Ok (UserList.mk
             (map User.toResponseObject (pageOf 3 10 (usersOf 25)))
             (Pagination.mk 3 10 (len (usersOf 25)) (Num pages)
                            (3 <? pages) (1 <? 3))), usersOf 25)
    /\ 10 * (pages - 1) < len (usersOf 25) <= 10 * pages
    /\ StronglySorted newerOrEqual (User.sortNewest (usersOf 25))
    /\ Permutation (usersOf 25) (User.sortNewest (usersOf 25))
    /\ len (pageOf 3 10 (usersOf 25))
       = Z.min 10 (Z.max 0 (len (usersOf 25) - (3 - 1) * 10))
    /\ (len (usersOf 25) = 25 -> 3 = 3 -> 10 = 10 ->
        len (pageOf 3 10 (usersOf 25)) = 5 /\ pages = 3
        /\ (3 <? pages) = false /\ (1 <? 3) = true).
Proof. apply (listUsers_page 3 10 (usersOf 25)); lia. Defined.

Example listUsers_25_page3 :
  match fst (UserService.listUsers 3 10 (usersOf 25)) with
  | Ok l =>
      (List.length (UserList.users l),
       Pagination.pages (UserList.pagination l),
       Pagination.hasNext (UserList.pagination l),
       Pagination.hasPrev (UserList.pagination l),
       map IUserResponse.createdAt (UserList.users l))
      = (5%nat, Num 3, false, true, [4; 3; 2; 1; 0])
  | Throw _ => False
  end.
Proof. vm_compute. reflexivity. Qed.

(** ** Name validation *)

Example name_John123_rejected :
  Validation.nameAccepted nameJohn123 = false
  /\ UserSchema.validateName (UserSchema.nameSetters nameJohn123)
     = Some "Nome deve conter apenas letras e espaços"%string.
Proof. split; reflexivity. Qed.

Example name_Jose_accepted :
  Validation.nameAccepted nameJoseAlvares = true
  /\ UserSchema.validateName (UserSchema.nameSetters nameJoseAlvares) = None.
Proof. split; reflexivity. Qed.

Lemma nameChar_plain (c : N) :
  UserSchema.nameChar c = true ->
  Validation.highSurrogate c = false
  /\ ((c =? 65039) || (c =? 65038))%N = false.
Proof.
  unfold UserSchema.nameChar, Validation.highSurrogate, inRange,
    JS.isWhiteSpace.
  rewrite !orb_true_iff, !andb_true_iff, !orb_false_iff, !andb_false_iff,
    !N.leb_le, !N.leb_gt, !N.eqb_eq, !N.eqb_neq.
  lia.
Qed.

Lemma surrogatePairs_none (v : jsstring) :
  forallb UserSchema.nameChar v = true -> Validation.surrogatePairs v = 0.
Proof.
  induction v as [|a t IH]; [reflexivity|].
  cbn [forallb]. intros H. apply andb_prop in H as [Ha Ht].
  destruct t as [|b r]; [reflexivity|].
  cbn [Validation.surrogatePairs].
  destruct (nameChar_plain a Ha) as [-> _]. cbn [andb]. now apply IH.
Qed.

Lemma presentationSequences_none (v : jsstring) :
  forallb UserSchema.nameChar v = true ->
  Validation.presentationSequences v = 0.
Proof.
  unfold Validation.presentationSequences, len.
  induction v as [|a t IH]; [reflexivity|].
  cbn [forallb filter]. intros H. apply andb_prop in H as [Ha Ht].
  destruct (nameChar_plain a Ha) as [_ ->]. now apply IH.
Qed.

Lemma truthy_len (v : jsstring) : JS.truthy v = true <-> 0 < len v.
Proof.
  unfold len. destruct v; cbn [JS.truthy List.length]; split; intros H;
    try reflexivity; try discriminate; lia.
Qed.

(** What the creation route accepts as a name: after trimming, 2 to
    100 code units, each of the class of the pattern. *)
Lemma nameAccepted_iff (name : jsstring) :
  Validation.nameAccepted name = true
  <-> 2 <= len (JS.trim name) <= 100
      /\ forallb UserSchema.nameChar (JS.trim name) = true.
Proof.
  unfold Validation.nameAccepted, Validation.nameChain,
    Validation.sanitizeInput, Validation.isLength, UserSchema.nameRegex.
  rewrite trim_idem. set (t := JS.trim name).
  destruct (forallb UserSchema.nameChar t) eqn:Hc.
  - rewrite (surrogatePairs_none t Hc), (presentationSequences_none t Hc).
    rewrite !Z.sub_0_r, andb_true_r.
    destruct (JS.truthy t) eqn:Ht;
      destruct (2 <=? len t) eqn:H2; destruct (len t <=? 100) eqn:H100;
      cbn; split; try discriminate; try (intros _; split; [|reflexivity]);
      try (intros [H _]); try reflexivity;
      rewrite ?Z.leb_le, ?Z.leb_gt in *; try lia.
    assert (0 < len t) by lia. apply truthy_len in H0. congruence.
  - rewrite andb_false_r. split; [|intros [_ H]; discriminate].
    destruct (JS.truthy t); destruct ((2 <=? _) && _); discriminate.
Qed.

Lemma nameChar_letter (c : N) :
  arithmeticSign c = false ->
  UserSchema.nameChar c = specLetter c || JS.isWhiteSpace c.
Proof.
  unfold arithmeticSign, UserSchema.nameChar, specLetter, inRange.
  intros H. apply orb_false_iff in H as [H1 H2].
  apply N.eqb_neq in H1, H2.
  destruct (JS.isWhiteSpace c); [now rewrite !orb_true_r|].
  rewrite !orb_false_r. apply eq_true_iff_eq.
  rewrite !orb_true_iff, !andb_true_iff, !N.leb_le. lia.
Qed.

Lemma trimStart_incl (v : jsstring) (c : N) :
  In c (JS.trimStart v) -> In c v.
Proof.
  induction v as [|a r IH]; [easy|]. cbn.
  destruct (JS.isWhiteSpace a); [now right; apply IH | easy].
Qed.

Lemma trim_incl (v : jsstring) (c : N) : In c (JS.trim v) -> In c v.
Proof.
  unfold JS.trim, JS.trimEnd. intros H.
  apply in_rev, trimStart_incl in H. apply in_rev in H.
  now apply trimStart_incl.
Qed.

(** Off the two signs the route accepts exactly what the rule of the
    specification admits. *)
Lemma nameAccepted_off_signs (name : jsstring) :
  existsb arithmeticSign name = false ->
  Validation.nameAccepted name = specNameRule name.
Proof.
  intros Hs. apply eq_true_iff_eq. rewrite nameAccepted_iff.
  unfold specNameRule.
  rewrite !andb_true_iff, !Z.leb_le.
  assert (E : forallb UserSchema.nameChar (JS.trim name)
              = forallb (fun c => specLetter c || JS.isWhiteSpace c)
                        (JS.trim name)).
  { apply eq_true_iff_eq. rewrite !forallb_forall.
    split; intros H c Hc.
    - rewrite <- nameChar_letter; [now apply H|].
      destruct (arithmeticSign c) eqn:Ec; [|reflexivity].
      assert (existsb arithmeticSign name = true); [|congruence].
      apply existsb_exists. exists c. split; [now apply trim_incl|exact Ec].
    - rewrite nameChar_letter; [now apply H|].
      destruct (arithmeticSign c) eqn:Ec; [|reflexivity].
      assert (existsb arithmeticSign name = true); [|congruence].
      apply existsb_exists. exists c. split; [now apply trim_incl|exact Ec]. }
  rewrite E. tauto.
Qed.

(** C9. The name "a×b" passes the validation of the creation route
    and of the schema, though the multiplication sign is no letter; the
    names "John123" and "José Álvares" are rejected and accepted as
    the specification says. *)
Theorem name_accepts_multiplication_sign :
  Validation.nameAccepted nameTimes = true
  /\ UserSchema.validateName (UserSchema.nameSetters nameTimes) = None
  /\ specNameRule nameTimes = false
  /\ fst (UserService.createUser (idEnv 1000 "65a000000000000000000001")
            (IUserCreateRequest.mk nameTimes (JS.lit "a@b.com")
                                   (JS.lit "Abcdefg1")) [])
     = Ok (User.toResponseObject
             (IUser.mk (JS.lit "65a000000000000000000001") nameTimes
                (JS.lit "a@b.com") (JS.lit "$2a$12$Abcdefg1") 1000 1000))
  /\ Validation.nameAccepted nameJohn123 = false
  /\ Validation.nameAccepted nameJoseAlvares = true.
Proof. repeat split; reflexivity. Qed.

(** ** Query parameters of GET /api/users *)









Example parseInt_examples :
  map (fun v => Coerce.parseIntText (JS.lit v))
      ["42"; "  7abc"; "abc"; ""; "-3"; "0x1F"; "1e3"; "1.5"; "+08"; "0x";
       "9007199254740992"; "9007199254740993"; "9007199254740995";
       "-9007199254740993"; "0x20000000000001"]%string
  = [Num 42; Num 7; NaN; NaN; Num (-3); Num 31; Num 1; Num 1; Num 8; NaN;
     Num 9007199254740992; Num 9007199254740992; Num 9007199254740996;
     Num (-9007199254740992); Num 9007199254740992].
Proof. vm_compute. reflexivity. Qed.

(** A text of 400 digits is read as an infinity: as a page it passes
    the middleware, nothing is left to list after an unbounded skip,
    and the page number is sent as [null]; as a limit it is refused.
    The first integer that is no double is handed on as the double
    next to it. *)
Example parseInt_beyond_doubles :
  Coerce.parseIntText page400 = Infinity
  /\ Coerce.parseIntText (45%N :: page400) = NegInfinity
  /\ (exists r,
         UserRoutes.getUsers devEnv
           (Query.mk (Some (QStr page400)) None None) (usersOf 3)
         = (Ok r, usersOf 3)
         /\ status r = 200
         /\ data r
            = Some (UserController.listJson
                      (UserList.mk []
                         (Pagination.mk Infinity 10 3 (Num 1) false true)))
         /\ hasKey "page" (UserController.listJson
                             (UserList.mk []
                                (Pagination.mk Infinity 10 3 (Num 1)
                                               false true))) = true)
  /\ (exists r,
         UserRoutes.getUsers devEnv
           (Query.mk None (Some (QStr page400)) None) (usersOf 3)
         = (Ok r, usersOf 3)
         /\ status r = 400)
  /\ Validation.validateQueryParams devEnv
       (Query.mk (Some (QStr page2p53)) None None) = None
  /\ argument (Some (QStr page2p53)) 1 = Num 9007199254740992.
Proof.
  repeat match goal with
         | |- _ /\ _ => split
         | |- exists _, _ => eexists
         end; vm_compute; reflexivity.
Qed.


(** ** The tests of the repository, replayed on the model *)

(** [toLowerCase] beyond Latin-1, in the place of the address. *)
Example toLowerCase_samples :
  map JS.toLowerCase [kelvinAtB; omegaAtB; dottedAtB; sigmaAtB;
                      [0x100; 0xD7; 0xDE; 0x1E9E]%N;
                      [0x3A3; 0x391]%N; [0x391; 0x3A3; 0x2E; 0x391]%N;
                      [0xD801; 0xDC00; 0x3A3]%N; [0xD801; 0x41; 0xDC00]%N]
  = [JS.lit "k@b.com"; smallOmegaAtB; [0x69; 0x307]%N ++ JS.lit "@b.com";
     [0x3B1; 0x3C2]%N ++ JS.lit "@b.com";
     [0x101; 0xD7; 0xFE; 0xDF]%N;
     [0x3C3; 0x3B1]%N; [0x3B1; 0x3C3; 0x2E; 0x3B1]%N;
     [0xD801; 0xDC28; 0x3C2]%N; [0xD801; 0x61; 0xDC00]%N].
Proof. vm_compute. reflexivity. Qed.

Example test_increment_from_0_to_1 :
  fst (AccessCounterService.incrementAccess devEnv [])
  = Ok (IAccessCounterResponse.mk 1 (now devEnv)).
Proof. reflexivity. Qed.

Example test_increment_existing :
  fst (AccessCounterService.incrementAccess devEnv (incrementTimes devEnv 1 []))
  = Ok (IAccessCounterResponse.mk 2 (now devEnv)).
Proof. reflexivity. Qed.

Example test_ten_concurrent_increments :
  fst (AccessCounterService.getCurrentCount devEnv
         (snd (run (sequential devEnv 0 10) [] (repeat Issued 10))))
  = Ok (IAccessCounterResponse.mk 10 (now devEnv)).
Proof. reflexivity. Qed.

Example test_count_when_no_counter :
  AccessCounterService.getCurrentCount devEnv []
  = (Ok (IAccessCounterResponse.mk 0 (now devEnv)), [])
  /\ fst (AccessCounterService.validateIntegrity
            (snd (AccessCounterService.getCurrentCount devEnv []))) = true.
Proof. split; reflexivity. Qed.

Example test_reset :
  fst (AccessCounterService.resetCounter devEnv (incrementTimes devEnv 2 []))
  = Ok (IAccessCounterResponse.mk 0 (now devEnv))
  /\ fst (AccessCounterService.resetCounter devEnv [])
     = Ok (IAccessCounterResponse.mk 0 (now devEnv)).
Proof. split; reflexivity. Qed.

Example test_integrity :
  fst (AccessCounterService.validateIntegrity (incrementTimes devEnv 1 []))
  = true
  /\ fst (AccessCounterService.validateIntegrity []) = true
  /\ fst (AccessCounterService.validateIntegrity [counterAt 1; counterAt 2])
     = false.
Proof. repeat split; reflexivity. Qed.

Example test_create_user :
  match UserController.createUser (idEnv 1000 "65a000000000000000000001")
          validUser [] with
  | (Ok r, s) =>
      status r = 201
      /\ data r
         = Some (JObj [("_id"%string, JStr (JS.lit "65a000000000000000000001"));
                       ("name"%string, JStr (IUserCreateRequest.name validUser));
                       ("email"%string, JStr (JS.lit "joao.silva@test.com"));
                       ("createdAt"%string, JDate 1000);
                       ("updatedAt"%string, JDate 1000)])
      /\ map IUser.password s = [JS.lit "$2a$12$MinhaSenh@123"]
  | (Throw _, _) => False
  end.
Proof. vm_compute. repeat split; reflexivity. Qed.

Example test_create_weak_password :
  option_map statusCode
    (match fst (UserService.createUser (idEnv 1000 "65a000000000000000000001")
                  (IUserCreateRequest.mk (IUserCreateRequest.name validUser)
                     (IUserCreateRequest.email validUser) (JS.lit "123"))
                  []) with
     | Throw e => Some e
     | Ok _ => None
     end)
  = Some 400
  /\ Validation.passwordChain (JS.lit "123") <> []
  /\ Validation.passwordChain (JS.lit "alllowercase1") <> []
  /\ Validation.passwordChain (JS.lit "Abcdefg1") = [].
Proof. repeat split; try reflexivity; discriminate. Qed.

Example test_create_duplicate_email :
  match UserService.createUser (idEnv 2000 "65a000000000000000000002")
          (IUserCreateRequest.mk (JS.lit "Outro Nome")
             (IUserCreateRequest.email validUser)
             (IUserCreateRequest.password validUser))
          (snd (UserService.createUser
                  (idEnv 1000 "65a000000000000000000001") validUser [])) with
  | (Throw e, s) => statusCode e = 409 /\ List.length s = 1%nat
  | (Ok _, _) => False
  end.
Proof. vm_compute. split; reflexivity. Qed.

(** A second creation under an address that differs from a stored
    one in letter case only is refused with 409, outside Latin-1 as
    within; so is an update to it by another user. *)
Example test_create_duplicate_unicode :
  map (fun p => thrownStatus
                  (fst (UserService.createUser
                          (idEnv 2000 "65a000000000000000000002")
                          (requestFor (snd p)) (storeWith (fst p)))))
      [(JS.lit "k@b.com", kelvinAtB); (smallOmegaAtB, omegaAtB);
       (omegaAtB, smallOmegaAtB); (dottedAtB, dottedAtB);
       (JS.lit "a@b.com", JS.lit " A@B.com ");
       (JS.lit "k@b.com", JS.lit "j@b.com")]
  = [Some 409; Some 409; Some 409; Some 409; Some 409; None]
  /\ map IUser.email (storeWith omegaAtB ++ storeWith sigmaAtB)
     = [smallOmegaAtB; [0x3B1; 0x3C2]%N ++ JS.lit "@b.com"]
  /\ thrownStatus
       (fst (UserService.updateUser (idEnv 3000 "")
               (JS.lit "65a000000000000000000002") None (Some omegaAtB)
               (storeWith smallOmegaAtB
                ++ [IUser.mk (JS.lit "65a000000000000000000002")
                             (JS.lit "Bia") (JS.lit "bia@b.com")
                             (JS.lit "$2a$12$x") 2000 2000])))
     = Some 409.
Proof. vm_compute. repeat split; reflexivity. Qed.

(** Every message of a validation error reaches the client, the
    first one too. *)
Example test_validation_messages :
  fst (UserService.createUser (idEnv 1000 "65a000000000000000000001")
         (IUserCreateRequest.mk (JS.lit "A") (JS.lit "a@b.com")
                                (JS.lit "123")) [])
  = Throw (mkAppError
             "Dados inválidos: Nome deve ter pelo menos 2 caracteres, Senha deve ter pelo menos 8 caracteres"
             400)
  /\ fst (UserService.updateUser (idEnv 2000 "")
            (JS.lit "65a000000000000000000001") (Some (JS.lit "A"))
            (Some (JS.lit "nobody")) (storeWith (JS.lit "a@b.com")))
     = Throw (mkAppError
                "Dados inválidos: Nome deve ter pelo menos 2 caracteres, Email deve ter um formato válido"
                400).
Proof. vm_compute. split; reflexivity. Qed.

Example test_get_by_id :
  option_map statusCode
    (match fst (UserService.getUserById (JS.lit "507f1f77bcf86cd799439011")
                  (usersOf 3)) with
     | Throw e => Some e
     | Ok _ => None
     end) = Some 404
  /\ option_map statusCode
       (match fst (UserService.getUserById (JS.lit "invalid-id") (usersOf 3)) with
        | Throw e => Some e
        | Ok _ => None
        end) = Some 400
  /\ fst (UserService.getUserById (JS.lit "65A000000000000000000002")
            (usersOf 3))
     = Ok (IUserResponse.mk (JS.lit "65a000000000000000000002") (JS.lit "Ana")
             (JS.lit "uc@b.com") 2 2).
Proof. vm_compute. repeat split; reflexivity. Qed.


(** * Further properties *)

(** ** The counter under any sequence of requests *)

Lemma validateIntegrity_true (s : CounterStore) :
  fst (AccessCounterService.validateIntegrity s) = true
  <-> s = [] \/ exists d, s = [d] /\ 0 <= IAccessCounter.count d.
Proof.
  unfold AccessCounterService.validateIntegrity, AccessCounter.find.
  destruct s as [|d [|d2 rest]].
  - cbn. split; [now left | reflexivity].
  - cbn [List.length Z.of_nat Pos.of_succ_nat Z.ltb Z.compare Pos.compare
           Pos.compare_cont].
    destruct (IAccessCounter.count d <? 0) eqn:E; cbn.
    + apply Z.ltb_lt in E. split; [discriminate|].
      intros [H|(d0 & H & Hc)]; [discriminate|]. inversion H; subst. lia.
    + apply Z.ltb_ge in E. split; [|reflexivity].
      intros _. right. now exists d.
  - assert (H : (1 <? Z.of_nat (List.length (d :: d2 :: rest))) = true)
      by (apply Z.ltb_lt; cbn [List.length]; lia).
    rewrite H. cbn. split; [discriminate|].
    intros [E|(d0 & E & _)]; discriminate.
Qed.

Lemma validateIntegrity_reads (s : CounterStore) :
  snd (AccessCounterService.validateIntegrity s) = s.
Proof.
  unfold AccessCounterService.validateIntegrity, AccessCounter.find.
  destruct (1 <? _); [reflexivity|].
  destruct s as [|d [|d2 rest]]; try reflexivity.
  now destruct (IAccessCounter.count d <? 0).
Qed.

Lemma checkIntegrity_reads (env : Env) (s : CounterStore) :
  snd (AccessCounterHandlers.checkIntegrity env s) = s.
Proof.
  unfold AccessCounterHandlers.checkIntegrity.
  pose proof (validateIntegrity_reads s) as H.
  destruct (AccessCounterService.validateIntegrity s) as [b s'].
  cbn in H. subst s'. now destruct b.
Qed.

Lemma getStatistics_reads (env : Env) (s : CounterStore) :
  snd (AccessCounterStats.getStatistics env s) = s.
Proof. now destruct s. Qed.

(** What a request leaves of the store: the store itself, or the
    record incremented, or the record reset. *)
Lemma serve_cases (env : Env) (r : AccessCounterHandlers.request)
      (s : CounterStore) :
  AccessCounterHandlers.serve env r s = s
  \/ (isIncrement r = true
      /\ AccessCounterHandlers.serve env r s
         = snd (AccessCounter.incrementCounter env s))
  \/ (isReset r = true
      /\ AccessCounterHandlers.serve env r s
         = snd (AccessCounter.resetCounter env s)).
Proof.
  destruct r as [[|]| | | |]; cbn [AccessCounterHandlers.serve].
  - now left.
  - right. left. split; [reflexivity|]. now destruct s.
  - left. now destruct s.
  - left. apply getStatistics_reads.
  - left. apply checkIntegrity_reads.
  - unfold AccessCounterController.resetCounter.
    destruct (match NODE_ENV env with
              | Some m => JS.eqb m (JS.lit "production")
              | None => false
              end); [now left|].
    right. right. split; [reflexivity|]. now destruct s.
Qed.

Lemma serve_keeps_integrity (env : Env) (r : AccessCounterHandlers.request)
      (s : CounterStore) :
  fst (AccessCounterService.validateIntegrity s) = true ->
  fst (AccessCounterService.validateIntegrity
         (AccessCounterHandlers.serve env r s)) = true.
Proof.
  intros Hs.
  destruct (serve_cases env r s) as [->|[[_ ->]|[_ ->]]]; [exact Hs| |];
    apply validateIntegrity_true; apply validateIntegrity_true in Hs;
    destruct Hs as [->|(d & -> & Hd)]; cbn; right; eexists;
    (split; [reflexivity|cbn; lia]).
Qed.

(** X1. A store that passes [validateIntegrity] still passes it after
    any sequence of requests to the counter routes, and the health
    route then answers 200. *)
Theorem serveAll_keeps_integrity
  (rs : list (Env * AccessCounterHandlers.request)) (s : CounterStore)
  (env : Env) :
  fst (AccessCounterService.validateIntegrity s) = true ->
  fst (AccessCounterService.validateIntegrity
         (AccessCounterHandlers.serveAll rs s)) = true
  /\ exists r,
      fst (AccessCounterHandlers.checkIntegrity env
             (AccessCounterHandlers.serveAll rs s)) = Ok r
      /\ status r = 200.
Proof.
  revert s. induction rs as [|[e r] rs IH]; intros s Hs.
  - cbn [AccessCounterHandlers.serveAll]. split; [exact Hs|].
    unfold AccessCounterHandlers.checkIntegrity.
    destruct (AccessCounterService.validateIntegrity s) as [b s'].
    cbn in Hs. subst b. eexists. split; reflexivity.
  - cbn [AccessCounterHandlers.serveAll]. apply IH.
    now apply serve_keeps_integrity.
Qed.

Lemma serveAll_keeps_integrity_witness :
  fst (AccessCounterService.validateIntegrity
         (AccessCounterHandlers.serveAll sampleRequests [])) = true
  /\ exists r,
      fst (AccessCounterHandlers.checkIntegrity devEnv
             (AccessCounterHandlers.serveAll sampleRequests [])) = Ok r
      /\ status r = 200.
Proof.
  apply (serveAll_keeps_integrity sampleRequests [] devEnv). reflexivity.
Defined.

Lemma serve_count (env : Env) (r : AccessCounterHandlers.request)
      (s : CounterStore) :
  isReset r = false ->
  storedCount (AccessCounterHandlers.serve env r s)
  = storedCount s + (if isIncrement r then 1 else 0).
Proof.
  intros Hr.
  destruct (serve_cases env r s) as [E|[[Hi ->]|[Hx _]]];
    [|rewrite Hi; destruct s; cbn; lia|congruence].
  destruct r as [[|]| | | |]; try discriminate; cbn [isIncrement negb];
    try (rewrite E; lia).
  destruct s; cbn; lia.
Qed.

(** X2. Over any sequence of requests without a reset, the count read
    back is the count before plus the number of increment requests
    that the rate limiter let through: the reads change nothing, an
    increment that reaches the controller adds exactly one, and an
    increment that the limiter stops is answered 429 and adds
    nothing. *)
Theorem serveAll_counts_increments
  (rs : list (Env * AccessCounterHandlers.request)) (s : CounterStore) :
  forallb (fun er => negb (isReset (snd er))) rs = true ->
  storedCount (AccessCounterHandlers.serveAll rs s)
  = storedCount s + increments rs
  /\ forall env s', exists r,
      AccessCounterHandlers.postIncrement env true s' = (Ok r, s')
      /\ status r = 429 /\ success r = false.
Proof.
  intros H. split; [|intros env s'; eexists; repeat split].
  revert s H. induction rs as [|[e r] rs IH]; intros s H.
  - cbn. unfold increments, len. cbn. lia.
  - cbn [forallb snd] in H. apply andb_prop in H as [Hr Hrs].
    apply negb_true_iff in Hr.
    cbn [AccessCounterHandlers.serveAll]. rewrite (IH _ Hrs).
    rewrite (serve_count e r s Hr). unfold increments, len.
    cbn [filter snd]. destruct (isIncrement r); cbn [List.length]; lia.
Qed.

Lemma serveAll_counts_increments_witness :
  storedCount (AccessCounterHandlers.serveAll readsAndIncrements [counterAt 4])
  = storedCount [counterAt 4] + increments readsAndIncrements
  /\ forall env s', exists r,
      AccessCounterHandlers.postIncrement env true s' = (Ok r, s')
      /\ status r = 429 /\ success r = false.
Proof.
  apply (serveAll_counts_increments readsAndIncrements [counterAt 4]).
  reflexivity.
Defined.

(** X3. What an increment answers is what the next read of the count
    answers, whatever the clock of the read. *)
Theorem increment_then_count (env env' : Env) (s : CounterStore) :
  fst (AccessCounterService.getCurrentCount env'
         (snd (AccessCounterService.incrementAccess env s)))
  = fst (AccessCounterService.incrementAccess env s).
Proof. destruct s; reflexivity. Qed.

(** X5. The statistics read the same record as the count: same count
    and lastUpdated, nothing written; the divisor of the average is
    never below 1 and, once a day has passed since the creation, is
    the number of whole days passed. *)
Theorem getStatistics_agrees (env : Env) (s : CounterStore) :
  exists st c,
    AccessCounterStats.getStatistics env s = (Ok st, s)
    /\ fst (AccessCounterService.getCurrentCount env s) = Ok c
    /\ AccessCounterStatistics.count st = IAccessCounterResponse.count c
    /\ AccessCounterStatistics.lastUpdated st
       = IAccessCounterResponse.lastUpdated c
    /\ forall n d,
        AccessCounterStatistics.averageAccessesPerDay st = Some (n, d) ->
        n = AccessCounterStatistics.count st /\ 1 <= d
        /\ forall created,
            AccessCounterStatistics.createdAt st = Some created ->
            AccessCounterStats.dayMs <= now env - created ->
            AccessCounterStats.dayMs * d <= now env - created
            < AccessCounterStats.dayMs * (d + 1).
Proof.
  destruct s as [|x rest].
  - exists (AccessCounterStatistics.mk 0 (now env) None None),
      (IAccessCounterResponse.mk 0 (now env)).
    split; [reflexivity|]. split; [reflexivity|].
    split; [reflexivity|]. split; [reflexivity|].
    intros n d H. discriminate H.
  - exists (AccessCounterStatistics.mk
              (IAccessCounter.count x) (IAccessCounter.lastUpdated x)
              match IAccessCounter.createdAt x with
              | Some created =>
                  Some (IAccessCounter.count x,
                        AccessCounterStats.daysSinceCreation env created)
              | None => None
              end
              (IAccessCounter.createdAt x)),
      (AccessCounterService.respond x).
    split; [reflexivity|]. split; [reflexivity|].
    split; [reflexivity|]. split; [reflexivity|].
    cbn [AccessCounterStatistics.averageAccessesPerDay
           AccessCounterStatistics.createdAt AccessCounterStatistics.count].
    intros n d H.
    destruct (IAccessCounter.createdAt x) as [c|]; [|discriminate].
    inversion H; subst. split; [reflexivity|].
    unfold AccessCounterStats.daysSinceCreation. split; [lia|].
    intros created E Hday. inversion E; subst created.
    assert (HD : 0 < AccessCounterStats.dayMs) by reflexivity.
    pose proof (Z.mul_div_le (now env - c) _ HD).
    pose proof (Z.mul_succ_div_gt (now env - c) _ HD).
    assert (1 <= (now env - c) / AccessCounterStats.dayMs)
      by (apply Z.div_le_lower_bound; lia).
    rewrite Z.max_r by lia. lia.
Qed.

(** ** The counts handed to concurrent callers *)

Lemma upTo_succ (c : Z) (k : nat) :
  Permutation ((c + Z.of_nat (S k)) :: Handed.upTo c k) (Handed.upTo c (S k)).
Proof.
  unfold Handed.upTo. rewrite seq_S, map_app. cbn [map Nat.add].
  apply Permutation_cons_append.
Qed.

Lemma stepCall_hands (env : Env) (s : CounterStore) (c : call) :
  (storedCount (snd (stepCall env s c)) = storedCount s
   /\ Handed.ofCall (fst (stepCall env s c)) = Handed.ofCall c)
  \/ (storedCount (snd (stepCall env s c)) = storedCount s + 1
      /\ Handed.ofCall c = []
      /\ Handed.ofCall (fst (stepCall env s c)) = [storedCount s + 1]).
Proof.
  destruct c as [|[d|]|r]; try (left; split; reflexivity).
  right. destruct s; cbn; repeat split; reflexivity.
Qed.

Lemma stepAt_hands (env : Env) (i : nat) (s : CounterStore) (cs : list call) :
  (storedCount (snd (stepAt env i s cs)) = storedCount s
   /\ Handed.counts (fst (stepAt env i s cs)) = Handed.counts cs)
  \/ (storedCount (snd (stepAt env i s cs)) = storedCount s + 1
      /\ Permutation (Handed.counts (fst (stepAt env i s cs)))
                     ((storedCount s + 1) :: Handed.counts cs)).
Proof.
  revert i; induction cs as [|c r IH]; intros i.
  - left. now destruct i.
  - destruct i as [|j]; cbn [stepAt].
    + pose proof (stepCall_hands env s c) as H.
      destruct (stepCall env s c) as [c' s']; cbn [fst snd] in *.
      unfold Handed.counts. cbn [flat_map].
      destruct H as [[Hs Hc]|(Hs & Hc & Hc')].
      * left. now rewrite Hc.
      * right. split; [exact Hs|]. rewrite Hc, Hc'. apply Permutation_refl.
    + specialize (IH j).
      destruct (stepAt env j s r) as [r' s']; cbn [fst snd] in *.
      unfold Handed.counts in *. cbn [flat_map].
      destruct IH as [[Hs Hc]|[Hs Hp]].
      * left. now rewrite Hc.
      * right. split; [exact Hs|].
        eapply perm_trans; [apply Permutation_app_head, Hp|].
        apply Permutation_sym, Permutation_middle.
Qed.

Lemma run_hands (sched : list (nat * Env)) (c : Z) :
  forall (s : CounterStore) (cs : list call) (k : nat),
    storedCount s = c + Z.of_nat k ->
    Permutation (Handed.counts cs) (Handed.upTo c k) ->
    exists k',
      storedCount (snd (run sched s cs)) = c + Z.of_nat k'
      /\ Permutation (Handed.counts (fst (run sched s cs))) (Handed.upTo c k').
Proof.
  induction sched as [|[i env] sched IH]; intros s cs k Hs Hp; cbn [run].
  - exists k. now split.
  - pose proof (stepAt_hands env i s cs) as H.
    destruct (stepAt env i s cs) as [cs' s']; cbn [fst snd] in H.
    destruct H as [[Hs' Hc]|[Hs' Hc]].
    + apply (IH s' cs' k); [lia | now rewrite Hc].
    + apply (IH s' cs' (S k)); [lia|].
      eapply perm_trans; [exact Hc|].
      eapply perm_trans; [|apply upTo_succ].
      replace (storedCount s + 1) with (c + Z.of_nat (S k)) by lia.
      now apply perm_skip.
Qed.

Lemma counts_issued (n : nat) : Handed.counts (repeat Issued n) = [].
Proof. induction n; [reflexivity | exact IHn]. Qed.

(** X4. N calls of [increment()] run concurrently against a counter
    record that holds C: once all have settled, the counts they were
    handed are C + 1, ..., C + N in some order, so no two callers see
    the same count. *)
Theorem concurrent_counts_distinct
  (n : nat) (sched : list (nat * Env)) (d : IAccessCounter.t)
  (rest : CounterStore) :
  forallb settled (fst (run sched (d :: rest) (repeat Issued n))) = true ->
  Permutation
    (Handed.counts (fst (run sched (d :: rest) (repeat Issued n))))
    (Handed.upTo (IAccessCounter.count d) n)
  /\ NoDup (Handed.counts (fst (run sched (d :: rest) (repeat Issued n)))).
Proof.
  intros Hdone.
  destruct (run_hands sched (IAccessCounter.count d) (d :: rest)
              (repeat Issued n) 0) as (k & Hk & Hp).
  { cbn. lia. }
  { rewrite counts_issued. apply Permutation_refl. }
  pose proof (run_balance sched (d :: rest) (repeat Issued n)) as B.
  rewrite (pending_settled _ Hdone), pending_issued in B. cbn in B.
  assert (k = n) by lia. subst k. split; [exact Hp|].
  eapply Permutation_NoDup; [apply Permutation_sym, Hp|].
  unfold Handed.upTo. apply Finite.Injective_map_NoDup; [|apply seq_NoDup].
  intros a b H. lia.
Qed.

Lemma concurrent_counts_distinct_witness :
  Permutation
    (Handed.counts (fst (run interleaved3 [counterAt 4] (repeat Issued 3))))
    (Handed.upTo (IAccessCounter.count (counterAt 4)) 3)
  /\ NoDup (Handed.counts
              (fst (run interleaved3 [counterAt 4] (repeat Issued 3)))).
Proof.
  apply (concurrent_counts_distinct 3 interleaved3 (counterAt 4) []).
  reflexivity.
Defined.


(** ** The users collection *)

Lemma emailSetters_idem (v : jsstring) :
  UserSchema.emailSetters (UserSchema.emailSetters v)
  = UserSchema.emailSetters v.
Proof.
  unfold UserSchema.emailSetters.
  now rewrite <- trim_lower, trim_idem, toLowerCase_idem.
Qed.

(** The address a request is stored and looked up under. *)
Lemma emailSetters_request (e : jsstring) :
  UserSchema.emailSetters (JS.trim (JS.toLowerCase e))
  = UserSchema.emailSetters e
  /\ UserSchema.emailSetters (JS.toLowerCase e) = UserSchema.emailSetters e.
Proof.
  unfold UserSchema.emailSetters. split.
  - now rewrite <- trim_lower, trim_idem, toLowerCase_idem.
  - now rewrite toLowerCase_idem.
Qed.

Lemma find_split {A : Type} (p : A -> bool) (l : list A) (x : A) :
  find p l = Some x ->
  exists l1 l2, l = l1 ++ x :: l2 /\ p x = true
                /\ forall y, In y l1 -> p y = false.
Proof.
  induction l as [|a r IH]; [discriminate|]. cbn.
  destruct (p a) eqn:E.
  - intros H. inversion H; subst. exists [], r. repeat split; easy.
  - intros H. destruct (IH H) as (l1 & l2 & -> & Hx & Hl).
    exists (a :: l1), l2. repeat split; [exact Hx|].
    intros y [<-|Hy]; [exact E | now apply Hl].
Qed.

Lemma find_miss {A : Type} (p : A -> bool) (l : list A) :
  (forall y, In y l -> p y = false) -> find p l = None.
Proof.
  intros H. destruct (find p l) as [x|] eqn:E; [|reflexivity].
  apply find_some in E as [Hin Hp]. now rewrite (H x Hin) in Hp.
Qed.

Lemma find_after {A : Type} (p : A -> bool) (l1 l2 : list A) :
  (forall y, In y l1 -> p y = false) -> find p (l1 ++ l2) = find p l2.
Proof.
  intros H. induction l1 as [|a r IH]; [reflexivity|]. cbn.
  rewrite (H a (or_introl eq_refl)). apply IH.
  intros y Hy. apply H. now right.
Qed.

Lemma existsb_false {A : Type} (p : A -> bool) (l : list A) :
  existsb p l = false <-> forall y, In y l -> p y = false.
Proof.
  split.
  - intros H y Hy. destruct (p y) eqn:E; [|reflexivity].
    assert (existsb p l = true) by (apply existsb_exists; eauto). congruence.
  - intros H. destruct (existsb p l) eqn:E; [|reflexivity].
    apply existsb_exists in E as (y & Hy & Hp). now rewrite (H y Hy) in Hp.
Qed.

Lemma JS_eqb_neq (a b : jsstring) : JS.eqb a b = false <-> a <> b.
Proof.
  unfold JS.eqb. destruct (list_eq_dec N.eq_dec a b); split; congruence.
Qed.

(** A creation that succeeds: what is stored, and why it fits. *)
Lemma createUser_ok_stored
  (env : Env) (body : IUserCreateRequest.t) (s s1 : UserStore)
  (r : IUserResponse.t) :
  UserService.createUser env body s = (Ok r, s1) ->
  exists doc,
    s1 = s ++ [doc]
    /\ r = User.toResponseObject doc
    /\ IUser._id doc = newObjectId env
    /\ IUser.name doc = JS.trim (IUserCreateRequest.name body)
    /\ IUser.email doc = UserSchema.emailSetters (IUserCreateRequest.email body)
    /\ IUser.password doc = bcryptHash env (IUserCreateRequest.password body)
    /\ IUser.createdAt doc = now env /\ IUser.updatedAt doc = now env
    /\ (forall u, In u s -> IUser._id u <> IUser._id doc)
    /\ (forall u, In u s -> IUser.email u <> IUser.email doc)
    /\ UserSchema.validateName (IUser.name doc) = None
    /\ UserSchema.validateEmail (IUser.email doc) = None
    /\ UserSchema.validatePassword (IUserCreateRequest.password body) = None.
Proof.
  unfold UserService.createUser, User.findByEmail.
  destruct (User.findOneByEmail _ s); [discriminate|].
  unfold User.save, User.new.
  cbn [User.d_name User.d_email User.d_password User.d_id].
  unfold UserSchema.nameSetters. rewrite trim_idem.
  rewrite (proj1 (emailSetters_request _)).
  destruct (UserSchema.validateName _) eqn:Vn;
    [cbn; destruct (UserSchema.validateEmail _);
     destruct (UserSchema.validatePassword _); discriminate|].
  destruct (UserSchema.validateEmail _) eqn:Ve;
    [cbn; destruct (UserSchema.validatePassword _); discriminate|].
  destruct (UserSchema.validatePassword _) eqn:Vp; [discriminate|].
  cbn [UserSchema.errorsOf flat_map app].
  unfold User.insertOne. cbn [IUser._id IUser.email].
  destruct (existsb (fun u => JS.eqb (IUser._id u) (newObjectId env)) s)
    eqn:E1; [discriminate|].
  destruct (existsb
              (fun u => JS.eqb (IUser.email u)
                          (UserSchema.emailSetters
                             (IUserCreateRequest.email body))) s)
    eqn:E2; [discriminate|].
  intros E. inversion E; subst. eexists. split; [reflexivity|].
  cbn. repeat split; try assumption.
  - intros u Hu. apply JS_eqb_neq.
    exact (proj1 (existsb_false _ _) E1 u Hu).
  - intros u Hu. apply JS_eqb_neq.
    exact (proj1 (existsb_false _ _) E2 u Hu).
Qed.

(** X6. A user that has been created is fetched by its identifier,
    written in either letter case: the answer of [getUserById] is the
    answer the creation gave. *)
Theorem create_then_getUserById
  (env : Env) (body : IUserCreateRequest.t) (s s1 : UserStore)
  (r : IUserResponse.t) (id : jsstring) :
  UserService.createUser env body s = (Ok r, s1) ->
  User.castObjectId id = Some (newObjectId env) ->
  UserService.getUserById id s1 = (Ok r, s1).
Proof.
  intros Hc Hid.
  apply createUser_ok_stored in Hc
    as (doc & -> & -> & Hdoc & _ & _ & _ & _ & _ & Hids & _).
  unfold UserService.getUserById, User.findById. rewrite Hid.
  rewrite find_after.
  - cbn [find]. rewrite Hdoc, JS_eqb_refl. reflexivity.
  - intros u Hu. apply JS_eqb_neq. rewrite <- Hdoc. now apply Hids.
Qed.

Lemma create_then_getUserById_witness :
  UserService.getUserById (JS.lit "65A0000000000000000000A1")
                          (usersOf 3 ++ [docJoao])
  = (Ok (User.toResponseObject docJoao), usersOf 3 ++ [docJoao]).
Proof.
  apply (create_then_getUserById envJoao validUser (usersOf 3)
           (usersOf 3 ++ [docJoao]) (User.toResponseObject docJoao)
           (JS.lit "65A0000000000000000000A1")); reflexivity.
Defined.

(** X7. A user that has been created is found by its address in any
    letter case and with white space around it: by any text that
    [toLowerCase] and [trim] take to the same text as the address of
    the request.  The answer of the creation is the response object
    of the document found, and the password field of that document
    holds the value [bcrypt.hash] returned for the password of the
    request. *)
Theorem create_then_getUserByEmail
  (env : Env) (body : IUserCreateRequest.t) (s s1 : UserStore)
  (r : IUserResponse.t) (e : jsstring) :
  UserService.createUser env body s = (Ok r, s1) ->
  JS.trim (JS.toLowerCase e)
  = JS.trim (JS.toLowerCase (IUserCreateRequest.email body)) ->
  exists doc,
    UserService.getUserByEmail e s1 = (Ok (Some doc), s1)
    /\ User.toResponseObject doc = r
    /\ IUser.password doc = bcryptHash env (IUserCreateRequest.password body).
Proof.
  intros Hc He.
  apply createUser_ok_stored in Hc
    as (doc & -> & -> & _ & _ & Hdoc & Hpw & _ & _ & _ & Hemails & _).
  exists doc. split; [|now split].
  unfold UserService.getUserByEmail, User.findByEmail, User.findOneByEmail.
  rewrite (proj2 (emailSetters_request e)).
  assert (Hk : UserSchema.emailSetters e = IUser.email doc)
    by (rewrite Hdoc; exact He).
  rewrite Hk, find_after.
  - cbn [find]. now rewrite JS_eqb_refl.
  - intros u Hu. apply JS_eqb_neq. now apply Hemails.
Qed.

Lemma create_then_getUserByEmail_witness :
  exists doc,
    UserService.getUserByEmail (JS.lit "  Joao.Silva@TEST.com ")
                               (usersOf 3 ++ [docJoao])
    = (Ok (Some doc), usersOf 3 ++ [docJoao])
    /\ User.toResponseObject doc = User.toResponseObject docJoao
    /\ IUser.password doc
       = bcryptHash envJoao (IUserCreateRequest.password validUser).
Proof.
  apply (create_then_getUserByEmail envJoao validUser (usersOf 3)
           (usersOf 3 ++ [docJoao]) (User.toResponseObject docJoao)
           (JS.lit "  Joao.Silva@TEST.com ")); reflexivity.
Defined.

(** ** Removal *)

Lemma removeById_split (oid : jsstring) (l1 l2 : UserStore) (u : IUser.t) :
  JS.eqb (IUser._id u) oid = true ->
  (forall y, In y l1 -> JS.eqb (IUser._id y) oid = false) ->
  UserRemoval.removeById oid (l1 ++ u :: l2) = l1 ++ l2.
Proof.
  intros Hu Hl. induction l1 as [|a r IH]; cbn.
  - now rewrite Hu.
  - rewrite (Hl a (or_introl eq_refl)). f_equal. apply IH.
    intros y Hy. apply Hl. now right.
Qed.

Lemma replaceById_split (oid : jsstring) (l1 l2 : UserStore) (u u' : IUser.t) :
  JS.eqb (IUser._id u) oid = true ->
  (forall y, In y l1 -> JS.eqb (IUser._id y) oid = false) ->
  User.replaceById oid u' (l1 ++ u :: l2) = l1 ++ u' :: l2.
Proof.
  intros Hu Hl. induction l1 as [|a r IH]; cbn.
  - now rewrite Hu.
  - rewrite (Hl a (or_introl eq_refl)). f_equal. apply IH.
    intros y Hy. apply Hl. now right.
Qed.

Lemma find_skip {A : Type} (p : A -> bool) (l1 l2 : list A) (u : A) :
  p u = false -> find p (l1 ++ u :: l2) = find p (l1 ++ l2).
Proof.
  intros Hu. induction l1 as [|a r IH]; cbn; [now rewrite Hu|].
  now rewrite IH.
Qed.

(** A removal that succeeds takes out the first document of the
    identifier and nothing else. *)
Lemma deleteUser_ok (id : jsstring) (s s1 : UserStore) :
  UserRemoval.deleteUser id s = (Ok tt, s1) ->
  exists oid l1 u l2,
    User.castObjectId id = Some oid
    /\ s = l1 ++ u :: l2 /\ s1 = l1 ++ l2 /\ IUser._id u = oid
    /\ forall y, In y l1 -> IUser._id y <> oid.
Proof.
  unfold UserRemoval.deleteUser, UserRemoval.findByIdAndDelete.
  destruct (User.castObjectId id) as [oid|]; [|discriminate].
  destruct (find _ s) as [u|] eqn:E; [|discriminate].
  apply find_split in E as (l1 & l2 & -> & Hu & Hl).
  rewrite (removeById_split oid l1 l2 u Hu Hl).
  intros H. inversion H; subst. exists oid, l1, u, l2.
  repeat split; [now apply JS_eqb_eq|].
  intros y Hy. apply JS_eqb_neq. now apply Hl.
Qed.

Lemma NoDup_map_split {A B : Type} (f : A -> B) (l1 l2 : list A) (u : A) :
  NoDup (map f (l1 ++ u :: l2)) ->
  NoDup (map f (l1 ++ l2)) /\ forall y, In y (l1 ++ l2) -> f y <> f u.
Proof.
  rewrite !map_app. cbn [map]. intros H.
  split; [now apply NoDup_remove_1 in H|].
  apply NoDup_remove_2 in H. intros y Hy E. apply H.
  rewrite <- map_app, <- E. now apply in_map.
Qed.

(** X8. After a removal that succeeded, in a collection whose
    identifiers are unique, the identifier is gone: [getUserById]
    throws 404 and [userExists] answers false; the collection is one
    document shorter and every other identifier is looked up as
    before. *)
Theorem delete_then_getUserById (id : jsstring) (s s1 : UserStore) :
  NoDup (map IUser._id s) ->
  UserRemoval.deleteUser id s = (Ok tt, s1) ->
  UserService.getUserById id s1
  = (Throw (mkAppError "Usuário não encontrado" 404), s1)
  /\ UserRemoval.userExists id s1 = (false, s1)
  /\ S (List.length s1) = List.length s
  /\ forall id',
      User.castObjectId id' <> User.castObjectId id ->
      fst (UserService.getUserById id' s1) = fst (UserService.getUserById id' s).
Proof.
  intros Hnd Hdel.
  apply deleteUser_ok in Hdel as (oid & l1 & u & l2 & Hid & -> & -> & Hu & Hl).
  apply (NoDup_map_split IUser._id) in Hnd as [_ Hother].
  assert (Hgone : find (fun v => JS.eqb (IUser._id v) oid) (l1 ++ l2) = None).
  { apply find_miss. intros y Hy. apply JS_eqb_neq. rewrite <- Hu.
    now apply Hother. }
  unfold UserService.getUserById, UserRemoval.userExists, User.findById.
  rewrite Hid, Hgone. repeat split.
  - rewrite !length_app. cbn. lia.
  - intros id' Hne. destruct (User.castObjectId id') as [oid'|]; [|reflexivity].
    assert (Hpass : JS.eqb (IUser._id u) oid' = false).
    { apply JS_eqb_neq. rewrite Hu. intros ->. now apply Hne. }
    assert (E : find (fun v => JS.eqb (IUser._id v) oid') (l1 ++ u :: l2)
                = find (fun v => JS.eqb (IUser._id v) oid') (l1 ++ l2))
      by (now apply find_skip).
    rewrite E.
    destruct (find (fun v => JS.eqb (IUser._id v) oid') (l1 ++ l2));
      reflexivity.
Qed.

Lemma delete_then_getUserById_witness :
  UserService.getUserById (JS.lit "65a000000000000000000001")
    (snd (UserRemoval.deleteUser (JS.lit "65a000000000000000000001")
            (usersOf 3)))
  = (Throw (mkAppError "Usuário não encontrado" 404),
     snd (UserRemoval.deleteUser (JS.lit "65a000000000000000000001")
            (usersOf 3)))
  /\ UserRemoval.userExists (JS.lit "65a000000000000000000001")
       (snd (UserRemoval.deleteUser (JS.lit "65a000000000000000000001")
               (usersOf 3)))
     = (false,
        snd (UserRemoval.deleteUser (JS.lit "65a000000000000000000001")
               (usersOf 3)))
  /\ S (List.length
          (snd (UserRemoval.deleteUser (JS.lit "65a000000000000000000001")
                  (usersOf 3))))
     = List.length (usersOf 3)
  /\ forall id',
      User.castObjectId id'
      <> User.castObjectId (JS.lit "65a000000000000000000001") ->
      fst (UserService.getUserById id'
             (snd (UserRemoval.deleteUser
                     (JS.lit "65a000000000000000000001") (usersOf 3))))
      = fst (UserService.getUserById id' (usersOf 3)).
Proof.
  apply (delete_then_getUserById (JS.lit "65a000000000000000000001")
           (usersOf 3)).
  - repeat constructor; cbn; intuition discriminate.
  - reflexivity.
Defined.

(** ** Updates *)

(** The name and the address an update leaves on the document. *)
Lemma updateUser_ok
  (env : Env) (id : jsstring) (name email : option jsstring)
  (s s1 : UserStore) (r : IUserResponse.t) :
  UserService.updateUser env id name email s = (Ok r, s1) ->
  exists oid l1 u l2 u',
    User.castObjectId id = Some oid
    /\ s = l1 ++ u :: l2 /\ s1 = l1 ++ u' :: l2
    /\ IUser._id u = oid
    /\ (forall y, In y l1 -> IUser._id y <> oid)
    /\ r = User.toResponseObject u'
    /\ u' = IUser.mk (IUser._id u)
              (match UserService.given name with
               | Some n => JS.trim n
               | None => IUser.name u
               end)
              (match UserService.given email with
               | Some e => UserSchema.emailSetters e
               | None => IUser.email u
               end)
              (IUser.password u) (IUser.createdAt u) (now env)
    /\ (forall v, In v s -> IUser._id v <> oid ->
                  IUser.email v <> IUser.email u').
Proof.
  unfold UserService.updateUser.
  destruct (match UserService.given email with
            | Some e =>
                match fst (User.findByEmail e s) with
                | Some existingUser =>
                    negb (JS.eqb (IUser._id existingUser) id)
                | None => false
                end
            | None => false
            end); [discriminate|].
  unfold User.findByIdAndUpdate.
  destruct (User.castObjectId id) as [oid|]; [|discriminate].
  destruct (UserSchema.errorsOf _); [|discriminate].
  destruct (find (fun u => JS.eqb (IUser._id u) oid) s) as [u|] eqn:Ef;
    [|discriminate].
  match goal with
  | |- context [existsb ?p s] => destruct (existsb p s) eqn:Ex
  end; [discriminate|].
  apply find_split in Ef as (l1 & l2 & -> & Hu & Hl).
  rewrite (replaceById_split oid l1 l2 u _ Hu Hl).
  intros H. inversion H; subst s1 r. clear H.
  exists oid, l1, u, l2. eexists.
  split; [reflexivity|]. split; [reflexivity|]. split; [reflexivity|].
  split; [now apply JS_eqb_eq|].
  split; [intros y Hy; apply JS_eqb_neq; now apply Hl|].
  split; [reflexivity|].
  assert (Hshape :
            User.applyUpdate env
              (option_map UserSchema.nameSetters
                 (option_map JS.trim (UserService.given name)))
              (option_map UserSchema.emailSetters
                 (option_map (fun e => JS.trim (JS.toLowerCase e))
                    (UserService.given email))) u
            = IUser.mk (IUser._id u)
                (match UserService.given name with
                 | Some n => JS.trim n
                 | None => IUser.name u
                 end)
                (match UserService.given email with
                 | Some e => UserSchema.emailSetters e
                 | None => IUser.email u
                 end)
                (IUser.password u) (IUser.createdAt u) (now env)).
  { unfold User.applyUpdate. f_equal.
    - destruct (UserService.given name); [|reflexivity]. cbn.
      unfold UserSchema.nameSetters. apply trim_idem.
    - destruct (UserService.given email); [|reflexivity]. cbn.
      apply (proj1 (emailSetters_request _)). }
  split; [exact Hshape|].
  intros v Hv Hne.
  pose proof (proj1 (existsb_false _ _) Ex v Hv) as Hc. cbn beta in Hc.
  apply andb_false_iff in Hc as [Hc|Hc].
  - apply negb_false_iff, JS_eqb_eq in Hc. contradiction.
  - now apply JS_eqb_neq.
Qed.

(** X9. An update that succeeds changes one document and only its
    name, address and [updatedAt]: the identifier, the password hash
    and [createdAt] stay, every other document stays, and the answer
    is the response object of the document as it then is. *)
Theorem updateUser_frame
  (env : Env) (id : jsstring) (name email : option jsstring)
  (s s1 : UserStore) (r : IUserResponse.t) :
  UserService.updateUser env id name email s = (Ok r, s1) ->
  exists l1 u l2 u',
    s = l1 ++ u :: l2 /\ s1 = l1 ++ u' :: l2
    /\ r = User.toResponseObject u'
    /\ IUser._id u' = IUser._id u
    /\ IUser.password u' = IUser.password u
    /\ IUser.createdAt u' = IUser.createdAt u
    /\ IUser.updatedAt u' = now env
    /\ IUser.name u' = match UserService.given name with
                      | Some n => JS.trim n
                      | None => IUser.name u
                      end
    /\ IUser.email u' = match UserService.given email with
                       | Some e => JS.trim (JS.toLowerCase e)
                       | None => IUser.email u
                       end.
Proof.
  intros H.
  apply updateUser_ok in H
    as (oid & l1 & u & l2 & u' & _ & -> & -> & _ & _ & -> & -> & _).
  exists l1, u, l2. eexists. repeat split.
Qed.

Lemma updateUser_frame_witness :
  exists l1 u l2 u',
    usersOf 3 = l1 ++ u :: l2
    /\ snd (UserService.updateUser (idEnv 9000 "")
              (JS.lit "65A000000000000000000001")
              (Some (JS.lit " Ana Braga ")) (Some (JS.lit " New@B.com"))
              (usersOf 3))
       = l1 ++ u' :: l2
    /\ User.toResponseObject
         (IUser.mk (JS.lit "65a000000000000000000001") (JS.lit "Ana Braga")
            (JS.lit "new@b.com") (JS.lit "$2a$12$x") 1 9000)
       = User.toResponseObject u'
    /\ IUser._id u' = IUser._id u
    /\ IUser.password u' = IUser.password u
    /\ IUser.createdAt u' = IUser.createdAt u
    /\ IUser.updatedAt u' = now (idEnv 9000 "")
    /\ IUser.name u' = match UserService.given (Some (JS.lit " Ana Braga ")) with
                      | Some n => JS.trim n
                      | None => IUser.name u
                      end
    /\ IUser.email u' = match UserService.given (Some (JS.lit " New@B.com")) with
                       | Some e => JS.trim (JS.toLowerCase e)
                       | None => IUser.email u
                       end.
Proof.
  apply (updateUser_frame (idEnv 9000 "")
           (JS.lit "65A000000000000000000001")
           (Some (JS.lit " Ana Braga ")) (Some (JS.lit " New@B.com"))
           (usersOf 3)
           (snd (UserService.updateUser (idEnv 9000 "")
                   (JS.lit "65A000000000000000000001")
                   (Some (JS.lit " Ana Braga ")) (Some (JS.lit " New@B.com"))
                   (usersOf 3)))
           (User.toResponseObject
              (IUser.mk (JS.lit "65a000000000000000000001")
                 (JS.lit "Ana Braga") (JS.lit "new@b.com")
                 (JS.lit "$2a$12$x") 1 9000))).
  reflexivity.
Defined.

(** ** Rejected writes and the invariant of the collection *)

Lemma createUser_throw (env : Env) (body : IUserCreateRequest.t)
      (s s1 : UserStore) (e : AppError) :
  UserService.createUser env body s = (Throw e, s1) -> s1 = s.
Proof.
  unfold UserService.createUser, User.findByEmail.
  destruct (User.findOneByEmail _ s); [now inversion 1|].
  unfold User.save.
  destruct (UserSchema.errorsOf _); [|now inversion 1].
  unfold User.insertOne.
  repeat match goal with
         | |- context [if existsb ?p s then _ else _] => destruct (existsb p s)
         end; now inversion 1.
Qed.

Lemma updateUser_throw (env : Env) (id : jsstring) (name email : option jsstring)
      (s s1 : UserStore) (e : AppError) :
  UserService.updateUser env id name email s = (Throw e, s1) -> s1 = s.
Proof.
  unfold UserService.updateUser.
  match goal with
  | |- context [if ?c then _ else _] => destruct c
  end; [now inversion 1|].
  unfold User.findByIdAndUpdate.
  destruct (User.castObjectId id) as [oid|]; [|now inversion 1].
  destruct (UserSchema.errorsOf _); [|now inversion 1].
  destruct (find _ s); [|now inversion 1].
  match goal with
  | |- context [if existsb ?p s then _ else _] => destruct (existsb p s)
  end; now inversion 1.
Qed.

Lemma deleteUser_throw (id : jsstring) (s s1 : UserStore) (e : AppError) :
  UserRemoval.deleteUser id s = (Throw e, s1) -> s1 = s.
Proof.
  unfold UserRemoval.deleteUser, UserRemoval.findByIdAndDelete.
  destruct (User.castObjectId id); [|now inversion 1].
  destruct (find _ s); now inversion 1.
Qed.

Lemma getUserById_reads (id : jsstring) (s : UserStore) :
  snd (UserService.getUserById id s) = s.
Proof.
  unfold UserService.getUserById, User.findById.
  destruct (User.castObjectId id); [|reflexivity].
  now destruct (find _ s).
Qed.

Lemma listUsers_reads (page limit : Z) (s : UserStore) :
  snd (UserService.listUsers page limit s) = s.
Proof.
  unfold UserService.listUsers, User.findPage.
  now destruct (User.skip _ _).
Qed.

Lemma userExists_reads (id : jsstring) (s : UserStore) :
  snd (UserRemoval.userExists id s) = s.
Proof.
  unfold UserRemoval.userExists, User.findById.
  destruct (User.castObjectId id); [|reflexivity].
  now destruct (find _ s).
Qed.

(** X10. A write that is refused writes nothing: when [createUser],
    [updateUser] or [deleteUser] throws, whatever the error, the
    collection is as it was; the reads never change it. *)
Theorem refused_writes_leave_store
  (env : Env) (s : UserStore) (body : IUserCreateRequest.t) (id : jsstring)
  (address : jsstring) (name email : option jsstring) (page limit : Z) :
  (forall e s1, UserService.createUser env body s = (Throw e, s1) -> s1 = s)
  /\ (forall e s1,
         UserService.updateUser env id name email s = (Throw e, s1) -> s1 = s)
  /\ (forall e s1, UserRemoval.deleteUser id s = (Throw e, s1) -> s1 = s)
  /\ snd (UserService.getUserById id s) = s
  /\ snd (UserService.getUserByEmail address s) = s
  /\ snd (UserService.listUsers page limit s) = s
  /\ snd (UserRemoval.userExists id s) = s.
Proof.
  repeat split.
  - intros e s1. apply createUser_throw.
  - intros e s1. apply updateUser_throw.
  - intros e s1. apply deleteUser_throw.
  - apply getUserById_reads.
  - apply listUsers_reads.
  - apply userExists_reads.
Qed.

Lemma NoDup_map_middle {A B : Type} (f : A -> B) (l1 l2 : list A) (x : A) :
  NoDup (map f (l1 ++ l2)) ->
  (forall u, In u (l1 ++ l2) -> f u <> f x) ->
  NoDup (map f (l1 ++ x :: l2)).
Proof.
  intros Hnd Hx.
  apply (Permutation_NoDup (l := f x :: map f (l1 ++ l2))).
  - rewrite !map_app. cbn [map]. apply Permutation_middle.
  - constructor; [|exact Hnd].
    intros Hin. apply in_map_iff in Hin as (u & Hu & Hin).
    now apply (Hx u Hin).
Qed.

Lemma wellFormed_create (env : Env) (body : IUserCreateRequest.t)
      (s : UserStore) :
  wellFormed s -> wellFormed (snd (UserService.createUser env body s)).
Proof.
  intros (Hids & Hemails & Hnorm).
  destruct (UserService.createUser env body s) as [[r|e] s1] eqn:E; cbn [snd].
  - apply createUser_ok_stored in E
      as (doc & -> & _ & _ & _ & Hdoc & _ & _ & _ & Hi & He & _).
    repeat split.
    + apply NoDup_map_middle; rewrite app_nil_r; assumption.
    + apply NoDup_map_middle; rewrite app_nil_r; assumption.
    + apply Forall_app. split; [exact Hnorm|]. constructor; [|constructor].
      rewrite Hdoc. apply emailSetters_idem.
  - apply createUser_throw in E. now subst.
Qed.

Lemma wellFormed_update (env : Env) (id : jsstring)
      (name email : option jsstring) (s : UserStore) :
  wellFormed s ->
  wellFormed (snd (UserService.updateUser env id name email s)).
Proof.
  intros (Hids & Hemails & Hnorm).
  destruct (UserService.updateUser env id name email s) as [[r|e] s1] eqn:E;
    cbn [snd].
  - apply updateUser_ok in E
      as (oid & l1 & u & l2 & u' & _ & -> & -> & Hu & _ & _ & Hu' & Hfree).
    destruct (NoDup_map_split IUser._id l1 l2 u Hids) as [Hids' Hother].
    destruct (NoDup_map_split IUser.email l1 l2 u Hemails) as [Hemails' _].
    assert (Hid' : IUser._id u' = IUser._id u) by now rewrite Hu'.
    repeat split.
    + rewrite map_app. cbn [map]. rewrite Hid'.
      now rewrite map_app in Hids.
    + apply NoDup_map_middle; [exact Hemails'|].
      intros v Hv. apply Hfree.
      * apply in_app_or in Hv as [Hv|Hv]; apply in_or_app;
          [now left | right; now right].
      * rewrite <- Hu. now apply Hother.
    + apply Forall_app in Hnorm as [H1 H2]. inversion H2; subst.
      apply Forall_app. split; [exact H1|]. constructor; [|assumption].
      cbn [IUser.email].
      destruct (UserService.given email); [apply emailSetters_idem|assumption].
  - apply updateUser_throw in E. now subst.
Qed.

Lemma wellFormed_delete (id : jsstring) (s : UserStore) :
  wellFormed s -> wellFormed (snd (UserRemoval.deleteUser id s)).
Proof.
  intros (Hids & Hemails & Hnorm).
  destruct (UserRemoval.deleteUser id s) as [[[]|e] s1] eqn:E; cbn [snd].
  - apply deleteUser_ok in E as (oid & l1 & u & l2 & _ & -> & -> & _ & _).
    repeat split.
    + now apply (NoDup_map_split IUser._id l1 l2 u).
    + now apply (NoDup_map_split IUser.email l1 l2 u).
    + apply Forall_app in Hnorm as [H1 H2]. inversion H2; subst.
      apply Forall_app. now split.
  - apply deleteUser_throw in E. now subst.
Qed.

(** X11. The collection stays well formed under any sequence of calls
    of the service: no two users share an identifier, no two share an
    address, and every address is stored lower-cased and trimmed. *)
Theorem afterCalls_wellFormed (cs : list (Env * userCall)) (s : UserStore) :
  wellFormed s -> wellFormed (afterCalls cs s).
Proof.
  revert s. induction cs as [|[env c] cs IH]; intros s Hs; [exact Hs|].
  cbn [afterCalls]. apply IH. destruct c; cbn [afterCall].
  - now apply wellFormed_create.
  - now apply wellFormed_update.
  - now apply wellFormed_delete.
  - now rewrite getUserById_reads.
  - exact Hs.
  - now rewrite listUsers_reads.
  - now rewrite userExists_reads.
Qed.

Lemma afterCalls_wellFormed_witness : wellFormed (afterCalls sampleCalls []).
Proof.
  apply (afterCalls_wellFormed sampleCalls []).
  repeat split; constructor.
Defined.

Example sampleCalls_result :
  map (fun u => (IUser._id u, IUser.email u)) (afterCalls sampleCalls [])
  = [(JS.lit "65a000000000000000000003", JS.lit "j@s.com")].
Proof. reflexivity. Qed.

(** ** Conflicts and malformed identifiers *)

Lemma find_unique {A : Type} (f : A -> jsstring) (s : list A) (u : A) :
  NoDup (map f s) -> In u s ->
  find (fun v => JS.eqb (f v) (f u)) s = Some u.
Proof.
  intros Hnd Hin. apply in_split in Hin as (l1 & l2 & ->).
  destruct (NoDup_map_split f l1 l2 u Hnd) as [_ Hother].
  rewrite find_after.
  - cbn. now rewrite JS_eqb_refl.
  - intros y Hy. apply JS_eqb_neq. apply Hother. apply in_or_app. now left.
Qed.

(** X12. In a collection of unique addresses, an update to a
    non-empty address that another user holds, in whatever letter
    case it is written, throws 409 and changes nothing. *)
Theorem updateUser_conflict
  (env : Env) (id : jsstring) (name : option jsstring) (e : jsstring)
  (s : UserStore) (u : IUser.t) :
  NoDup (map IUser.email s) ->
  In u s ->
  e <> [] ->
  IUser.email u = JS.trim (JS.toLowerCase e) ->
  IUser._id u <> id ->
  UserService.updateUser env id name (Some e) s
  = (Throw (mkAppError "Email já está em uso por outro usuário" 409), s).
Proof.
  intros Hnd Hin Hne He Hid. unfold UserService.updateUser, UserService.given.
  assert (Ht : JS.truthy e = true) by (now destruct e).
  rewrite Ht. unfold User.findByEmail, User.findOneByEmail. cbn [fst].
  rewrite (proj2 (emailSetters_request e)).
  unfold UserSchema.emailSetters. rewrite <- He.
  rewrite (find_unique IUser.email s u Hnd Hin).
  apply JS_eqb_neq in Hid. now rewrite Hid.
Qed.

Lemma updateUser_conflict_witness :
  UserService.updateUser devEnv (JS.lit "65a000000000000000000001")
    (Some (JS.lit "Ana")) (Some (JS.lit " UC@b.com")) (usersOf 3)
  = (Throw (mkAppError "Email já está em uso por outro usuário" 409),
     usersOf 3).
Proof.
  apply (updateUser_conflict devEnv (JS.lit "65a000000000000000000001")
           (Some (JS.lit "Ana")) (JS.lit " UC@b.com") (usersOf 3)
           (IUser.mk (JS.lit "65a000000000000000000002") (JS.lit "Ana")
              (JS.lit "uc@b.com") (JS.lit "$2a$12$x") 2 2)).
  - repeat constructor; cbn; intuition discriminate.
  - cbn. tauto.
  - discriminate.
  - reflexivity.
  - discriminate.
Defined.

(** X13. An identifier that is not 24 hexadecimal digits is answered
    differently by the methods of the service: [getUserById] throws
    400, [deleteUser] and an update without an address throw 500,
    [userExists] answers false; none of them writes. *)
Theorem malformed_id_at_the_service
  (env : Env) (id : jsstring) (name : option jsstring) (s : UserStore) :
  User.castObjectId id = None ->
  UserService.getUserById id s
  = (Throw (mkAppError "ID de usuário inválido" 400), s)
  /\ UserRemoval.deleteUser id s
     = (Throw (mkAppError "Erro interno ao remover usuário" 500), s)
  /\ UserService.updateUser env id name None s
     = (Throw (mkAppError "Erro interno ao atualizar usuário" 500), s)
  /\ UserRemoval.userExists id s = (false, s).
Proof.
  intros H.
  unfold UserService.getUserById, UserRemoval.deleteUser,
    UserRemoval.findByIdAndDelete, UserService.updateUser,
    User.findByIdAndUpdate, UserRemoval.userExists, User.findById.
  rewrite H. cbn. repeat split.
Qed.

Lemma malformed_id_at_the_service_witness :
  UserService.getUserById (JS.lit "invalid-id") (usersOf 3)
  = (Throw (mkAppError "ID de usuário inválido" 400), usersOf 3)
  /\ UserRemoval.deleteUser (JS.lit "invalid-id") (usersOf 3)
     = (Throw (mkAppError "Erro interno ao remover usuário" 500), usersOf 3)
  /\ UserService.updateUser devEnv (JS.lit "invalid-id")
       (Some (JS.lit "Ana")) None (usersOf 3)
     = (Throw (mkAppError "Erro interno ao atualizar usuário" 500), usersOf 3)
  /\ UserRemoval.userExists (JS.lit "invalid-id") (usersOf 3)
     = (false, usersOf 3).
Proof.
  apply (malformed_id_at_the_service devEnv (JS.lit "invalid-id")
           (Some (JS.lit "Ana")) (usersOf 3)).
  reflexivity.
Defined.

(** ** The routes on an identifier *)

Lemma objectIdPattern_cast (p : jsstring) :
  RouteParams.objectIdPattern p = true ->
  User.castObjectId p = Some (JS.toLowerCase p) /\ p <> [].
Proof.
  unfold RouteParams.objectIdPattern, User.castObjectId. intros H.
  rewrite H. split; [reflexivity|]. intros ->. discriminate.
Qed.

Lemma settle_notFound (env : Env) (stack : option string) (msg : string) :
  msg <> ""%string ->
  exists r, ErrorHandler.settle env stack (Throw (mkAppError msg 404)) = Some r
            /\ status r = 404 /\ success r = false /\ resMessage r = msg.
Proof.
  intros Hm. unfold ErrorHandler.settle, ErrorHandler.globalErrorHandler.
  cbn. destruct msg; [contradiction|]. cbn.
  eexists. split; [reflexivity|]. now cbn.
Qed.

(** X14. On the routes [GET /:id], [DELETE /:id] and [GET /:id/exists]
    a parameter that is not 24 hexadecimal digits is answered 400 by
    the middleware and nothing is read or written, so the 500 of the
    service for such an identifier never shows.  For a parameter of
    that form, a user that exists is answered 200 by all three and is
    removed by the second; a user that does not is answered 404 by
    the first two and 200 by the third, and nothing changes. *)
Theorem id_routes
  (env : Env) (stack : option string) (param : option jsstring)
  (s : UserStore) :
  (match param with
   | Some p => RouteParams.objectIdPattern p
   | None => false
   end = false ->
   exists r,
     status r = 400
     /\ RouteParams.getUser env stack param s = (Some r, s)
     /\ RouteParams.deleteUserRoute env stack param s = (Some r, s)
     /\ RouteParams.userExistsRoute env stack param s = (Some r, s))
  /\ (forall p,
         param = Some p -> RouteParams.objectIdPattern p = true ->
         exists rg rd re s1,
           RouteParams.getUser env stack param s = (Some rg, s)
           /\ RouteParams.deleteUserRoute env stack param s = (Some rd, s1)
           /\ RouteParams.userExistsRoute env stack param s = (Some re, s)
           /\ status re = 200
           /\ status rg = status rd
           /\ if fst (UserRemoval.userExists p s)
              then status rg = 200 /\ S (List.length s1) = List.length s
              else status rg = 404 /\ s1 = s).
Proof.
  split.
  - intros Hbad.
    unfold RouteParams.getUser, RouteParams.deleteUserRoute,
      RouteParams.userExistsRoute, RouteParams.onId,
      RouteParams.validateRouteParams.
    destruct param as [[|c p]|].
    + eexists. split; [|repeat split]. reflexivity.
    + rewrite Hbad. cbn [String.eqb Ascii.eqb Bool.eqb orb andb negb].
      eexists. split; [|repeat split]. reflexivity.
    + eexists. split; [|repeat split]. reflexivity.
  - intros p -> Hp.
    destruct (objectIdPattern_cast p Hp) as [Hcast Hne].
    unfold RouteParams.getUser, RouteParams.deleteUserRoute,
      RouteParams.userExistsRoute, RouteParams.onId,
      RouteParams.validateRouteParams.
    destruct p as [|c p]; [contradiction|].
    rewrite Hp. cbn [String.eqb Ascii.eqb Bool.eqb orb andb negb].
    unfold RouteParams.deleteUser, RouteParams.checkUserExists,
      UserController.getUserById, UserController.answer,
      UserRemoval.deleteUser, UserRemoval.findByIdAndDelete,
      UserRemoval.userExists, UserService.getUserById, User.findById.
    rewrite Hcast.
    destruct (find (fun u => JS.eqb (IUser._id u) (JS.toLowerCase (c :: p))) s)
      as [u|] eqn:Ef.
    + apply find_split in Ef as (l1 & l2 & -> & Hu & Hl).
      rewrite (removeById_split _ l1 l2 u Hu Hl).
      do 4 eexists. repeat split.
      rewrite !length_app. cbn. lia.
    + destruct (settle_notFound env stack "Usuário não encontrado")
        as (r & Hr & Hs & _); [discriminate|].
      cbn [fst snd]. rewrite Hr.
      do 4 eexists. split; [reflexivity|]. split; [reflexivity|].
      split; [reflexivity|]. repeat split. exact Hs.
Qed.

Lemma id_routes_witness :
  (exists r,
      status r = 400
      /\ RouteParams.getUser devEnv None (Some (JS.lit "invalid-id"))
                             (usersOf 3)
         = (Some r, usersOf 3)
      /\ RouteParams.deleteUserRoute devEnv None (Some (JS.lit "invalid-id"))
                                     (usersOf 3)
         = (Some r, usersOf 3)
      /\ RouteParams.userExistsRoute devEnv None (Some (JS.lit "invalid-id"))
                                     (usersOf 3)
         = (Some r, usersOf 3))
  /\ exists rg rd re s1,
      RouteParams.getUser devEnv None
        (Some (JS.lit "65a000000000000000000001")) (usersOf 3)
      = (Some rg, usersOf 3)
      /\ RouteParams.deleteUserRoute devEnv None
           (Some (JS.lit "65a000000000000000000001")) (usersOf 3)
         = (Some rd, s1)
      /\ RouteParams.userExistsRoute devEnv None
           (Some (JS.lit "65a000000000000000000001")) (usersOf 3)
         = (Some re, usersOf 3)
      /\ status re = 200
      /\ status rg = status rd
      /\ if fst (UserRemoval.userExists (JS.lit "65a000000000000000000001")
                   (usersOf 3))
         then status rg = 200 /\ S (List.length s1) = List.length (usersOf 3)
         else status rg = 404 /\ s1 = usersOf 3.
Proof.
  split.
  - apply (proj1 (id_routes devEnv None (Some (JS.lit "invalid-id"))
                    (usersOf 3))).
    reflexivity.
  - apply (proj2 (id_routes devEnv None
                    (Some (JS.lit "65a000000000000000000001")) (usersOf 3))
             (JS.lit "65a000000000000000000001")); reflexivity.
Defined.


(** ** Pages *)

Lemma listUsers_ok (page limit : Z) (s : UserStore) :
  1 <= page -> 1 <= limit ->
  UserService.listUsers page limit s
  = (Ok (UserList.mk
           (map User.toResponseObject (pageOf page limit s))
           (Pagination.mk page limit (len s) (Num (pagesOn limit s))
              (page <? pagesOn limit s) (1 <? page))), s)
  /\ limit * (pagesOn limit s - 1) < len s <= limit * pagesOn limit s.
Proof.
  intros Hp Hl.
  destruct (ceilDiv_bounds (len s) limit) as (pages & Hc & Hb); [lia|].
  unfold pagesOn. rewrite Hc. split; [|exact Hb].
  unfold UserService.listUsers, User.findPage, User.skip, User.limit,
    User.countDocuments, pageOf.
  cbn [Number.mul Number.sub ceilQuotient].
  assert (Hs : ((page - 1) * limit <? 0) = false) by (apply Z.ltb_ge; nia).
  assert (Hz : (limit =? 0) = false) by (apply Z.eqb_neq; lia).
  rewrite Hs, Hz, Hc, Z.abs_eq by lia. cbn [Number.ltb].
  now rewrite map_map.
Qed.

Lemma pageOf_length (page limit : Z) (s : UserStore) :
  1 <= page -> 1 <= limit ->
  len (pageOf page limit s)
  = Z.min limit (Z.max 0 (len s - (page - 1) * limit)).
Proof.
  intros Hp Hl. unfold pageOf, len.
  rewrite length_firstn, length_skipn, sortNewest_length. nia.
Qed.

Lemma firstn_plus {A : Type} (a b : nat) (l : list A) :
  firstn (a + b) l = firstn a l ++ firstn b (skipn a l).
Proof.
  revert l; induction a as [|a IH]; intros l; [reflexivity|].
  destruct l as [|x l]; cbn; [now rewrite firstn_nil|]. now rewrite IH.
Qed.

Lemma usersOn_pages (limit : Z) (s : UserStore) (k : nat) :
  1 <= limit ->
  flat_map (fun i => usersOn (Z.of_nat i) limit s) (seq 1 k)
  = map User.toResponseObject
        (firstn (k * Z.to_nat limit) (User.sortNewest s)).
Proof.
  intros Hl. induction k as [|k IH]; [reflexivity|].
  rewrite seq_S, flat_map_app, IH. cbn [flat_map Nat.add].
  rewrite app_nil_r. unfold usersOn.
  rewrite (proj1 (listUsers_ok (Z.of_nat (S k)) limit s ltac:(lia) Hl)).
  cbn [fst UserList.users]. unfold pageOf.
  rewrite <- map_app. f_equal.
  replace (Z.to_nat ((Z.of_nat (S k) - 1) * limit))
    with (k * Z.to_nat limit)%nat by nia.
  replace (S k * Z.to_nat limit)%nat
    with (k * Z.to_nat limit + Z.to_nat limit)%nat by lia.
  symmetry. apply firstn_plus.
Qed.

(** X15. For a page size of at least 1, every page from 1 on reports
    the same number of pages, and the pages 1 to that number, one
    after the other, are the whole collection newest first: each user
    is on exactly one page and none is left out. *)
Theorem pages_cover_the_collection (limit : Z) (s : UserStore) :
  1 <= limit ->
  (forall page, 1 <= page ->
     exists l, fst (UserService.listUsers page limit s) = Ok l
               /\ Pagination.pages (UserList.pagination l)
                  = Num (pagesOn limit s)
               /\ Pagination.total (UserList.pagination l) = len s)
  /\ flat_map (fun i => usersOn (Z.of_nat i) limit s)
              (seq 1 (Z.to_nat (pagesOn limit s)))
     = map User.toResponseObject (User.sortNewest s).
Proof.
  intros Hl. split.
  - intros page Hp.
    destruct (listUsers_ok page limit s Hp Hl) as [-> _].
    eexists. repeat split.
  - rewrite (usersOn_pages limit s _ Hl).
    destruct (listUsers_ok 1 limit s ltac:(lia) Hl) as [_ Hb].
    rewrite firstn_all2; [reflexivity|].
    rewrite sortNewest_length. unfold len in Hb. nia.
Qed.

Lemma pages_cover_the_collection_witness :
  (forall page, 1 <= page ->
     exists l, fst (UserService.listUsers page 10 (usersOf 25)) = Ok l
               /\ Pagination.pages (UserList.pagination l)
                  = Num (pagesOn 10 (usersOf 25))
               /\ Pagination.total (UserList.pagination l)
                  = len (usersOf 25))
  /\ flat_map (fun i => usersOn (Z.of_nat i) 10 (usersOf 25))
              (seq 1 (Z.to_nat (pagesOn 10 (usersOf 25))))
     = map User.toResponseObject (User.sortNewest (usersOf 25)).
Proof. apply (pages_cover_the_collection 10 (usersOf 25)). lia. Defined.

(** X16. [hasNext] tells the truth: for a page and a page size of at
    least 1 it is true exactly when the next page has a user on it;
    a page past the last one is empty. *)
Theorem hasNext_iff_next_page (page limit : Z) (s : UserStore) :
  1 <= page -> 1 <= limit ->
  (hasNextOn page limit s = true <-> usersOn (page + 1) limit s <> [])
  /\ (pagesOn limit s < page -> usersOn page limit s = []).
Proof.
  intros Hp Hl. unfold hasNextOn, usersOn.
  destruct (listUsers_ok page limit s Hp Hl) as [-> Hb].
  destruct (listUsers_ok (page + 1) limit s ltac:(lia) Hl) as [-> _].
  cbn [fst UserList.users UserList.pagination Pagination.hasNext].
  pose proof (pageOf_length (page + 1) limit s ltac:(lia) Hl) as Hn.
  pose proof (pageOf_length page limit s Hp Hl) as Hc.
  split.
  - rewrite Z.ltb_lt. split.
    + intros H E. apply map_eq_nil in E. rewrite E in Hn.
      unfold len in Hn at 1. cbn in Hn. nia.
    + intros H. destruct (Z_lt_ge_dec page (pagesOn limit s)) as [?|Hge];
        [assumption|]. exfalso. apply H.
      destruct (pageOf (page + 1) limit s) eqn:E; [reflexivity|].
      unfold len in Hn at 1. cbn [List.length] in Hn. nia.
  - intros Hpast.
    destruct (pageOf page limit s) eqn:E; [reflexivity|].
    unfold len in Hc at 1. cbn [List.length] in Hc. nia.
Qed.

Lemma hasNext_iff_next_page_witness :
  (hasNextOn 2 10 (usersOf 25) = true <-> usersOn (2 + 1) 10 (usersOf 25) <> [])
  /\ (pagesOn 10 (usersOf 25) < 2 -> usersOn 2 10 (usersOf 25) = []).
Proof. apply (hasNext_iff_next_page 2 10 (usersOf 25)); lia. Defined.

(** ** The route validation against the schema *)

Lemma validateName_none (v : jsstring) :
  UserSchema.validateName v = None
  <-> 2 <= len v <= 100 /\ forallb UserSchema.nameChar v = true.
Proof.
  unfold UserSchema.validateName, UserSchema.nameRegex.
  destruct (JS.truthy v) eqn:Ht; cbn [negb].
  - destruct (len v <? 2) eqn:H2;
      [apply Z.ltb_lt in H2; split; [discriminate | lia]|].
    destruct (100 <? len v) eqn:H100;
      [apply Z.ltb_lt in H100; split; [discriminate | lia]|].
    apply Z.ltb_ge in H2, H100. cbn [andb].
    destruct (forallb UserSchema.nameChar v); cbn [negb]; split;
      try discriminate; try (intros [_ H]; discriminate); intros _;
      split; [lia | reflexivity].
  - split; [discriminate|]. intros [H _].
    assert (0 < len v) by lia. apply truthy_len in H0. congruence.
Qed.

(** X17. The route and the schema agree on names: the name of a
    creation request passes [sanitizeInput] and the chain of
    [validateUserCreation] exactly when the schema accepts the
    trimmed name the service hands to it. *)
Theorem name_route_agrees_with_schema (name : jsstring) :
  Validation.nameAccepted name = true
  <-> UserSchema.validateName (UserSchema.nameSetters (JS.trim name)) = None.
Proof.
  unfold UserSchema.nameSetters.
  now rewrite trim_idem, nameAccepted_iff, validateName_none.
Qed.

Lemma surrogatePairs_bounds (v : jsstring) :
  0 <= Validation.surrogatePairs v.
Proof.
  assert (H : forall n (w : jsstring), (List.length w <= n)%nat ->
                                       0 <= Validation.surrogatePairs w).
  { induction n as [|n IH]; intros w Hw.
    - destruct w; [cbn; lia | cbn in Hw; lia].
    - destruct w as [|a [|b r]]; try (cbn; lia).
      assert (E : Validation.surrogatePairs (a :: b :: r)
                  = if Validation.highSurrogate a && Validation.lowSurrogate b
                    then 1 + Validation.surrogatePairs r
                    else Validation.surrogatePairs (b :: r)) by reflexivity.
      rewrite E. cbn [List.length] in Hw.
      destruct (Validation.highSurrogate a && Validation.lowSurrogate b).
      + assert (0 <= Validation.surrogatePairs r) by (apply IH; lia). lia.
      + apply IH. cbn [List.length]. lia. }
  now apply (H (List.length v)).
Qed.

Lemma presentationSequences_bounds (v : jsstring) :
  0 <= Validation.presentationSequences v.
Proof. unfold Validation.presentationSequences, len. lia. Qed.

(** X18. On passwords the route is the more lenient of the two: a
    password the chain of [validateUserCreation] passes is accepted
    by the schema when it has at most 128 code units, and a password
    the schema accepts passes the chain when it has no surrogate pair
    and no variation selector, which the chain does not count. *)
Theorem password_route_and_schema (password : jsstring) :
  (Validation.passwordChain password = [] -> len password <= 128 ->
   UserSchema.validatePassword password = None)
  /\ (UserSchema.validatePassword password = None ->
      Validation.surrogatePairs password = 0 ->
      Validation.presentationSequences password = 0 ->
      Validation.passwordChain password = []).
Proof.
  unfold Validation.passwordChain, Validation.isLength,
    UserSchema.validatePassword.
  pose proof (surrogatePairs_bounds password) as Hs.
  pose proof (presentationSequences_bounds password) as Hq.
  split.
  - destruct ((8 <=? _) && (_ <=? 128)) eqn:E; [|discriminate].
    destruct (UserSchema.passwordRegex password) eqn:R; [|discriminate].
    intros _ H128. apply andb_prop in E as [E8 _]. apply Z.leb_le in E8.
    assert (Ht : JS.truthy password = true) by (apply truthy_len; lia).
    rewrite Ht. cbn [negb].
    assert (H1 : (len password <? 8) = false) by (apply Z.ltb_ge; lia).
    assert (H2 : (128 <? len password) = false) by (apply Z.ltb_ge; lia).
    now rewrite H1, H2.
  - destruct (JS.truthy password); cbn [negb]; [|discriminate].
    destruct (len password <? 8) eqn:H8; [discriminate|].
    destruct (128 <? len password) eqn:H128; [discriminate|].
    destruct (UserSchema.passwordRegex password); [|discriminate].
    intros _ -> ->. apply Z.ltb_ge in H8, H128.
    assert (E : (8 <=? len password - 0 - 0) && (len password - 0 - 0 <=? 128)
                = true).
    { apply andb_true_intro. split; apply Z.leb_le; lia. }
    now rewrite E.
Qed.

Lemma password_route_and_schema_witness :
  UserSchema.validatePassword (JS.lit "MinhaSenh@123") = None
  /\ Validation.passwordChain (JS.lit "MinhaSenh@123") = [].
Proof.
  split.
  - apply (proj1 (password_route_and_schema (JS.lit "MinhaSenh@123")));
      [reflexivity | unfold len; cbn; lia].
  - apply (proj2 (password_route_and_schema (JS.lit "MinhaSenh@123")));
      reflexivity.
Defined.


(** ** The global error handler *)

(** X19. An error thrown by a service reaches the client with its own
    status and message: for an [AppError] with a status other than 0
    and a message, the answer has that status and message, no data,
    and the stack only in development mode. *)
Theorem appError_keeps_status
  (env : Env) (stack : option string) (e : AppError) :
  statusCode e <> 0 -> message e <> ""%string ->
  exists r,
    ErrorHandler.settle env stack (Throw e) = Some r
    /\ status r = statusCode e /\ success r = false
    /\ resMessage r = message e /\ data r = None
    /\ error r = if ErrorHandler.isDevelopment env then stack else None.
Proof.
  intros Hc Hm. destruct e as [msg code]. cbn in Hc, Hm.
  unfold ErrorHandler.settle, ErrorHandler.globalErrorHandler,
    ErrorHandler.ofAppError.
  cbn [ErrorHandler.e_statusCode ErrorHandler.e_isOperational
         ErrorHandler.e_message ErrorHandler.e_stack ErrorHandler.e_name
         ErrorHandler.e_errors ErrorHandler.e_code ErrorHandler.e_keyPattern
         ErrorHandler.e_hasBody orb message statusCode].
  assert (Hz : (code =? 0) = false) by now apply Z.eqb_neq.
  rewrite Hz.
  assert (Hn : ErrorHandler.nonEmpty msg = true) by now destruct msg.
  rewrite Hn. cbn. eexists. split; [reflexivity|]. now cbn.
Qed.

Lemma appError_keeps_status_witness :
  exists r,
    ErrorHandler.settle prodEnv (Some "Error: at createUser"%string)
      (fst (UserController.createUser prodEnv requestABUpper
              (snd (UserService.createUser
                      (idEnv 1000 "65a000000000000000000001") requestAB []))))
    = Some r
    /\ status r = 409 /\ success r = false
    /\ resMessage r = "Email já está em uso"%string /\ data r = None
    /\ error r = if ErrorHandler.isDevelopment prodEnv
                 then Some "Error: at createUser"%string else None.
Proof.
  apply (appError_keeps_status prodEnv (Some "Error: at createUser"%string)
           (mkAppError "Email já está em uso" 409)); discriminate.
Defined.

(** X20. Outside development mode the answer to an error never
    depends on its stack; and for an error that is not operational
    and settles on a server-error status it does not depend on its
    message either: nothing of a programming error is told to the
    client. *)
Theorem no_leak_outside_development (env : Env) :
  ErrorHandler.isDevelopment env = false ->
  (forall e,
      ErrorHandler.globalErrorHandler env e
      = ErrorHandler.globalErrorHandler env (withoutStack e))
  /\ (forall e,
         ErrorHandler.e_isOperational e = false -> serverError e ->
         ErrorHandler.globalErrorHandler env e
         = ErrorHandler.globalErrorHandler env (redacted e)).
Proof.
  intros Hdev. split.
  - intros e. unfold ErrorHandler.globalErrorHandler, withoutStack.
    rewrite Hdev. destruct e as [nm msg sc op st errs code kp hb].
    cbn [ErrorHandler.e_statusCode ErrorHandler.e_isOperational
           ErrorHandler.e_message ErrorHandler.e_stack ErrorHandler.e_name
           ErrorHandler.e_errors ErrorHandler.e_code ErrorHandler.e_keyPattern
           ErrorHandler.e_hasBody].
    now destruct (op || _).
  - intros e Hop Hs. unfold ErrorHandler.globalErrorHandler, redacted.
    rewrite Hdev. destruct e as [nm msg sc op st errs code kp hb].
    unfold serverError in Hs. cbn in Hop, Hs |- *. subst op. cbn [orb].
    assert (Hlt : (match sc with
                   | Some c => if c =? 0 then 500 else c
                   | None => 500
                   end <? 500) = false).
    { apply Z.ltb_ge. destruct sc as [c|]; [|lia].
      destruct (c =? 0) eqn:E; [lia|]. apply Z.eqb_neq in E. lia. }
    rewrite Hlt. reflexivity.
Qed.

Lemma no_leak_outside_development_witness :
  (forall e,
      ErrorHandler.globalErrorHandler prodEnv e
      = ErrorHandler.globalErrorHandler prodEnv (withoutStack e))
  /\ (forall e,
         ErrorHandler.e_isOperational e = false -> serverError e ->
         ErrorHandler.globalErrorHandler prodEnv e
         = ErrorHandler.globalErrorHandler prodEnv (redacted e)).
Proof. apply (no_leak_outside_development prodEnv). reflexivity. Defined.

Example typeError_in_production :
  ErrorHandler.globalErrorHandler prodEnv typeError
  = Some (ApiResponseUtil.error prodEnv "Erro interno do servidor" 500 None)
  /\ ErrorHandler.globalErrorHandler devEnv typeError
     = Some (ApiResponseUtil.error devEnv
               "Cannot read properties of undefined" 500
               (Some "TypeError: at UserService.createUser"%string)).
Proof. split; reflexivity. Qed.

(** ** The body sanitizer *)

Lemma sanitizeField_again (kv kv' : string * json) :
  In kv' (RouteParams.sanitizeField kv) ->
  RouteParams.sanitizeField kv' = [kv']
  /\ isNull (snd kv') = false
  /\ fst kv' = fst kv
  /\ (forall t, snd kv' = JStr t -> JS.trim t = t).
Proof.
  destruct kv as [k v]. unfold RouteParams.sanitizeField.
  destruct v; cbn [snd fst]; intros H; try (destruct H as [<-|[]]);
    try contradiction; cbn; repeat split; try discriminate.
  - now rewrite trim_idem.
  - intros t E. inversion E. apply trim_idem.
Qed.

(** X21. [sanitizeInput] on a body: no field of the result is null,
    every text field is trimmed, the other fields are as they were and
    in the same order, no field is added, and sanitizing twice is the
    same as once.  Text inside an array or an object is not touched. *)
Theorem sanitizeBody_properties (body : list (string * json)) :
  RouteParams.sanitizeBody (RouteParams.sanitizeBody body)
  = RouteParams.sanitizeBody body
  /\ (forall k v, In (k, v) (RouteParams.sanitizeBody body) ->
                  v <> JNull /\ forall t, v = JStr t -> JS.trim t = t)
  /\ map fst (RouteParams.sanitizeBody body)
     = map fst (filter (fun kv => negb (isNull (snd kv))) body)
  /\ (forall k v, In (k, v) body ->
                  match v with JNull | JStr _ => True
                          | _ => In (k, v) (RouteParams.sanitizeBody body) end).
Proof.
  unfold RouteParams.sanitizeBody. repeat split.
  - induction body as [|kv r IH]; [reflexivity|].
    cbn [flat_map]. rewrite flat_map_app, IH. f_equal.
    assert (H : forall l, (forall x, In x l ->
                                     RouteParams.sanitizeField x = [x]) ->
                          flat_map RouteParams.sanitizeField l = l).
    { induction l as [|x l IHl]; [reflexivity|]. intros Hx. cbn.
      rewrite (Hx x (or_introl eq_refl)). cbn. f_equal. apply IHl.
      intros y Hy. apply Hx. now right. }
    apply H. intros x Hx. now apply (sanitizeField_again kv).
  - apply in_flat_map in H as (kv & _ & H).
    apply sanitizeField_again in H as (_ & Hn & _). cbn in Hn.
    intros ->. discriminate.
  - apply in_flat_map in H as (kv & _ & H).
    apply sanitizeField_again in H as (_ & _ & _ & Ht). exact Ht.
  - induction body as [|[k v] r IH]; [reflexivity|].
    cbn [flat_map filter snd]. rewrite map_app, IH.
    destruct v; reflexivity.
  - intros k v Hin. destruct v; try exact I; apply in_flat_map;
      eexists; (split; [exact Hin|now left]).
Qed.

Example sanitizeBody_sample :
  RouteParams.sanitizeBody sampleBody
  = [("name"%string, JStr (JS.lit "Ana Braga"));
     ("email"%string, JStr (JS.lit "a@b.com"));
     ("age"%string, JNum 30);
     ("tags"%string, JArr [JStr (JS.lit " x "); JNull])].
Proof. reflexivity. Qed.

(** ** Connecting to the database *)

(** X22. [connect] at the start of the process calls
    [mongoose.connect] at most 6 times, whatever budget of calls
    beyond 6 it is given: it ends connected at the first call that
    succeeds, with the retry counter back at 0, and ends the process
    after the sixth call exactly when all six fail. *)
Theorem connect_retries (succeeds : nat -> bool) (fuel : nat) :
  (6 <= fuel)%nat ->
  exists o,
    Database.connect fuel succeeds 0 0 = Some o
    /\ match o with
       | Database.Connected retries n =>
           retries = 0 /\ (1 <= n <= 6)%nat
           /\ succeeds (n - 1)%nat = true
           /\ forall j, (j < n - 1)%nat -> succeeds j = false
       | Database.Exited n =>
           n = 6%nat /\ forall j, (j < 6)%nat -> succeeds j = false
       end.
Proof.
  intros Hf.
  do 6 (destruct fuel as [|fuel]; [lia|]). clear Hf.
  cbn [Database.connect].
  destruct (succeeds 0%nat) eqn:E0;
    [|cbn; destruct (succeeds 1%nat) eqn:E1;
      [|cbn; destruct (succeeds 2%nat) eqn:E2;
        [|cbn; destruct (succeeds 3%nat) eqn:E3;
          [|cbn; destruct (succeeds 4%nat) eqn:E4;
            [|cbn; destruct (succeeds 5%nat) eqn:E5]]]]];
    eexists; (split; [reflexivity|]); cbn;
    repeat split; try lia; try assumption;
    intros j Hj;
    do 6 (destruct j as [|j]; [assumption || lia|]); lia.
Qed.

Lemma connect_retries_witness :
  exists o,
    Database.connect 9 thirdTime 0 0 = Some o
    /\ match o with
       | Database.Connected retries n =>
           retries = 0 /\ (1 <= n <= 6)%nat
           /\ thirdTime (n - 1)%nat = true
           /\ forall j, (j < n - 1)%nat -> thirdTime j = false
       | Database.Exited n =>
           n = 6%nat /\ forall j, (j < 6)%nat -> thirdTime j = false
       end.
Proof. apply (connect_retries thirdTime 9). lia. Defined.

Example connect_third_time :
  Database.connect 9 thirdTime 0 0 = Some (Database.Connected 0 3)
  /\ Database.connect 9 (fun _ => false) 0 0 = Some (Database.Exited 6).
Proof. split; reflexivity. Qed.

(** ** The address pattern *)

Lemma splitAtSign_some (v a d : jsstring) :
  UserSchema.splitAtSign v = Some (a, d) ->
  v = a ++ 64%N :: d /\ forall c, In c a -> c <> 64%N.
Proof.
  revert a; induction v as [|c r IH]; intros a; [discriminate|]. cbn.
  destruct (N.eqb_spec c 64) as [->|Hc].
  - intros H. inversion H; subst. split; [reflexivity | intros c []].
  - destruct (UserSchema.splitAtSign r) as [[a' d']|]; [|discriminate].
    intros H. inversion H; subst. destruct (IH a' eq_refl) as [-> Ha].
    split; [reflexivity|]. intros x [<-|Hx]; [exact Hc | now apply Ha].
Qed.

Lemma splitAtSign_app (x d : jsstring) :
  forallb UserSchema.plainChar x = true ->
  UserSchema.splitAtSign (x ++ 64%N :: d) = Some (x, d).
Proof.
  induction x as [|c r IH]; [reflexivity|]. cbn [forallb app].
  intros H. apply andb_prop in H as [Hc Hr]. cbn.
  unfold UserSchema.plainChar in Hc. apply andb_prop in Hc as [_ Hc].
  apply negb_true_iff in Hc. now rewrite Hc, (IH Hr).
Qed.

Lemma dotBeforeEnd_iff (v : jsstring) :
  UserSchema.dotBeforeEnd v = true
  <-> exists y z, v = y ++ 46%N :: z /\ z <> [].
Proof.
  induction v as [|c r IH]; cbn.
  - split; [discriminate|]. intros (y & z & H & _). now destruct y.
  - rewrite orb_true_iff, andb_true_iff, IH. split.
    + intros [[Hc Hr]|(y & z & -> & Hz)].
      * apply N.eqb_eq in Hc. subst. exists [], r. split; [reflexivity|].
        now destruct r.
      * exists (c :: y), z. now split.
    + intros (y & z & H & Hz). destruct y as [|a y]; cbn in H;
        inversion H; subst.
      * left. split; [reflexivity | now destruct z].
      * right. now exists y, z.
Qed.

(** X23. The pattern of the e-mail path accepts exactly the texts
    [x@y.z] in which [x], [y] and [z] are non-empty and hold neither
    white space nor [@]; so an accepted address has one [@] only and
    a dot inside its domain. *)
Theorem emailRegex_language (v : jsstring) :
  UserSchema.emailRegex v = true
  <-> exists x y z,
      v = x ++ 64%N :: y ++ 46%N :: z
      /\ x <> [] /\ y <> [] /\ z <> []
      /\ forallb UserSchema.plainChar (x ++ y ++ z) = true.
Proof.
  unfold UserSchema.emailRegex. split.
  - destruct (UserSchema.splitAtSign v) as [[a d]|] eqn:E; [|discriminate].
    apply splitAtSign_some in E as [-> _].
    rewrite !andb_true_iff. intros [[[Ha Hpa] Hpd] Hdot].
    destruct d as [|c r]; [discriminate|].
    apply dotBeforeEnd_iff in Hdot as (y & z & -> & Hz).
    exists a, (c :: y), z. repeat split; try easy.
    + now destruct a.
    + rewrite forallb_app. rewrite Hpa. cbn [andb].
      change (c :: y ++ 46%N :: z) with ((c :: y) ++ 46%N :: z) in Hpd.
      rewrite forallb_app in Hpd. apply andb_prop in Hpd as [Hy Hz'].
      cbn [forallb] in Hz'. apply andb_prop in Hz' as [_ Hz'].
      now rewrite forallb_app, Hy, Hz'.
  - intros (x & y & z & -> & Hx & Hy & Hz & Hp).
    rewrite !forallb_app in Hp. apply andb_prop in Hp as [Hpx Hp].
    apply andb_prop in Hp as [Hpy Hpz].
    rewrite (splitAtSign_app x _ Hpx).
    destruct y as [|c y]; [contradiction|].
    rewrite !andb_true_iff. repeat split.
    + now destruct x.
    + exact Hpx.
    + change (forallb UserSchema.plainChar ((c :: y) ++ 46%N :: z) = true).
      rewrite forallb_app, Hpy. cbn [andb forallb]. now rewrite Hpz.
    + apply dotBeforeEnd_iff. now exists y, z.
Qed.

Example emailRegex_samples :
  map (fun v => UserSchema.emailRegex (JS.lit v))
      ["joao.silva@test.com"; "invalid-email"; "a@b"; "a@.b"; "a@b."; "a@b.c";
       "a b@c.d"; "a@b@c.d"; "@b.c"; "a@b..c"]%string
  = [true; false; false; false; false; true; false; false; false; true].
Proof. reflexivity. Qed.
